(** * Computer_info: CPU topology, cache and frequency gathering

    A shallow embedding of [src/cpu_info.c] and theorems about it.

    Conventions of the embedding.
    - A C [int] is a [Z]; where the source can leave the 32-bit range
      ([atoi], the shift of the grouping key, the multiplication of a cache
      size) the wrap-around is written out with [wrap32].
    - A [char] array is the [list ascii] of its bytes before the
      terminating NUL that [fgets] appends; a byte read from a file may
      itself be NUL, and the string functions stop there ([c_string]).
    - A pointer to a heap array is an [option (list A)]: [None] is the null
      pointer, [Some l] an allocated block whose cells are [l].
    - A computation that may leave the behaviour defined by C (a store
      through a null pointer or outside an allocated block) is an [option]:
      [None] stands for undefined behaviour.
    - The platform (sysfs files, CPUID, the allocator, the Windows API) is a
      record of functions; it does not change while one call runs. *)

From Stdlib Require Import ZArith Ascii String List Lia Bool Permutation.
From stdpp Require Import base option list.

Open Scope Z_scope.

(** ** Machine integers *)

Definition wrap32 (x : Z) : Z := (x + 2 ^ 31) mod 2 ^ 32 - 2 ^ 31.

Definition in_int (x : Z) : Prop := - 2 ^ 31 <= x < 2 ^ 31.

(** ** C strings and the libc scanners the source relies on *)

Definition chars (s : string) : list ascii := list_ascii_of_string s.

Definition code (c : ascii) : Z := Z.of_N (N_of_ascii c).

Definition is_char (k : Z) (c : ascii) : bool := code c =? k.

Definition comma : Z := 44.
Definition dash : Z := 45.
Definition plus : Z := 43.
Definition newline : Z := 10.

(** [isspace] in the C locale: space, \t, \n, \v, \f, \r. *)
Definition isspace (c : ascii) : bool :=
  (code c =? 32) || ((9 <=? code c) && (code c <=? 13)).

Definition digit_of (c : ascii) : option Z :=
  if (48 <=? code c) && (code c <=? 57) then Some (code c - 48) else None.

Fixpoint skip_space (s : list ascii) : list ascii :=
  match s with
  | c :: s' => if isspace c then skip_space s' else s
  | [] => []
  end.

(** The digits of a decimal conversion: accumulate while digits last. *)
Fixpoint scan_digits (acc : Z) (s : list ascii) : Z * list ascii :=
  match s with
  | c :: s' =>
      match digit_of c with
      | Some d => scan_digits (10 * acc + d) s'
      | None => (acc, s)
      end
  | [] => (acc, [])
  end.

(** [strtol] of the C library converts to a [long] of 64 bits and keeps a
    value outside its range at [LONG_MAX] or [LONG_MIN]. *)
Definition LONG_MAX : Z := 2 ^ 63 - 1.
Definition LONG_MIN : Z := - 2 ^ 63.

Definition saturate (x : Z) : Z := Z.max LONG_MIN (Z.min LONG_MAX x).

(** One [%d] conversion (also the work of [strtol] base 10 behind [atoi]):
    skip white space, take an optional sign, then at least one digit.
    The digits are converted as a [long], which saturates, and the result
    is stored in an [int], which keeps the low 32 bits.
    [None] is a matching failure; otherwise the value and the unread rest.
    A NUL byte is neither white space nor a digit, so the scan ends there. *)
Definition scan_int (s : list ascii) : option (Z * list ascii) :=
  let s1 := skip_space s in
  let '(neg, s2) :=
    match s1 with
    | c :: t => if is_char dash c then (true, t)
                else if is_char plus c then (false, t)
                else (false, s1)
    | [] => (false, s1)
    end in
  match s2 with
  | c :: _ =>
      match digit_of c with
      | Some _ =>
          let '(v, rest) := scan_digits 0 s2 in
          Some (wrap32 (saturate (if neg then - v else v)), rest)
      | None => None
      end
  | [] => None
  end.

Definition atoi (s : list ascii) : Z :=
  match scan_int s with
  | Some (v, _) => v
  | None => 0
  end.

(** A [char] array read as a C string: the bytes before the first NUL. *)
Fixpoint c_string (bytes : list ascii) : list ascii :=
  match bytes with
  | c :: rest => if is_char 0 c then [] else c :: c_string rest
  | [] => []
  end.

(** [strchr(buf, c) != NULL] for a character [c] other than NUL: the
    search ends at the first NUL of the array. *)
Definition strchr (buf : list ascii) (k : Z) : bool := existsb (is_char k) (c_string buf).

(** What [sscanf(tok, "%d-%d", &a, &b)] converted. [Conv0] covers the return
    values 0 and EOF, [Conv1 a] the return value 1, [Conv2 a b] the value 2. *)
Inductive conversions : Type :=
  | Conv0
  | Conv1 (a : Z)
  | Conv2 (a b : Z).

Definition sscanf_d_dash_d (tok : list ascii) : conversions :=
  match scan_int tok with
  | None => Conv0
  | Some (a, rest) =>
      match rest with
      | c :: rest' =>
          if is_char dash c then
            match scan_int rest' with
            | Some (b, _) => Conv2 a b
            | None => Conv1 a
            end
          else Conv1 a
      | [] => Conv1 a
      end
  end.

(** [sscanf(tok, "%d", &a)]: the converted value when the call returns 1. *)
Definition sscanf_d (tok : list ascii) : option Z := fst <$> scan_int tok.

(** The successive results of [strsep(&p, ",")] on a string without NUL
    (the copy [strdup] made): every comma ends a token, so there is always
    one token more than commas. *)
Fixpoint strsep_tokens (s : list ascii) : list (list ascii) :=
  match s with
  | [] => [[]]
  | c :: s' =>
      if is_char comma c then [] :: strsep_tokens s'
      else match strsep_tokens s' with
           | t :: ts => (c :: t) :: ts
           | [] => [[c]]
           end
  end.

(** [fgets(buf, size, f)] on a freshly opened file whose bytes are
    [contents]: at most [size - 1] characters, stopping after a newline.
    At end of file nothing is stored and NULL is returned ([None]). *)
Fixpoint take_line (n : nat) (s : list ascii) : list ascii :=
  match n, s with
  | S n', c :: s' => if is_char newline c then [c] else c :: take_line n' s'
  | _, _ => []
  end.

Definition fgets (size : nat) (contents : list ascii) : option (list ascii) :=
  match contents with
  | [] => None
  | _ => Some (take_line (size - 1) contents)
  end.

(** ** [parse_shared_cpu_list] (Linux) *)

Definition INT_MAX : Z := 2 ^ 31 - 1.

(** The stores of one token into [out], in order.  For a range that ends
    at [INT_MAX] the counter of [for (int i = a; i <= b; ++i)] cannot leave
    the loop without overflowing: there is no defined result. *)
Definition token_cpus (tok : list ascii) : option (list Z) :=
  match sscanf_d_dash_d tok with
  | Conv2 a b => if b =? INT_MAX then None else Some (seqZ a (b - a + 1))
  | _ =>
      match sscanf_d tok with
      | Some a => Some [a]
      | None => Some []
      end
  end.

(** The stores of the successive tokens. *)
Fixpoint tokens_cpus (toks : list (list ascii)) : option (list Z) :=
  match toks with
  | [] => Some []
  | tok :: rest => l ← token_cpus tok; ls ← tokens_cpus rest; Some (l ++ ls)
  end.

(** [strdup(str)]: the copy ends at the first NUL of [str]. *)
Definition strdup (str : list ascii) : list ascii := c_string str.

(** The cells [out[0 .. *out_count)] written by the call. [dup_ok] tells
    whether [strdup] returned a block; with a null [dup] the first [strsep]
    returns NULL and nothing is stored. *)
Definition parse_shared_cpu_list (dup_ok : bool) (str : list ascii) : option (list Z) :=
  if dup_ok then tokens_cpus (strsep_tokens (strdup str)) else Some [].

(** ** Heap blocks *)

(** [for (...) body] over the successive values of the loop variable, in a
    computation that may become undefined. *)
Fixpoint for_each {S : Type} (body : Z → S → option S) (range : list Z) (st : S) : option S :=
  match range with
  | [] => Some st
  | i :: rest => st' ← body i st; for_each body rest st'
  end.

(** [l[i] = v] inside an allocated block. *)
Definition store_cell {A : Type} (l : list A) (i : Z) (v : A) : option (list A) :=
  if (0 <=? i) && (i <? Z.of_nat (length l)) then Some (<[Z.to_nat i := v]> l) else None.

(** [l[i]] read inside an allocated block. *)
Definition load_cell {A : Type} (l : list A) (i : Z) : option A :=
  if 0 <=? i then l !! Z.to_nat i else None.

(** [p[i] = v] through a pointer. *)
Definition store {A : Type} (p : option (list A)) (i : Z) (v : A) : option (option (list A)) :=
  l ← p; l' ← store_cell l i v; Some (Some l').

(** [p[i].field = ...] through a pointer: the cell is changed by [f]. *)
Definition update {A : Type} (p : option (list A)) (i : Z) (f : A → A) : option (option (list A)) :=
  l ← p; x ← load_cell l i; l' ← store_cell l i (f x); Some (Some l').

(** [p[i]] read through a pointer. *)
Definition cell {A : Type} (p : option (list A)) (i : Z) : option A :=
  l ← p; load_cell l i.

(** [calloc(n, sizeof x)] that succeeded: [n] cells of zero bytes. *)
Definition zeroed {A : Type} (zero : A) (n : Z) : list A := replicate (Z.to_nat n) zero.

(** ** The data model of [cpu_info.c] *)

Record l2cache : Type := {
  l2cache_size : Z;
  shared_with_core_number : Z
}.

Inductive CoreType : Type :=
  | CORE_TYPE_PERFORMANCE
  | CORE_TYPE_EFFICIENCY
  | CORE_TYPE_UNKNOWN.

Record PhysicalCoreInfo : Type := {
  id : Z;
  type : CoreType;
  logical_ids : option (list Z);
  logical_count : Z
}.

Record CPU_Algorithms : Type := {
  SSE : bool; SSE2 : bool; SSE3 : bool; SSSE3 : bool;
  SSE4_1 : bool; SSE4_2 : bool; AVX : bool;
  POPCNT : bool; PCLMULQDQ : bool; AES : bool; FMA : bool; F16C : bool;
  XSAVE : bool; OSXSAVE : bool; RDRAND : bool; RDSEED : bool; ADX : bool;
  MPX : bool; PREFETCHWT1 : bool;
  AVX2 : bool; BMI1 : bool; BMI2 : bool; AVX512F : bool; SHA : bool;
  SSE4A : bool; XOP : bool; FMA4 : bool; THREEDNOW_PLUS : bool
}.

Record CPU_DATA : Type := {
  cpu_name : option (list ascii);
  logical_core_count : Z;
  physical_core_count : Z;
  cores : option (list PhysicalCoreInfo);
  l1size : option (list Z);
  l2size : option (list l2cache);
  frequency : option (list Z);
  l3size : Z;
  algorithms : CPU_Algorithms
}.

(** Cells as [calloc] leaves them. *)
Definition zero_l2cache : l2cache :=
  {| l2cache_size := 0; shared_with_core_number := 0 |}.

Definition zero_core : PhysicalCoreInfo :=
  {| id := 0; type := CORE_TYPE_PERFORMANCE; logical_ids := None; logical_count := 0 |}.

(** Field assignments. *)
Definition set_l2cache_size (v : Z) (c : l2cache) : l2cache :=
  {| l2cache_size := v; shared_with_core_number := shared_with_core_number c |}.

Definition set_shared_with_core_number (v : Z) (c : l2cache) : l2cache :=
  {| l2cache_size := l2cache_size c; shared_with_core_number := v |}.

Definition set_cpu_name (v : option (list ascii)) (d : CPU_DATA) : CPU_DATA :=
  {| cpu_name := v; logical_core_count := logical_core_count d;
     physical_core_count := physical_core_count d; cores := cores d;
     l1size := l1size d; l2size := l2size d; frequency := frequency d;
     l3size := l3size d; algorithms := algorithms d |}.

Definition set_logical_core_count (v : Z) (d : CPU_DATA) : CPU_DATA :=
  {| cpu_name := cpu_name d; logical_core_count := v;
     physical_core_count := physical_core_count d; cores := cores d;
     l1size := l1size d; l2size := l2size d; frequency := frequency d;
     l3size := l3size d; algorithms := algorithms d |}.

Definition set_physical_core_count (v : Z) (d : CPU_DATA) : CPU_DATA :=
  {| cpu_name := cpu_name d; logical_core_count := logical_core_count d;
     physical_core_count := v; cores := cores d;
     l1size := l1size d; l2size := l2size d; frequency := frequency d;
     l3size := l3size d; algorithms := algorithms d |}.

Definition set_cores (v : option (list PhysicalCoreInfo)) (d : CPU_DATA) : CPU_DATA :=
  {| cpu_name := cpu_name d; logical_core_count := logical_core_count d;
     physical_core_count := physical_core_count d; cores := v;
     l1size := l1size d; l2size := l2size d; frequency := frequency d;
     l3size := l3size d; algorithms := algorithms d |}.

Definition set_l1size (v : option (list Z)) (d : CPU_DATA) : CPU_DATA :=
  {| cpu_name := cpu_name d; logical_core_count := logical_core_count d;
     physical_core_count := physical_core_count d; cores := cores d;
     l1size := v; l2size := l2size d; frequency := frequency d;
     l3size := l3size d; algorithms := algorithms d |}.

Definition set_l2size (v : option (list l2cache)) (d : CPU_DATA) : CPU_DATA :=
  {| cpu_name := cpu_name d; logical_core_count := logical_core_count d;
     physical_core_count := physical_core_count d; cores := cores d;
     l1size := l1size d; l2size := v; frequency := frequency d;
     l3size := l3size d; algorithms := algorithms d |}.

Definition set_frequency (v : option (list Z)) (d : CPU_DATA) : CPU_DATA :=
  {| cpu_name := cpu_name d; logical_core_count := logical_core_count d;
     physical_core_count := physical_core_count d; cores := cores d;
     l1size := l1size d; l2size := l2size d; frequency := v;
     l3size := l3size d; algorithms := algorithms d |}.

Definition set_l3size (v : Z) (d : CPU_DATA) : CPU_DATA :=
  {| cpu_name := cpu_name d; logical_core_count := logical_core_count d;
     physical_core_count := physical_core_count d; cores := cores d;
     l1size := l1size d; l2size := l2size d; frequency := frequency d;
     l3size := v; algorithms := algorithms d |}.

Definition set_algorithms (v : CPU_Algorithms) (d : CPU_DATA) : CPU_DATA :=
  {| cpu_name := cpu_name d; logical_core_count := logical_core_count d;
     physical_core_count := physical_core_count d; cores := cores d;
     l1size := l1size d; l2size := l2size d; frequency := frequency d;
     l3size := l3size d; algorithms := v |}.

(** ** The platform seen by the Linux build *)

(** [fopen(path, "r")]: no stream, or a stream over the file's bytes. *)
Inductive fopen_result : Type :=
  | NoFile
  | File (contents : list ascii).

(** The four registers [regs[0..3]] (EAX, EBX, ECX, EDX) of one CPUID. *)
Definition registers : Type := (Z * Z * Z * Z)%type.

Record Platform : Type := {
  (** the CPUID instruction, by leaf and subleaf *)
  cpuid : Z → Z → registers;
  (** [get_nprocs()] *)
  get_nprocs : Z;
  (** /sys/devices/system/cpu/cpu<cpu>/topology/physical_package_id *)
  physical_package_id : Z → fopen_result;
  (** /sys/devices/system/cpu/cpu<cpu>/topology/core_id *)
  core_id : Z → fopen_result;
  (** /sys/devices/system/cpu/cpu<cpu>/cpufreq/scaling_cur_freq *)
  scaling_cur_freq : Z → fopen_result;
  (** whether [stat] finds /sys/devices/system/cpu/cpu0/cache/index<idx> *)
  cache_index_dir : Z → bool;
  (** the files level, size and shared_cpu_list of that directory *)
  cache_level : Z → fopen_result;
  cache_size : Z → fopen_result;
  cache_shared_cpu_list : Z → fopen_result;
  (** what the automatic [char] buffer of a loop body holds when a pass
      starts, before [fgets] stored a line in that pass *)
  stack_bytes : list ascii;
  (** what a cell of a [malloc]ed block holds before anything is stored *)
  heap_cell : Z;
  (** the allocator: whether each request of one call is served *)
  malloc_brand : bool;
  calloc_l1size : bool;
  calloc_l2size : bool;
  calloc_frequency : bool;
  calloc_keys : bool;
  calloc_temp : bool;
  calloc_cores : bool;
  malloc_logical_ids : Z → bool;
  strdup_list : Z → bool
}.

(** The pattern
    [if (f) { fgets(buf, sizeof(buf), f); x = atoi(buf); fclose(f); }]
    with [x] initialised to 0: the value of [x] and the buffer afterwards.
    The result of [fgets] is not looked at, so at end of file [atoi] reads
    what the buffer held before. *)
Definition fgets_into (size : nat) (contents buf : list ascii) : list ascii :=
  default buf (fgets size contents).

Definition read_int_file (size : nat) (f : fopen_result) (buf : list ascii) : Z * list ascii :=
  match f with
  | NoFile => (0, buf)
  | File contents =>
      let buf' := fgets_into size contents buf in (atoi buf', buf')
  end.

(** ** CPUID: brand, vendor and instruction-set flags *)

Definition cpu_cpuid (P : Platform) (leaf subleaf : Z) : registers := cpuid P leaf subleaf.

(** The four bytes of an [int] in memory (little endian), as [memcpy] sees them. *)
Definition int_bytes (r : Z) : list ascii :=
  map (λ k, ascii_of_N (Z.to_N (Z.land (Z.shiftr r (8 * k)) 255))) [0; 1; 2; 3].

Definition regs_bytes (r : registers) : list ascii :=
  let '(a, b, c, d) := r in int_bytes a ++ int_bytes b ++ int_bytes c ++ int_bytes d.

Fixpoint same_chars (a b : list ascii) : bool :=
  match a, b with
  | [], [] => true
  | x :: a', y :: b' => Ascii.eqb x y && same_chars a' b'
  | _, _ => false
  end.

(** [strcmp(a, b) == 0] *)
Definition strcmp_eq (a b : list ascii) : bool := same_chars (c_string a) (c_string b).

(** [get_cpu_brand]: the return code and the new value of [*out_name]. *)
Definition get_cpu_brand (P : Platform) (out_name : option (list ascii)) : Z * option (list ascii) :=
  if malloc_brand P then
    (0, Some (c_string (concat (map (λ leaf, regs_bytes (cpu_cpuid P (0x80000002 + leaf) 0)) [0; 1; 2]))))
  else (203, out_name).

Definition get_cpu_vendor (P : Platform) : list ascii :=
  let '(_, b, c, d) := cpu_cpuid P 0 0 in
  c_string (int_bytes b ++ int_bytes d ++ int_bytes c).

(** [!!(r & (1 << k))] *)
Definition flag (r : Z) (k : Z) : bool := negb (Z.land r (Z.shiftl 1 k) =? 0).

Definition get_supported_algorithms (P : Platform) : CPU_Algorithms :=
  let vendor := get_cpu_vendor P in
  let is_intel := strcmp_eq vendor (chars "GenuineIntel") in
  let is_amd := strcmp_eq vendor (chars "AuthenticAMD") in
  let '(_, _, c1, d1) := cpu_cpuid P 1 0 in
  let '(_, b7, c7, _) := cpu_cpuid P 7 0 in
  let '(_, _, ce, de) := cpu_cpuid P 0x80000001 0 in
  {| SSE := flag d1 25; SSE2 := flag d1 26; SSE3 := flag c1 0; SSSE3 := flag c1 9;
     SSE4_1 := flag c1 19; SSE4_2 := flag c1 20; AVX := flag c1 28;
     POPCNT := if is_intel then flag c1 23 else false;
     PCLMULQDQ := if is_intel then flag c1 1 else false;
     AES := if is_intel then flag c1 25 else false;
     FMA := if is_intel then flag c1 12 else false;
     F16C := if is_intel then flag c1 29 else false;
     XSAVE := if is_intel then flag c1 26 else false;
     OSXSAVE := if is_intel then flag c1 27 else false;
     RDRAND := if is_intel then flag c1 30 else false;
     RDSEED := if is_intel then flag b7 18 else false;
     ADX := if is_intel then flag b7 19 else false;
     MPX := if is_intel then flag b7 14 else false;
     PREFETCHWT1 := if is_intel then flag c7 0 else false;
     AVX2 := flag b7 5; BMI1 := flag b7 3; BMI2 := flag b7 8;
     AVX512F := flag b7 16; SHA := flag c7 29;
     SSE4A := if is_amd then flag ce 6 else false;
     XOP := if is_amd then flag ce 11 else false;
     FMA4 := if is_amd then flag ce 16 else false;
     THREEDNOW_PLUS := if is_amd then flag de 31 else false |}.

(** ** [get_core_topology] (Linux) *)

(** [(phy << 16) | (core & 0xFFFF)] on [int]. *)
Definition core_key (phy core : Z) : Z :=
  Z.lor (wrap32 (Z.shiftl phy 16)) (Z.land core 0xFFFF).

(** The ids read in one pass over a logical CPU (lines 277-291, and again
    lines 326-340): both topology files are read through the 32-byte [buf]
    of the loop body, which is not initialised.  [stack_bytes P] stands for
    the bytes [buf] holds when the pass starts; they are parsed only when a
    file opens at end of file before a line was read in the pass.  This is
    one pass; along a whole loop the bytes are those the pass before left
    ([get_core_topology_from] below), and the two agree when every file
    cannot be opened or holds a line ([topology_files_settled]). *)
Definition topology_ids (P : Platform) (cpu : Z) : Z * Z :=
  let '(phy, buf) := read_int_file 32 (physical_package_id P cpu) (stack_bytes P) in
  let '(core, _) := read_int_file 32 (core_id P cpu) buf in
  (phy, core).

Definition topology_key (P : Platform) (cpu : Z) : Z :=
  let '(phy, core) := topology_ids P cpu in core_key phy core.

(** [while (idx < unique && keys[idx] != key) idx++;] where [live] is
    [keys[0 .. unique)]: the position of the key, or [unique]. *)
Fixpoint scan_keys (live : list Z) (key : Z) (idx : Z) : Z :=
  match live with
  | k :: rest => if k =? key then idx else scan_keys rest key (idx + 1)
  | [] => idx
  end.

(** [while (keys[idx] != key) idx++;] over the whole block: nothing stops
    the search at the end of the block. *)
Fixpoint seek_key (block : list Z) (key : Z) (idx : Z) : option Z :=
  match block with
  | k :: rest => if k =? key then Some idx else seek_key rest key (idx + 1)
  | [] => None
  end.

Record discovery : Type := {
  keys : list Z;
  temp : list PhysicalCoreInfo;
  unique : Z
}.

Definition new_core (key : Z) (c : PhysicalCoreInfo) : PhysicalCoreInfo :=
  {| id := key; type := CORE_TYPE_UNKNOWN; logical_ids := logical_ids c; logical_count := 0 |}.

Definition bump_count (c : PhysicalCoreInfo) : PhysicalCoreInfo :=
  {| id := id c; type := type c; logical_ids := logical_ids c;
     logical_count := logical_count c + 1 |}.

(** Body of the first loop (lines 272-304) for one [cpu]. *)
Definition count_cpu (P : Platform) (cpu : Z) (st : discovery) : option discovery :=
  let key := topology_key P cpu in
  let idx := scan_keys (take (Z.to_nat (unique st)) (keys st)) key 0 in
  st ← (if idx =? unique st then
          keys' ← store_cell (keys st) (unique st) key;
          c ← load_cell (temp st) (unique st);
          temp' ← store_cell (temp st) (unique st) (new_core key c);
          Some {| keys := keys'; temp := temp'; unique := unique st + 1 |}
        else Some st);
  c ← load_cell (temp st) idx;
  temp' ← store_cell (temp st) idx (bump_count c);
  Some {| keys := keys st; temp := temp'; unique := unique st |}.

(** Body of the copy loop (lines 314-319) for core [i]. *)
Definition copy_core (P : Platform) (i : Z) (t : PhysicalCoreInfo) : PhysicalCoreInfo :=
  {| id := id t; type := type t;
     logical_ids := if malloc_logical_ids P i
                    then Some (replicate (Z.to_nat (logical_count t)) (heap_cell P))
                    else None;
     logical_count := 0 |}.

(** Body of the second loop (lines 321-347) for one [cpu]. *)
Definition place_cpu (P : Platform) (keys : list Z) (cpu : Z)
    (cs : list PhysicalCoreInfo) : option (list PhysicalCoreInfo) :=
  let key := topology_key P cpu in
  idx ← seek_key keys key 0;
  c ← load_cell cs idx;
  ids ← logical_ids c;
  ids' ← store_cell ids (logical_count c) cpu;
  store_cell cs idx
    {| id := id c; type := type c; logical_ids := Some ids';
       logical_count := logical_count c + 1 |}.

(** The return code and the record behind [data] on return. *)
Definition get_core_topology (P : Platform) (data : CPU_DATA) : option (Z * CPU_DATA) :=
  let L := logical_core_count data in
  if negb (calloc_keys P && calloc_temp P) then Some (203, data) else
  st ← for_each (count_cpu P) (seqZ 0 L)
         {| keys := zeroed 0 L; temp := zeroed zero_core L; unique := 0 |};
  let data := set_physical_core_count (unique st) data in
  if negb (calloc_cores P) then Some (203, set_cores None data) else
  let cs := imap (λ i t, copy_core P (Z.of_nat i) t) (take (Z.to_nat (unique st)) (temp st)) in
  cs ← for_each (place_cpu P (keys st)) (seqZ 0 L) cs;
  Some (0, set_cores (Some cs) data).

(** ** [populate_caches_and_freq] (Linux) *)

(** Body of the clearing loop (lines 454-459). *)
Definition clear_cpu (i : Z) (d : CPU_DATA) : option CPU_DATA :=
  l1 ← store (l1size d) i 0;
  l2 ← update (l2size d) i (set_l2cache_size 0);
  l2 ← update l2 i (set_shared_with_core_number 0);
  fr ← store (frequency d) i 0;
  Some (set_frequency fr (set_l2size l2 (set_l1size l1 d))).

(** Body of the frequency loop (lines 463-474): the file is in kHz. *)
Definition read_frequency (P : Platform) (cpu : Z) (d : CPU_DATA) : option CPU_DATA :=
  match scaling_cur_freq P cpu with
  | NoFile => Some d
  | File contents =>
      match fgets 32 contents with
      | Some buf =>
          fr ← store (frequency d) cpu (atoi buf ÷ 1000);
          Some (set_frequency fr d)
      | None => Some d
      end
  end.

(** Lines 501-504: the size in KiB found in the buffer of the size file. *)
Definition cache_size_KB (buf : list ascii) : Z :=
  let sizeKB := atoi buf in
  if strchr buf 77 || strchr buf 109 then wrap32 (sizeKB * 1024) else sizeKB.

(** Body of the assignment loop (lines 519-531) for the cell [c = cpus[i]]. *)
Definition assign_cpu (level sizeKB cpuc : Z) (c : Z) (d : CPU_DATA) : option CPU_DATA :=
  if level =? 1 then
    l1 ← store (l1size d) c sizeKB; Some (set_l1size l1 d)
  else if level =? 2 then
    l2 ← update (l2size d) c (set_l2cache_size sizeKB);
    l2 ← update l2 c (set_shared_with_core_number cpuc);
    Some (set_l2size l2 d)
  else if level =? 3 then Some (set_l3size sizeKB d)
  else Some d.

(** The assignment loop over the parsed list [cpus[0 .. cpuc)]. *)
Definition assign_cache (level sizeKB : Z) (cpus : list Z) (d : CPU_DATA) : option CPU_DATA :=
  for_each (assign_cpu level sizeKB (Z.of_nat (length cpus))) cpus d.

(** Lines 489-495 for the index directory [idx]: the level and the buffer
    after the level file.  As in the topology loops, [stack_bytes P] stands
    for the bytes the 64-byte [buf] of the loop body holds when the pass
    starts; they are parsed only when a file opens at end of file before a
    line was read in the pass.  This is one pass; along the whole loop the
    bytes are those the pass before left ([cache_loop_from] below), and the
    two agree when every level and size file cannot be opened or holds a
    line ([cache_files_settled]). *)
Definition index_level_read (P : Platform) (idx : Z) : Z * list ascii :=
  read_int_file 64 (cache_level P idx) (stack_bytes P).

Definition index_level (P : Platform) (idx : Z) : Z := fst (index_level_read P idx).

(** Lines 497-506: the size file is read through the same buffer. *)
Definition index_sizeKB (P : Platform) (idx : Z) : Z :=
  match cache_size P idx with
  | NoFile => 0
  | File contents => cache_size_KB (fgets_into 64 contents (snd (index_level_read P idx)))
  end.

(** Lines 508-516: [listbuf] starts as zeros; the result of the parse. *)
Definition shared_cpus_read (P : Platform) (idx : Z) : option (list Z) :=
  let listbuf :=
    match cache_shared_cpu_list P idx with
    | NoFile => []
    | File contents => fgets_into 64 contents []
    end in
  parse_shared_cpu_list (strdup_list P idx) listbuf.

(** The parsed [cpus[0 .. cpuc)]; no CPU when the parse has no result. *)
Definition shared_cpus (P : Platform) (idx : Z) : list Z :=
  default [] (shared_cpus_read P idx).

(** Body of the cache loop (lines 485-531) for an index directory that
    exists. [cpus] has room for 256 entries. *)
Definition cache_index (P : Platform) (idx : Z) (d : CPU_DATA) : option CPU_DATA :=
  cpus ← shared_cpus_read P idx;
  if (length cpus <=? 256)%nat
  then assign_cache (index_level P idx) (index_sizeKB P idx) cpus d
  else None.

(** The cache loop (lines 477-532): it stops at the first missing directory. *)
Fixpoint cache_loop (P : Platform) (range : list Z) (d : CPU_DATA) : option CPU_DATA :=
  match range with
  | [] => Some d
  | idx :: rest =>
      if cache_index_dir P idx then d' ← cache_index P idx d; cache_loop P rest d'
      else Some d
  end.

Definition populate_caches_and_freq (P : Platform) (data : CPU_DATA) : option CPU_DATA :=
  let L := logical_core_count data in
  d ← for_each clear_cpu (seqZ 0 L) data;
  let d := set_l3size 0 d in
  d ← for_each (read_frequency P) (seqZ 0 L) d;
  cache_loop P (seqZ 0 L) d.

(** ** [get_cpu_data] *)

(** [calloc(count, size)] of cells that are zero. *)
Definition calloc {A : Type} (served : bool) (zero : A) (count : Z) : option (list A) :=
  if served then Some (zeroed zero count) else None.

Definition is_null {A : Type} (p : option A) : bool :=
  match p with Some _ => false | None => true end.

(** Lines 551-579: what follows the brand string. *)
Definition fill_cpu_data (P : Platform) (d : CPU_DATA) : option (Z * CPU_DATA) :=
  let d := set_logical_core_count (get_nprocs P) d in
  let d := set_l1size (calloc (calloc_l1size P) 0 (logical_core_count d)) d in
  let d := set_l2size (calloc (calloc_l2size P) zero_l2cache (logical_core_count d)) d in
  let d := set_frequency (calloc (calloc_frequency P) 0 (logical_core_count d)) d in
  let d := set_l3size 0 d in
  if is_null (l1size d) || is_null (l2size d) || is_null (frequency d) then Some (203, d)
  else
    d ← populate_caches_and_freq P d;
    let d := set_algorithms (get_supported_algorithms P) d in
    '(rc, d) ← get_core_topology P d;
    if negb (rc =? 200) then Some (rc, d) else Some (0, d).

(** The return code and the record behind [data] on return; [None] for
    [data] is the null pointer. *)
Definition get_cpu_data (P : Platform) (data : option CPU_DATA) : option (Z * option CPU_DATA) :=
  match data with
  | None => Some (201, None)
  | Some d =>
      let '(rc, name) := get_cpu_brand P (cpu_name d) in
      let d := set_cpu_name name d in
      if negb (rc =? 200) then Some (rc, Some d)
      else '(rc, d) ← fill_cpu_data P d; Some (rc, Some d)
  end.

(** ** The Linux loops with their buffer carried from pass to pass *)

(** The buffers [buf] of the two topology loops and of the cache loop are
    automatic variables of a loop body and are never initialised: what one
    pass left in them is what the next pass finds (as compiled, the same
    bytes of the stack).  [with_stack P before] is the platform as one pass
    sees it when its buffer holds [before]; the definitions below carry the
    buffer along the passes of a loop, starting from the bytes the stack
    holds when the loop is entered. *)
Definition with_stack (P : Platform) (before : list ascii) : Platform :=
  {| cpuid := cpuid P;
     get_nprocs := get_nprocs P;
     physical_package_id := physical_package_id P;
     core_id := core_id P;
     scaling_cur_freq := scaling_cur_freq P;
     cache_index_dir := cache_index_dir P;
     cache_level := cache_level P;
     cache_size := cache_size P;
     cache_shared_cpu_list := cache_shared_cpu_list P;
     stack_bytes := before;
     heap_cell := heap_cell P;
     malloc_brand := malloc_brand P;
     calloc_l1size := calloc_l1size P;
     calloc_l2size := calloc_l2size P;
     calloc_frequency := calloc_frequency P;
     calloc_keys := calloc_keys P;
     calloc_temp := calloc_temp P;
     calloc_cores := calloc_cores P;
     malloc_logical_ids := malloc_logical_ids P;
     strdup_list := strdup_list P |}.

(** [buf] at the end of a pass of a topology loop over [cpu]. *)
Definition topology_buffer (P : Platform) (cpu : Z) : list ascii :=
  let '(_, buf) := read_int_file 32 (physical_package_id P cpu) (stack_bytes P) in
  snd (read_int_file 32 (core_id P cpu) buf).

(** Body of the first loop with the buffer it starts from and leaves. *)
Definition count_cpu_from (P : Platform) (cpu : Z) (s : discovery * list ascii) :
    option (discovery * list ascii) :=
  let Q := with_stack P (snd s) in
  st ← count_cpu Q cpu (fst s); Some (st, topology_buffer Q cpu).

(** Body of the second loop with the buffer it starts from and leaves. *)
Definition place_cpu_from (P : Platform) (keys : list Z) (cpu : Z)
    (s : list PhysicalCoreInfo * list ascii) : option (list PhysicalCoreInfo * list ascii) :=
  let Q := with_stack P (snd s) in
  cs ← place_cpu Q keys cpu (fst s); Some (cs, topology_buffer Q cpu).

(** [get_core_topology] when the buffer of the first loop starts as [buf1]
    and that of the second loop as [buf2]. *)
Definition get_core_topology_from (P : Platform) (buf1 buf2 : list ascii) (data : CPU_DATA) :
    option (Z * CPU_DATA) :=
  let L := logical_core_count data in
  if negb (calloc_keys P && calloc_temp P) then Some (203, data) else
  st ← fst <$> for_each (count_cpu_from P) (seqZ 0 L)
                 ({| keys := zeroed 0 L; temp := zeroed zero_core L; unique := 0 |}, buf1);
  let data := set_physical_core_count (unique st) data in
  if negb (calloc_cores P) then Some (203, set_cores None data) else
  let cs := imap (λ i t, copy_core P (Z.of_nat i) t) (take (Z.to_nat (unique st)) (temp st)) in
  cs ← fst <$> for_each (place_cpu_from P (keys st)) (seqZ 0 L) (cs, buf2);
  Some (0, set_cores (Some cs) data).

(** [buf] at the end of a pass of the cache loop over [idx]. *)
Definition index_buffer (P : Platform) (idx : Z) : list ascii :=
  match cache_size P idx with
  | NoFile => snd (index_level_read P idx)
  | File contents => fgets_into 64 contents (snd (index_level_read P idx))
  end.

(** The cache loop when its buffer starts as [before]. *)
Fixpoint cache_loop_from (P : Platform) (range : list Z) (d : CPU_DATA) (before : list ascii) :
    option CPU_DATA :=
  match range with
  | [] => Some d
  | idx :: rest =>
      if cache_index_dir P idx then
        let Q := with_stack P before in
        d' ← cache_index Q idx d; cache_loop_from P rest d' (index_buffer Q idx)
      else Some d
  end.

Definition populate_caches_and_freq_from (P : Platform) (before : list ascii) (data : CPU_DATA) :
    option CPU_DATA :=
  let L := logical_core_count data in
  d ← for_each clear_cpu (seqZ 0 L) data;
  let d := set_l3size 0 d in
  d ← for_each (read_frequency P) (seqZ 0 L) d;
  cache_loop_from P (seqZ 0 L) d before.

(** Lines 551-579 with the three buffers. *)
Definition fill_cpu_data_from (P : Platform) (before buf1 buf2 : list ascii) (d : CPU_DATA) :
    option (Z * CPU_DATA) :=
  let d := set_logical_core_count (get_nprocs P) d in
  let d := set_l1size (calloc (calloc_l1size P) 0 (logical_core_count d)) d in
  let d := set_l2size (calloc (calloc_l2size P) zero_l2cache (logical_core_count d)) d in
  let d := set_frequency (calloc (calloc_frequency P) 0 (logical_core_count d)) d in
  let d := set_l3size 0 d in
  if is_null (l1size d) || is_null (l2size d) || is_null (frequency d) then Some (203, d)
  else
    d ← populate_caches_and_freq_from P before d;
    let d := set_algorithms (get_supported_algorithms P) d in
    '(rc, d) ← get_core_topology_from P buf1 buf2 d;
    if negb (rc =? 200) then Some (rc, d) else Some (0, d).

(** ** The Windows build *)

Module Win32.

(** [mask & (1ULL << b)] as a condition. *)
Definition bit_set (mask b : Z) : bool := negb (Z.land mask (Z.shiftl 1 b) =? 0).

(** The logical processors of a mask: its set bits among the positions
    0 to 63, in ascending order. *)
Definition set_bits (mask : Z) : list Z := List.filter (bit_set mask) (seqZ 0 64).

(** The counting loop over the bit positions 0 to 63. *)
Definition count_bits (mask : Z) : Z :=
  fold_left (λ count b, if bit_set mask b then count + 1 else count) (seqZ 0 64) 0.

(** What [GetLogicalProcessorInformationEx(RelationProcessorCore, ...)]
    and the allocator do during one call: whether the sizing call left
    ERROR_INSUFFICIENT_BUFFER, whether the filling call succeeded, and
    [Processor.GroupMask[0].Mask] of every record of the buffer. *)
Record Platform : Type := {
  sizing_insufficient_buffer : bool;
  malloc_buffer : bool;
  filling_ok : bool;
  core_masks : list Z;
  calloc_cores : bool;
  malloc_logical_ids : Z → bool;
  heap_cell : Z
}.

(** Body of the collecting loop (lines 251-255) for one bit position:
    the block and [idx]. *)
Definition collect_bit (mask : Z) (b : Z) (st : option (list Z) * Z) : option (option (list Z) * Z) :=
  let '(ids, idx) := st in
  if bit_set mask b then ids' ← store ids idx b; Some (ids', idx + 1)
  else Some st.

(** Body of the record loop (lines 233-259) for record [i]. *)
Definition core_of_mask (P : Platform) (i mask : Z) : option PhysicalCoreInfo :=
  let count := count_bits mask in
  let ids := if malloc_logical_ids P i
             then Some (replicate (Z.to_nat count) (heap_cell P)) else None in
  '(ids, _) ← for_each (collect_bit mask) (seqZ 0 64) (ids, 0);
  Some {| id := i; type := CORE_TYPE_UNKNOWN; logical_ids := ids; logical_count := count |}.

Fixpoint cores_of_masks (P : Platform) (i : Z) (masks : list Z) : option (list PhysicalCoreInfo) :=
  match masks with
  | [] => Some []
  | mask :: rest =>
      c ← core_of_mask P i mask; cs ← cores_of_masks P (i + 1) rest; Some (c :: cs)
  end.

Definition get_core_topology (P : Platform) (data : CPU_DATA) : option (Z * CPU_DATA) :=
  if negb (sizing_insufficient_buffer P) then Some (204, data)
  else if negb (malloc_buffer P) then Some (203, data)
  else if negb (filling_ok P) then Some (205, data)
  else
    let core_count := Z.of_nat (length (core_masks P)) in
    let data := set_physical_core_count core_count data in
    if negb (calloc_cores P) then Some (203, set_cores None data)
    else
      cs ← cores_of_masks P 0 (core_masks P);
      Some (0, set_cores (Some cs) data).

(** Body of the loop of lines 407-421 for one bit position. *)
Definition assign_bit (level sizeKB shared mask : Z) (b : Z) (d : CPU_DATA) : option CPU_DATA :=
  if negb (bit_set mask b) then Some d
  else if level =? 1 then
    l1 ← store (l1size d) b sizeKB; Some (set_l1size l1 d)
  else if level =? 2 then
    l2 ← update (l2size d) b (set_l2cache_size sizeKB);
    l2 ← update l2 b (set_shared_with_core_number shared);
    Some (set_l2size l2 d)
  else if level =? 3 then Some (set_l3size sizeKB d)
  else Some d.

(** Lines 395-421 for one cache record: level, size in bytes, mask. *)
Definition assign_cache (level CacheSize mask : Z) (d : CPU_DATA) : option CPU_DATA :=
  let sizeKB := wrap32 (CacheSize / 1024) in
  let shared := count_bits mask in
  for_each (assign_bit level sizeKB shared mask) (seqZ 0 64) d.

End Win32.

(** * Vocabulary of the statements *)

(** ** Decimal numerals *)

(** [isdigit] in the C locale. *)
Definition isdigit (c : ascii) : bool := (48 <=? code c) && (code c <=? 57).

(** The number a string of decimal digits denotes. *)
Definition number (ds : list ascii) : Z :=
  fold_left (λ acc c, 10 * acc + (code c - 48)) ds 0.

(** A non-empty string of decimal digits whose value fits an [int]. *)
Definition numeral (ds : list ascii) : bool :=
  match ds with [] => false | _ => forallb isdigit ds && (number ds <? 2 ^ 31) end.

(** A string that does not start with a digit. *)
Definition stops (rest : list ascii) : bool :=
  match rest with c :: _ => negb (isdigit c) | [] => true end.

(** A text without NUL byte. *)
Definition no_nul (s : list ascii) : bool := forallb (λ c, negb (is_char 0 c)) s.

(** ** Shared-CPU lists *)

(** An entry of a shared-CPU list as the kernel writes it: one number, or
    two numbers around a dash. The numbers are kept as their digits. *)
Inductive list_entry : Type :=
  | Single (a : list ascii)
  | Range (a b : list ascii).

Definition entry_text (e : list_entry) : list ascii :=
  match e with
  | Single a => a
  | Range a b => a ++ chars "-" ++ b
  end.

(** An entry whose numbers fit an [int]; the end of a range is below
    [INT_MAX], so that the counter of the loop can pass it. *)
Definition entry_ok (e : list_entry) : bool :=
  match e with
  | Single a => numeral a
  | Range a b => numeral a && numeral b && (number b <? INT_MAX)
  end.

(** The indices an entry stands for: itself, or the inclusive range. *)
Definition entry_cpus (e : list_entry) : list Z :=
  match e with
  | Single a => [number a]
  | Range a b => seqZ (number a) (number b - number a + 1)
  end.

(** The entries separated by commas. *)
Fixpoint comma_separated (ts : list (list ascii)) : list ascii :=
  match ts with
  | [] => []
  | [t] => t
  | t :: rest => t ++ chars "," ++ comma_separated rest
  end.

(** What may follow the last entry: nothing, or the newline of the file. *)
Definition line_end (nl : bool) : list ascii := if nl then chars "
" else [].

(** ** Cache sizes *)

(** The factor a unit suffix of the size file stands for, in KiB. *)
Definition suffix_factor (c : ascii) : option Z :=
  if is_char 75 c || is_char 107 c then Some 1
  else if is_char 77 c || is_char 109 c then Some 1024
  else None.

(** Whether a buffer holds an 'M' or an 'm'. *)
Definition mega (buf : list ascii) : bool := strchr buf 77 || strchr buf 109.

(** ** Defined runs of [populate_caches_and_freq] *)

(** The three per-logical blocks are allocated with [n] cells each. *)
Definition blocks_of_length (n : nat) (d : CPU_DATA) : Prop :=
  (∃ l, l1size d = Some l ∧ length l = n)
  ∧ (∃ l, l2size d = Some l ∧ length l = n)
  ∧ (∃ l, frequency d = Some l ∧ length l = n).

(** Every shared-CPU list under cpu0 has a parse, fits [cpus] and names
    logical CPUs below [L]. *)
Definition cache_lists_in_range (P : Platform) (L : Z) : Prop :=
  ∀ idx, 0 <= idx < L → cache_index_dir P idx = true →
         is_Some (shared_cpus_read P idx)
         ∧ (length (shared_cpus P idx) ≤ 256)%nat
         ∧ ∀ c, c ∈ shared_cpus P idx → 0 <= c < L.

(** ** Files read without testing [fgets] *)

(** A file that cannot be opened, or that opens and gives a line: the
    code then does not parse what the buffer held before. *)
Definition missing_or_line (f : fopen_result) : bool :=
  match f with
  | File [] => false
  | _ => true
  end.

(** The topology files of the logical CPUs below [N] are such files. *)
Definition topology_files_settled (P : Platform) (N : Z) : Prop :=
  ∀ cpu, 0 <= cpu < N →
         missing_or_line (physical_package_id P cpu) = true
         ∧ missing_or_line (core_id P cpu) = true.

(** The level and size files of the index directories of a list are
    such files. *)
Definition cache_files_settled (P : Platform) (range : list Z) : Prop :=
  ∀ idx, idx ∈ range →
         missing_or_line (cache_level P idx) = true
         ∧ missing_or_line (cache_size P idx) = true.

(** ** Topology *)

(** The cells reachable through a pointer: none through a null pointer. *)
Definition block_cells {A : Type} (p : option (list A)) : list A := default [] p.

(** The logical CPUs a core owns, and those of a list of cores in order. *)
Definition core_cpus (c : PhysicalCoreInfo) : list Z := block_cells (logical_ids c).

Definition all_cpus (cs : list PhysicalCoreInfo) : list Z := concat (map core_cpus cs).

(** [logical_count] is the length of [logical_ids]. *)
Definition count_matches (c : PhysicalCoreInfo) : Prop :=
  logical_count c = Z.of_nat (length (core_cpus c)).

(** The keys of a list in the order in which each is first seen. *)
Definition add_key (acc : list Z) (k : Z) : list Z :=
  if bool_decide (k ∈ acc) then acc else acc ++ [k].

Definition distinct (ks : list Z) : list Z := fold_left add_key ks [].

(** The logical CPUs of a list whose key is [k], in the order of the list. *)
Definition members (key : Z → Z) (k : Z) (cpus : list Z) : list Z :=
  List.filter (λ cpu, key cpu =? k) cpus.

(** The physical core of key [k] once the logical CPUs [cpus] are placed. *)
Definition final_core (key : Z → Z) (cpus : list Z) (k : Z) : PhysicalCoreInfo :=
  {| id := k; type := CORE_TYPE_UNKNOWN;
     logical_ids := Some (members key k cpus);
     logical_count := Z.of_nat (length (members key k cpus)) |}.

(** The record [get_core_topology] leaves on success: one core per
    distinct key, in first-seen order. *)
Definition topology_result (P : Platform) (data : CPU_DATA) : CPU_DATA :=
  let cpus := seqZ 0 (logical_core_count data) in
  let ks := distinct (map (topology_key P) cpus) in
  set_cores (Some (map (final_core (topology_key P) cpus) ks))
    (set_physical_core_count (Z.of_nat (length ks)) data).

(** The state of the first loop after the logical CPUs [pre], in blocks
    of [n] cells. *)
Definition counted_core (key : Z → Z) (pre : list Z) (k : Z) : PhysicalCoreInfo :=
  {| id := k; type := CORE_TYPE_UNKNOWN; logical_ids := None;
     logical_count := Z.of_nat (length (members key k pre)) |}.

Definition discovered (key : Z → Z) (n : nat) (pre : list Z) : discovery :=
  let ks := distinct (map key pre) in
  {| keys := ks ++ replicate (n - length ks) 0;
     temp := map (counted_core key pre) ks ++ replicate (n - length ks) zero_core;
     unique := Z.of_nat (length ks) |}.

(** A core during the second loop, after the logical CPUs [pre] of [all]. *)
Definition placed_core (key : Z → Z) (fill : Z) (all pre : list Z) (k : Z) : PhysicalCoreInfo :=
  {| id := k; type := CORE_TYPE_UNKNOWN;
     logical_ids :=
       Some (members key k pre
             ++ replicate (length (members key k all) - length (members key k pre)) fill);
     logical_count := Z.of_nat (length (members key k pre)) |}.

(** ** Example platforms and records *)

Definition file (s : string) : fopen_result := File (chars s).

(** A machine with four logical CPUs on two cores of one package: 32 KiB
    of L1 and 256 KiB of L2 per core, 8 MiB of L3, as sysfs shows it from
    cpu0. The vendor is AuthenticAMD and every other CPUID register has
    all its bits set. *)
Definition four_cpus : Platform :=
  {| cpuid := λ leaf _,
       if leaf =? 0 then (0, 0x68747541, 0x444d4163, 0x69746e65) else (-1, -1, -1, -1);
     get_nprocs := 4;
     physical_package_id := λ _, file "0
";
     core_id := λ cpu, if cpu <? 2 then file "0
" else file "1
";
     scaling_cur_freq := λ cpu,
       if cpu =? 0 then file "2400000" else if cpu =? 1 then file "2400999
" else NoFile;
     cache_index_dir := λ idx, idx <? 4;
     cache_level := λ idx,
       if idx <? 2 then file "1
" else if idx =? 2 then file "2
" else file "3
";
     cache_size := λ idx,
       if idx <? 2 then file "32K
" else if idx =? 2 then file "256K
" else file "8M
";
     cache_shared_cpu_list := λ idx, if idx <? 3 then file "0-1
" else file "0-3
";
     stack_bytes := [];
     heap_cell := 0;
     malloc_brand := true;
     calloc_l1size := true;
     calloc_l2size := true;
     calloc_frequency := true;
     calloc_keys := true;
     calloc_temp := true;
     calloc_cores := true;
     malloc_logical_ids := λ _, true;
     strdup_list := λ _, true |}.

(** The same machine with the vendor GenuineIntel. *)
Definition four_cpus_intel : Platform :=
  {| cpuid := λ leaf _,
       if leaf =? 0 then (0, 0x756e6547, 0x6c65746e, 0x49656e69) else (-1, -1, -1, -1);
     get_nprocs := get_nprocs four_cpus;
     physical_package_id := physical_package_id four_cpus;
     core_id := core_id four_cpus;
     scaling_cur_freq := scaling_cur_freq four_cpus;
     cache_index_dir := cache_index_dir four_cpus;
     cache_level := cache_level four_cpus;
     cache_size := cache_size four_cpus;
     cache_shared_cpu_list := cache_shared_cpu_list four_cpus;
     stack_bytes := stack_bytes four_cpus;
     heap_cell := heap_cell four_cpus;
     malloc_brand := true;
     calloc_l1size := true;
     calloc_l2size := true;
     calloc_frequency := true;
     calloc_keys := true;
     calloc_temp := true;
     calloc_cores := true;
     malloc_logical_ids := λ _, true;
     strdup_list := λ _, true |}.

(** A machine with two logical CPUs of one package whose core ids, 1 and
    65537, agree on their low 16 bits. *)
Definition wide_core_ids : Platform :=
  {| cpuid := λ _ _, (0, 0, 0, 0);
     get_nprocs := 2;
     physical_package_id := λ _, file "0
";
     core_id := λ cpu, if cpu =? 0 then file "1
" else file "65537
";
     scaling_cur_freq := λ _, NoFile;
     cache_index_dir := λ _, false;
     cache_level := λ _, NoFile;
     cache_size := λ _, NoFile;
     cache_shared_cpu_list := λ _, NoFile;
     stack_bytes := [];
     heap_cell := 0;
     malloc_brand := true;
     calloc_l1size := true;
     calloc_l2size := true;
     calloc_frequency := true;
     calloc_keys := true;
     calloc_temp := true;
     calloc_cores := true;
     malloc_logical_ids := λ _, true;
     strdup_list := λ _, true |}.


(** A machine on which [get_nprocs] reports no logical CPU. *)
Definition no_cpus : Platform :=
  {| cpuid := λ _ _, (0, 0, 0, 0);
     get_nprocs := 0;
     physical_package_id := λ _, NoFile;
     core_id := λ _, NoFile;
     scaling_cur_freq := λ _, NoFile;
     cache_index_dir := λ _, false;
     cache_level := λ _, NoFile;
     cache_size := λ _, NoFile;
     cache_shared_cpu_list := λ _, NoFile;
     stack_bytes := [];
     heap_cell := 0;
     malloc_brand := true;
     calloc_l1size := true;
     calloc_l2size := true;
     calloc_frequency := true;
     calloc_keys := true;
     calloc_temp := true;
     calloc_cores := true;
     malloc_logical_ids := λ _, true;
     strdup_list := λ _, true |}.

(** A Windows machine with four logical processors in two processor
    groups: each group holds one core with two logical processors, and a
    mask numbers the processors inside its group. *)
Definition two_groups : Win32.Platform :=
  {| Win32.sizing_insufficient_buffer := true;
     Win32.malloc_buffer := true;
     Win32.filling_ok := true;
     Win32.core_masks := [3; 3];
     Win32.calloc_cores := true;
     Win32.malloc_logical_ids := λ _, true;
     Win32.heap_cell := 0 |}.

(** The logical processors a mask stands for: bit [b] of the mask of a
    processor group is the processor [b] of that group, and the processors
    of the machine are numbered group after group, so it is the logical
    processor [first + b] when [first] processors lie in the groups before. *)
Definition group_processors (first mask : Z) : list Z :=
  map (Z.add first) (Win32.set_bits mask).

(** The same processors in one group. *)
Definition one_group : Win32.Platform :=
  {| Win32.sizing_insufficient_buffer := true;
     Win32.malloc_buffer := true;
     Win32.filling_ok := true;
     Win32.core_masks := [3; 12];
     Win32.calloc_cores := true;
     Win32.malloc_logical_ids := λ _, true;
     Win32.heap_cell := 0 |}.

Definition no_algorithms : CPU_Algorithms :=
  {| SSE := false; SSE2 := false; SSE3 := false; SSSE3 := false;
     SSE4_1 := false; SSE4_2 := false; AVX := false;
     POPCNT := false; PCLMULQDQ := false; AES := false; FMA := false; F16C := false;
     XSAVE := false; OSXSAVE := false; RDRAND := false; RDSEED := false; ADX := false;
     MPX := false; PREFETCHWT1 := false;
     AVX2 := false; BMI1 := false; BMI2 := false; AVX512F := false; SHA := false;
     SSE4A := false; XOP := false; FMA4 := false; THREEDNOW_PLUS := false |}.

(** A [CPU_DATA] zeroed by the caller, as the header asks. *)
Definition zeroed_data : CPU_DATA :=
  {| cpu_name := None; logical_core_count := 0; physical_core_count := 0;
     cores := None; l1size := None; l2size := None; frequency := None;
     l3size := 0; algorithms := no_algorithms |}.

(** The record as [get_cpu_data] hands it to [populate_caches_and_freq]
    when the platform has [n] logical CPUs and serves the three blocks. *)
Definition allocated_data (n : Z) : CPU_DATA :=
  {| cpu_name := None; logical_core_count := n; physical_core_count := 0;
     cores := None; l1size := Some (zeroed 0 n); l2size := Some (zeroed zero_l2cache n);
     frequency := Some (zeroed 0 n); l3size := 0; algorithms := no_algorithms |}.

(** A [CPU_DATA] that still holds an earlier capture of a machine with
    four logical CPUs on two cores. *)
Definition earlier_capture : CPU_DATA :=
  {| cpu_name := None;
     logical_core_count := 4;
     physical_core_count := 2;
     cores := Some [ {| id := 0; type := CORE_TYPE_UNKNOWN;
                        logical_ids := Some [0; 1]; logical_count := 2 |};
                     {| id := 1; type := CORE_TYPE_UNKNOWN;
                        logical_ids := Some [2; 3]; logical_count := 2 |} ];
     l1size := Some [32; 32; 32; 32];
     l2size := Some (replicate 4 {| l2cache_size := 256; shared_with_core_number := 2 |});
     frequency := Some [2400; 2400; 2400; 2400];
     l3size := 8192;
     algorithms := no_algorithms |}.

(** A machine with four logical CPUs on which some files open but give no
    line: CPUs 0 and 2 have both topology files (package 3 core 4, package
    5 core 6), CPUs 1 and 3 have an empty physical_package_id file and no
    core_id file; index0 of cpu0 is of level 2 without a size file, index1
    and index2 have an empty level file and the sizes 64K and 8K. *)
Definition some_empty_files : Platform :=
  {| cpuid := λ _ _, (0, 0, 0, 0);
     get_nprocs := 4;
     physical_package_id :=
       λ cpu, if cpu =? 0 then file "3
" else if cpu =? 2 then file "5
" else File [];
     core_id :=
       λ cpu, if cpu =? 0 then file "4
" else if cpu =? 2 then file "6
" else NoFile;
     scaling_cur_freq := λ _, NoFile;
     cache_index_dir := λ idx, idx <? 3;
     cache_level := λ idx, if idx =? 0 then file "2
" else File [];
     cache_size :=
       λ idx, if idx =? 0 then NoFile else if idx =? 1 then file "64K
" else file "8K
";
     cache_shared_cpu_list :=
       λ idx, if idx =? 0 then file "0
" else if idx =? 1 then file "1
" else file "2
";
     stack_bytes := [];
     heap_cell := 0;
     malloc_brand := true;
     calloc_l1size := true;
     calloc_l2size := true;
     calloc_frequency := true;
     calloc_keys := true;
     calloc_temp := true;
     calloc_cores := true;
     malloc_logical_ids := λ _, true;
     strdup_list := λ _, true |}.

(** A machine with two logical CPUs: CPU 0 has an empty
    physical_package_id file and no core_id file, CPU 1 is core 6 of
    package 5. *)
Definition first_cpu_without_line : Platform :=
  {| cpuid := λ _ _, (0, 0, 0, 0);
     get_nprocs := 2;
     physical_package_id := λ cpu, if cpu =? 1 then file "5
" else File [];
     core_id := λ cpu, if cpu =? 1 then file "6
" else NoFile;
     scaling_cur_freq := λ _, NoFile;
     cache_index_dir := λ _, false;
     cache_level := λ _, NoFile;
     cache_size := λ _, NoFile;
     cache_shared_cpu_list := λ _, NoFile;
     stack_bytes := [];
     heap_cell := 0;
     malloc_brand := true;
     calloc_l1size := true;
     calloc_l2size := true;
     calloc_frequency := true;
     calloc_keys := true;
     calloc_temp := true;
     calloc_cores := true;
     malloc_logical_ids := λ _, true;
     strdup_list := λ _, true |}.


(** * The rest of the Windows build *)

Module Windows.

(** One record met in the buffer that
    [GetLogicalProcessorInformationEx(RelationCache, ...)] filled: whether
    [Relationship == RelationCache], and [Cache.Level], [Cache.CacheSize]
    and [Cache.GroupMask.Mask]. *)
Record cache_record : Type := {
  is_cache : bool;
  Level : Z;
  CacheSize : Z;
  Mask : Z
}.

(** What the Windows build sees besides the records of the cores:
    - [shared]: CPUID and the allocator of the code common to both builds
      (the sysfs fields are not used here);
    - [topology]: the calls of [get_core_topology];
    - [GetActiveProcessorCount(ALL_PROCESSOR_GROUPS)] as a DWORD;
    - the value of [freq] after the registry calls for a logical CPU, when
      [RegOpenKeyExA] succeeds;
    - [len] after the sizing call for the caches, whether [malloc(len)]
      is served, and the records the walk meets in the buffer. *)
Record Host : Type := {
  shared : Platform;
  topology : Win32.Platform;
  GetActiveProcessorCount : Z;
  registry_MHz : Z → option Z;
  cache_len : Z;
  malloc_cache_buffer : bool;
  cache_records : list cache_record
}.

(** [memset(data->l1size, 0, L * sizeof(int))]: a negative [L] becomes a
    huge byte count. *)
Definition memset_l1size (L : Z) (d : CPU_DATA) : option CPU_DATA :=
  if L <? 0 then None
  else for_each (λ i d, l1 ← store (l1size d) i 0; Some (set_l1size l1 d)) (seqZ 0 L) d.

(** Body of the clearing loop (lines 363-366). *)
Definition clear_l2 (i : Z) (d : CPU_DATA) : option CPU_DATA :=
  l2 ← update (l2size d) i (set_l2cache_size 0);
  l2 ← update l2 i (set_shared_with_core_number 0);
  Some (set_l2size l2 d).

(** Body of the frequency loop (lines 370-380): [freq] starts as 0. *)
Definition read_registry (H : Host) (cpu : Z) (d : CPU_DATA) : option CPU_DATA :=
  let freq := default 0 (registry_MHz H cpu) in
  fr ← store (frequency d) cpu (wrap32 freq);
  Some (set_frequency fr d).

(** Body of the walk (lines 390-425) for one record. *)
Definition cache_record_step (r : cache_record) (d : CPU_DATA) : option CPU_DATA :=
  if is_cache r then Win32.assign_cache (Level r) (CacheSize r) (Mask r) d else Some d.

Fixpoint cache_records_loop (rs : list cache_record) (d : CPU_DATA) : option CPU_DATA :=
  match rs with
  | [] => Some d
  | r :: rest => d' ← cache_record_step r d; cache_records_loop rest d'
  end.

(** [populate_caches_and_freq] (lines 360-429).  The result of [malloc] is
    not tested: with a null buffer and a [len] that is not zero the walk
    reads through the null pointer. *)
Definition populate_caches_and_freq (H : Host) (data : CPU_DATA) : option CPU_DATA :=
  let L := logical_core_count data in
  d ← memset_l1size L data;
  d ← for_each clear_l2 (seqZ 0 L) d;
  let d := set_l3size 0 d in
  d ← for_each (read_registry H) (seqZ 0 L) d;
  if cache_len H =? 0 then Some d
  else if negb (malloc_cache_buffer H) then None
  else cache_records_loop (cache_records H) d.

(** Lines 551-579 of [get_cpu_data] in the Windows build. *)
Definition fill_cpu_data (H : Host) (d : CPU_DATA) : option (Z * CPU_DATA) :=
  let d := set_logical_core_count (wrap32 (GetActiveProcessorCount H)) d in
  let d := set_l1size (calloc (calloc_l1size (shared H)) 0 (logical_core_count d)) d in
  let d := set_l2size (calloc (calloc_l2size (shared H)) zero_l2cache (logical_core_count d)) d in
  let d := set_frequency (calloc (calloc_frequency (shared H)) 0 (logical_core_count d)) d in
  let d := set_l3size 0 d in
  if is_null (l1size d) || is_null (l2size d) || is_null (frequency d) then Some (203, d)
  else
    d ← populate_caches_and_freq H d;
    let d := set_algorithms (get_supported_algorithms (shared H)) d in
    '(rc, d) ← Win32.get_core_topology (topology H) d;
    if negb (rc =? 200) then Some (rc, d) else Some (0, d).

(** [get_cpu_data] as the DLL exports it. *)
Definition get_cpu_data (H : Host) (data : option CPU_DATA) : option (Z * option CPU_DATA) :=
  match data with
  | None => Some (201, None)
  | Some d =>
      let '(rc, name) := get_cpu_brand (shared H) (cpu_name d) in
      let d := set_cpu_name name d in
      if negb (rc =? 200) then Some (rc, Some d)
      else '(rc, d) ← fill_cpu_data H d; Some (rc, Some d)
  end.

(** ** The test program [windows_test.c] *)

(** What one run of the test program meets: whether [LoadLibraryA] and
    [GetProcAddress] give something, and the machine behind the DLL. *)
Record test_run : Type := {
  LoadLibraryA : bool;
  GetProcAddress : bool;
  host : Host
}.

(** How [main] leaves its first part (lines 18-39): with the exit code 1
    after "Failed to load DLL", with 2 after "Failed to find get_cpu_data",
    with 3 after "get_cpu_data failed with code rc", or by going on to open
    CPU_Info.txt and write the report from [data]. *)
Inductive main_outcome : Type :=
  | load_failed
  | proc_missing
  | data_failed (rc : Z)
  | report (data : CPU_DATA).

Definition main (T : test_run) : option main_outcome :=
  if negb (LoadLibraryA T) then Some load_failed
  else if negb (GetProcAddress T) then Some proc_missing
  else
    '(rc, data) ← get_cpu_data (host T) (Some zeroed_data);
    if negb (rc =? 200) then Some (data_failed rc)
    else report <$> data.

End Windows.

(** * Vocabulary of the further properties *)

(** ** Order *)

(** A list of integers in strictly increasing order. *)
Fixpoint ascending (l : list Z) : Prop :=
  match l with
  | [] => True
  | x :: rest => Forall (λ y, x < y) rest ∧ ascending rest
  end.

(** The logical CPUs of a list that bring a key not in [seen] and not
    brought by an earlier CPU of the list. *)
Fixpoint firsts_from (key : Z → Z) (seen : list Z) (cpus : list Z) : list Z :=
  match cpus with
  | [] => []
  | c :: rest =>
      if bool_decide (key c ∈ seen) then firsts_from key seen rest
      else c :: firsts_from key (seen ++ [key c]) rest
  end.

(** ** The cache loop *)

(** The index directories the cache loop enters: those before the first
    missing one. *)
Fixpoint visited (P : Platform) (range : list Z) : list Z :=
  match range with
  | [] => []
  | idx :: rest => if cache_index_dir P idx then idx :: visited P rest else []
  end.

(** The value of [l3size] after an index directory: a directory of level 3
    sets it once per parsed CPU, so only when its list is not empty. *)
Definition l3_after (P : Platform) (l3 : Z) (idx : Z) : Z :=
  if index_level P idx =? 3 then
    match shared_cpus P idx with [] => l3 | _ => index_sizeKB P idx end
  else l3.

(** An index directory the cache loop can handle inside its arrays: the
    parse of the list has a result, the list fits [cpus], and for the
    levels 1 and 2 it names logical CPUs below [L]. *)
Definition index_safe (P : Platform) (L : Z) (idx : Z) : Prop :=
  is_Some (shared_cpus_read P idx)
  ∧ (length (shared_cpus P idx) ≤ 256)%nat
  ∧ (index_level P idx = 1 ∨ index_level P idx = 2 →
     ∀ c, c ∈ shared_cpus P idx → 0 <= c < L).

(** The cores met so far by the first topology loop: [temp[0 .. unique)]. *)
Definition counted (st : discovery) : list PhysicalCoreInfo :=
  take (Z.to_nat (unique st)) (temp st).

(** The sum of the [logical_count] fields of a list of cores. *)
Definition total_count (cs : list PhysicalCoreInfo) : Z :=
  foldr (λ c s, logical_count c + s) 0 cs.

(** The blocks of the first loop hold [unique] cores, each counted at least
    once. *)
Definition discovery_ok (st : discovery) : Prop :=
  0 <= unique st
  ∧ unique st <= Z.of_nat (length (keys st))
  ∧ unique st <= Z.of_nat (length (temp st))
  ∧ Forall (λ c, 1 <= logical_count c) (counted st).

(** The cells of [logical_ids] the second loop has stored so far: the
    first [logical_count] of them. *)
Definition filled (c : PhysicalCoreInfo) : list Z :=
  take (Z.to_nat (logical_count c)) (core_cpus c).

(** [logical_count] has not passed the end of [logical_ids]. *)
Definition in_room (c : PhysicalCoreInfo) : Prop :=
  0 <= logical_count c <= Z.of_nat (length (core_cpus c)).

(** A frequency file from which nothing is read. *)
Definition unread (f : fopen_result) : Prop := f = NoFile ∨ f = File [].

(** A machine with one logical CPU whose cpu0 shows four index
    directories: two of level 1, one of level 2, one of level 3. *)
Definition single_cpu : Platform :=
  {| cpuid := λ _ _, (0, 0, 0, 0);
     get_nprocs := 1;
     physical_package_id := λ _, file "0
";
     core_id := λ _, file "0
";
     scaling_cur_freq := λ _, file "1800000
";
     cache_index_dir := λ idx, idx <? 4;
     cache_level := cache_level four_cpus;
     cache_size := cache_size four_cpus;
     cache_shared_cpu_list := λ _, file "0
";
     stack_bytes := [];
     heap_cell := 0;
     malloc_brand := true;
     calloc_l1size := true;
     calloc_l2size := true;
     calloc_frequency := true;
     calloc_keys := true;
     calloc_temp := true;
     calloc_cores := true;
     malloc_logical_ids := λ _, true;
     strdup_list := λ _, true |}.

(** The same machine with the directories index1 to index3 removed. *)
Definition single_cpu_index0 : Platform :=
  {| cpuid := λ _ _, (0, 0, 0, 0);
     get_nprocs := 1;
     physical_package_id := physical_package_id single_cpu;
     core_id := core_id single_cpu;
     scaling_cur_freq := scaling_cur_freq single_cpu;
     cache_index_dir := λ idx, idx <? 1;
     cache_level := λ idx, if idx <? 1 then cache_level single_cpu idx else NoFile;
     cache_size := λ idx, if idx <? 1 then cache_size single_cpu idx else NoFile;
     cache_shared_cpu_list :=
       λ idx, if idx <? 1 then cache_shared_cpu_list single_cpu idx else NoFile;
     stack_bytes := [];
     heap_cell := 0;
     malloc_brand := true;
     calloc_l1size := true;
     calloc_l2size := true;
     calloc_frequency := true;
     calloc_keys := true;
     calloc_temp := true;
     calloc_cores := true;
     malloc_logical_ids := λ _, true;
     strdup_list := λ _, true |}.

(** A machine with two logical CPUs online, numbered 0 and 4: the level 1
    directory index0 of cpu0 lists both. *)
Definition sparse_cpu_numbers : Platform :=
  {| cpuid := λ _ _, (0, 0, 0, 0);
     get_nprocs := 2;
     physical_package_id := λ _, file "0
";
     core_id := λ _, file "0
";
     scaling_cur_freq := λ _, NoFile;
     cache_index_dir := λ idx, idx <? 1;
     cache_level := λ _, file "1
";
     cache_size := λ _, file "32K
";
     cache_shared_cpu_list := λ _, file "0,4
";
     stack_bytes := [];
     heap_cell := 0;
     malloc_brand := true;
     calloc_l1size := true;
     calloc_l2size := true;
     calloc_frequency := true;
     calloc_keys := true;
     calloc_temp := true;
     calloc_cores := true;
     malloc_logical_ids := λ _, true;
     strdup_list := λ _, true |}.

(** ** CPUID *)

(** The twelve flags the code decodes only for the vendor GenuineIntel and
    the four it decodes only for AuthenticAMD. *)
Definition intel_only (alg : CPU_Algorithms) : list bool :=
  [POPCNT alg; PCLMULQDQ alg; AES alg; FMA alg; F16C alg; XSAVE alg; OSXSAVE alg;
   RDRAND alg; RDSEED alg; ADX alg; MPX alg; PREFETCHWT1 alg].

Definition amd_only (alg : CPU_Algorithms) : list bool :=
  [SSE4A alg; XOP alg; FMA4 alg; THREEDNOW_PLUS alg].

(** The registers EBX, EDX and ECX of leaf 0, as 32-bit patterns. *)
Definition leaf0_registers (P : Platform) : Z * Z * Z :=
  let '(_, b, c, d) := cpu_cpuid P 0 0 in (b mod 2 ^ 32, d mod 2 ^ 32, c mod 2 ^ 32).

(** A machine with one logical CPU whose only index directory is of
    level 3 and has a size file that opens at end of file. *)
Definition empty_size_file : Platform :=
  {| cpuid := λ _ _, (0, 0, 0, 0);
     get_nprocs := 1;
     physical_package_id := λ _, file "0
";
     core_id := λ _, file "0
";
     scaling_cur_freq := λ _, NoFile;
     cache_index_dir := λ idx, idx <? 1;
     cache_level := λ _, file "3
";
     cache_size := λ _, File [];
     cache_shared_cpu_list := λ _, file "0
";
     stack_bytes := [];
     heap_cell := 0;
     malloc_brand := true;
     calloc_l1size := true;
     calloc_l2size := true;
     calloc_frequency := true;
     calloc_keys := true;
     calloc_temp := true;
     calloc_cores := true;
     malloc_logical_ids := λ _, true;
     strdup_list := λ _, true |}.

(** The cell [regs[i]] of the four registers. *)
Definition register (r : registers) (i : nat) : Z :=
  let '(a, b, c, d) := r in
  match i with 0%nat => a | 1%nat => b | 2%nat => c | _ => d end.

(** Byte [j] of the 48 bytes CPUID gives for the brand: leaf
    0x80000002 + j / 16, register (j mod 16) / 4, bits 8 (j mod 4) and up. *)
Definition brand_byte (P : Platform) (j : nat) : Z :=
  (register (cpu_cpuid P (0x80000002 + Z.of_nat (j / 16)) 0) ((j mod 16) / 4)
   / 2 ^ (8 * Z.of_nat (j mod 4))) mod 256.

(** A processor whose brand registers hold the text CPU0 and zeros. *)
Definition short_brand : Platform :=
  {| cpuid := λ leaf _, if leaf =? 0x80000002 then (0x30555043, 0, 0, 0) else (0, 0, 0, 0);
     get_nprocs := 1;
     physical_package_id := λ _, NoFile;
     core_id := λ _, NoFile;
     scaling_cur_freq := λ _, NoFile;
     cache_index_dir := λ _, false;
     cache_level := λ _, NoFile;
     cache_size := λ _, NoFile;
     cache_shared_cpu_list := λ _, NoFile;
     stack_bytes := [];
     heap_cell := 0;
     malloc_brand := true;
     calloc_l1size := true;
     calloc_l2size := true;
     calloc_frequency := true;
     calloc_keys := true;
     calloc_temp := true;
     calloc_cores := true;
     malloc_logical_ids := λ _, true;
     strdup_list := λ _, true |}.

(** ** The aggregator *)

(** Two records that agree outside the cache and frequency fields. *)
Definition same_outside_caches (d d' : CPU_DATA) : Prop :=
  cpu_name d' = cpu_name d ∧ logical_core_count d' = logical_core_count d
  ∧ physical_core_count d' = physical_core_count d ∧ cores d' = cores d
  ∧ algorithms d' = algorithms d.

(** The L1 size and the L2 entry of the logical CPU [c] after an index
    directory: a directory of the level that lists [c] overwrites them. *)
Definition l1_after (P : Platform) (c : Z) (v : Z) (idx : Z) : Z :=
  if (index_level P idx =? 1) && bool_decide (c ∈ shared_cpus P idx)
  then index_sizeKB P idx else v.

Definition l2_after (P : Platform) (c : Z) (v : l2cache) (idx : Z) : l2cache :=
  if (index_level P idx =? 2) && bool_decide (c ∈ shared_cpus P idx)
  then {| l2cache_size := index_sizeKB P idx;
          shared_with_core_number := Z.of_nat (length (shared_cpus P idx)) |}
  else v.

(** ** The cache records of Windows *)

Definition record_sizeKB (r : Windows.cache_record) : Z :=
  wrap32 (Windows.CacheSize r / 1024).

(** The logical processors a record names: the set bits of its mask. *)
Definition record_cpus (r : Windows.cache_record) : list Z :=
  Win32.set_bits (Windows.Mask r).

(** The records the walk of [populate_caches_and_freq] meets. *)
Definition walked (H : Windows.Host) : list Windows.cache_record :=
  if Windows.cache_len H =? 0 then [] else Windows.cache_records H.

(** The L1 size, the L2 entry of the logical processor [b], and the L3
    size, after a record. *)
Definition record_l1_after (b : Z) (v : Z) (r : Windows.cache_record) : Z :=
  if Windows.is_cache r && (Windows.Level r =? 1) && bool_decide (b ∈ record_cpus r)
  then record_sizeKB r else v.

Definition record_l2_after (b : Z) (v : l2cache) (r : Windows.cache_record) : l2cache :=
  if Windows.is_cache r && (Windows.Level r =? 2) && bool_decide (b ∈ record_cpus r)
  then {| l2cache_size := record_sizeKB r;
          shared_with_core_number := Z.of_nat (length (record_cpus r)) |}
  else v.

Definition record_l3_after (v : Z) (r : Windows.cache_record) : Z :=
  if Windows.is_cache r && (Windows.Level r =? 3)
  then match record_cpus r with [] => v | _ => record_sizeKB r end
  else v.

(** A record whose stores stay inside arrays of [L] cells. *)
Definition record_safe (L : Z) (r : Windows.cache_record) : Prop :=
  Windows.is_cache r = true → Windows.Level r = 1 ∨ Windows.Level r = 2 →
  ∀ b, b ∈ record_cpus r → b < L.

(** A Windows machine with four logical processors in one group, two
    cores, an L1 and an L2 cache per core and one L3 cache; the registry
    has no key for processor 3, and the buffer also holds a record that is
    not a cache record. *)
Definition one_group_host : Windows.Host :=
  {| Windows.shared := four_cpus;
     Windows.topology := one_group;
     Windows.GetActiveProcessorCount := 4;
     Windows.registry_MHz := λ cpu, if cpu <? 3 then Some 2400 else None;
     Windows.cache_len := 288;
     Windows.malloc_cache_buffer := true;
     Windows.cache_records :=
       [ {| Windows.is_cache := true; Windows.Level := 1;
            Windows.CacheSize := 32768; Windows.Mask := 3 |};
         {| Windows.is_cache := true; Windows.Level := 1;
            Windows.CacheSize := 49152; Windows.Mask := 12 |};
         {| Windows.is_cache := true; Windows.Level := 2;
            Windows.CacheSize := 262144; Windows.Mask := 3 |};
         {| Windows.is_cache := true; Windows.Level := 2;
            Windows.CacheSize := 524288; Windows.Mask := 12 |};
         {| Windows.is_cache := false; Windows.Level := 1;
            Windows.CacheSize := 1024; Windows.Mask := 15 |};
         {| Windows.is_cache := true; Windows.Level := 3;
            Windows.CacheSize := 8388608; Windows.Mask := 15 |} ] |}.

(** A Windows machine with four logical processors in two processor
    groups of one core each: the masks of the two L1 caches number the
    processors inside their group. *)
Definition two_groups_host : Windows.Host :=
  {| Windows.shared := four_cpus;
     Windows.topology := two_groups;
     Windows.GetActiveProcessorCount := 4;
     Windows.registry_MHz := λ _, Some 2400;
     Windows.cache_len := 96;
     Windows.malloc_cache_buffer := true;
     Windows.cache_records :=
       [ {| Windows.is_cache := true; Windows.Level := 1;
            Windows.CacheSize := 32768; Windows.Mask := 3 |};
         {| Windows.is_cache := true; Windows.Level := 1;
            Windows.CacheSize := 49152; Windows.Mask := 3 |} ] |}.

(** The same machine seen through its two L2 caches: 256 KiB for the core
    of group 0 and 512 KiB for the core of group 1, whose two processors
    are the logical processors 2 and 3; both masks are 3. *)
Definition two_groups_l2_host : Windows.Host :=
  {| Windows.shared := four_cpus;
     Windows.topology := two_groups;
     Windows.GetActiveProcessorCount := 4;
     Windows.registry_MHz := λ _, Some 2400;
     Windows.cache_len := 96;
     Windows.malloc_cache_buffer := true;
     Windows.cache_records :=
       [ {| Windows.is_cache := true; Windows.Level := 2;
            Windows.CacheSize := 262144; Windows.Mask := 3 |};
         {| Windows.is_cache := true; Windows.Level := 2;
            Windows.CacheSize := 524288; Windows.Mask := 3 |} ] |}.

(** A run of the test program on that machine, with the DLL in place. *)
Definition healthy_run : Windows.test_run :=
  {| Windows.LoadLibraryA := true;
     Windows.GetProcAddress := true;
     Windows.host := one_group_host |}.

(** * Properties *)

(** One step of a computation that may become undefined. *)
Ltac bind_step := cbn [mbind option_bind].

Tactic Notation "bind_step" "in" hyp(H) := cbn [mbind option_bind] in H.

(** ** Decimal numerals *)

Lemma digit_of_isdigit c : isdigit c = true → digit_of c = Some (code c - 48).
Proof. unfold isdigit, digit_of. intros ->. reflexivity. Qed.

Lemma digit_of_not_isdigit c : isdigit c = false → digit_of c = None.
Proof. unfold isdigit, digit_of. intros ->. reflexivity. Qed.

Lemma scan_digits_app ds rest acc :
  forallb isdigit ds = true → stops rest = true →
  scan_digits acc (ds ++ rest) = (fold_left (λ acc c, 10 * acc + (code c - 48)) ds acc, rest).
Proof.
  revert acc. induction ds as [|c ds IH]; intros acc Hds Hrest; simpl in *.
  - destruct rest as [|c rest]; [reflexivity|]. simpl in *.
    rewrite digit_of_not_isdigit; [reflexivity|]. by destruct (isdigit c).
  - apply andb_true_iff in Hds as [Hc Hds].
    rewrite (digit_of_isdigit _ Hc). by apply IH.
Qed.

Lemma number_nonneg_from ds acc :
  forallb isdigit ds = true → 0 <= acc →
  0 <= fold_left (λ acc c, 10 * acc + (code c - 48)) ds acc.
Proof.
  revert acc. induction ds as [|c ds IH]; intros acc Hds Hacc; simpl in *; [lia|].
  apply andb_true_iff in Hds as [Hc Hds]. apply IH; [done|].
  unfold isdigit in Hc. lia.
Qed.

Lemma wrap32_id x : in_int x → wrap32 x = x.
Proof.
  unfold in_int, wrap32. intros H.
  rewrite Z.mod_small; lia.
Qed.

Lemma saturate_id x : LONG_MIN <= x <= LONG_MAX → saturate x = x.
Proof. unfold saturate. lia. Qed.

Lemma isdigit_facts c :
  isdigit c = true →
  isspace c = false ∧ is_char dash c = false ∧ is_char plus c = false
  ∧ is_char comma c = false ∧ is_char 77 c = false ∧ is_char 109 c = false.
Proof.
  unfold isdigit, isspace, is_char, dash, plus, comma. intros H.
  repeat split; lia.
Qed.

Lemma isdigit_not_nul c : isdigit c = true → is_char 0 c = false.
Proof. unfold isdigit, is_char. lia. Qed.

(** A text without NUL is the C string of its array. *)
Lemma c_string_no_nul s : no_nul s = true → c_string s = s.
Proof.
  induction s as [|c s IH]; simpl; [done|]. intros H.
  apply andb_true_iff in H as [Hc Hs]. apply negb_true_iff in Hc.
  by rewrite Hc, IH.
Qed.

Lemma c_string_app_no_nul s t : no_nul s = true → c_string (s ++ t) = s ++ c_string t.
Proof.
  induction s as [|c s IH]; simpl; [done|]. intros H.
  apply andb_true_iff in H as [Hc Hs]. apply negb_true_iff in Hc.
  by rewrite Hc, IH.
Qed.

Lemma no_nul_app s t : no_nul (s ++ t) = no_nul s && no_nul t.
Proof. apply forallb_app. Qed.

Lemma digits_no_nul ds : forallb isdigit ds = true → no_nul ds = true.
Proof.
  induction ds as [|c ds IH]; simpl; [done|]. intros H.
  apply andb_true_iff in H as [Hc Hds]. by rewrite (isdigit_not_nul _ Hc), IH.
Qed.

Lemma scan_int_numeral ds rest :
  numeral ds = true → stops rest = true →
  scan_int (ds ++ rest) = Some (number ds, rest).
Proof.
  unfold numeral. destruct ds as [|c ds]; [done|]. intros H Hrest.
  apply andb_true_iff in H as [Hds Hlt].
  assert (Hc : isdigit c = true) by (simpl in Hds; by apply andb_true_iff in Hds as [? _]).
  destruct (isdigit_facts c Hc) as (Hsp & Hdash & Hplus & _).
  unfold scan_int. cbn [app skip_space]. rewrite Hsp, Hdash, Hplus.
  rewrite (digit_of_isdigit _ Hc).
  change (c :: ds ++ rest) with ((c :: ds) ++ rest).
  rewrite scan_digits_app by done.
  fold (number (c :: ds)).
  pose proof (number_nonneg_from (c :: ds) 0 Hds ltac:(lia)) as Hge.
  fold (number (c :: ds)) in Hge. apply Z.ltb_lt in Hlt.
  rewrite saturate_id by (unfold LONG_MIN, LONG_MAX; lia).
  rewrite wrap32_id; [done|]. unfold in_int. lia.
Qed.

Lemma numeral_digits ds : numeral ds = true → forallb isdigit ds = true.
Proof.
  unfold numeral. destruct ds as [|c ds]; [done|]. intros H.
  by apply andb_true_iff in H as [? _].
Qed.

Lemma numeral_no_nul ds : numeral ds = true → no_nul ds = true.
Proof. intros H. by apply digits_no_nul, numeral_digits. Qed.

(** ** The shared-CPU list (C5) *)

Lemma numeral_no_comma ds : numeral ds = true → forallb (λ c, negb (is_char comma c)) ds = true.
Proof.
  unfold numeral. destruct ds as [|c0 ds0]; [done|].
  intros H. apply andb_true_iff in H as [H _]. revert H.
  generalize (c0 :: ds0). intros ds. induction ds as [|c ds IH]; simpl; [done|].
  intros H. apply andb_true_iff in H as [Hc Hds].
  destruct (isdigit_facts c Hc) as (_ & _ & _ & -> & _). simpl. by apply IH.
Qed.

Lemma entry_no_comma e nl :
  entry_ok e = true →
  forallb (λ c, negb (is_char comma c)) (entry_text e ++ line_end nl) = true.
Proof.
  intros H. rewrite forallb_app. apply andb_true_iff. split.
  - destruct e as [a|a b]; simpl in *.
    + by apply numeral_no_comma.
    + apply andb_true_iff in H as [H _]. apply andb_true_iff in H as [Ha Hb].
      rewrite forallb_app. apply andb_true_iff. split; [by apply numeral_no_comma|].
      simpl. by apply numeral_no_comma.
  - by destruct nl.
Qed.

Lemma entry_no_nul e nl :
  entry_ok e = true → no_nul (entry_text e ++ line_end nl) = true.
Proof.
  intros H. rewrite no_nul_app. apply andb_true_iff. split; [|by destruct nl].
  destruct e as [a|a b]; simpl in *.
  - by apply numeral_no_nul.
  - apply andb_true_iff in H as [H _]. apply andb_true_iff in H as [Ha Hb].
    rewrite no_nul_app. apply andb_true_iff. split; [by apply numeral_no_nul|].
    change (chars "-" ++ b) with ("-"%char :: b). simpl. by apply numeral_no_nul.
Qed.

Lemma strsep_tokens_last t :
  forallb (λ c, negb (is_char comma c)) t = true → strsep_tokens t = [t].
Proof.
  induction t as [|c t IH]; simpl; [done|]. intros H.
  apply andb_true_iff in H as [Hc Ht]. apply negb_true_iff in Hc. rewrite Hc.
  by rewrite IH.
Qed.

Lemma strsep_tokens_cons t s :
  forallb (λ c, negb (is_char comma c)) t = true →
  strsep_tokens (t ++ chars "," ++ s) = t :: strsep_tokens s.
Proof.
  change (chars "," ++ s) with (","%char :: s).
  induction t as [|c t IH]; simpl; [done|]. intros H.
  apply andb_true_iff in H as [Hc Ht]. apply negb_true_iff in Hc. rewrite Hc.
  by rewrite IH.
Qed.

Lemma token_cpus_entry e nl :
  entry_ok e = true → token_cpus (entry_text e ++ line_end nl) = Some (entry_cpus e).
Proof.
  assert (Hend : stops (line_end nl) = true) by by destruct nl.
  destruct e as [a|a b]; simpl; intros H.
  - unfold token_cpus, sscanf_d_dash_d, sscanf_d.
    rewrite scan_int_numeral by done. by destruct nl.
  - apply andb_true_iff in H as [H Hmax]. apply andb_true_iff in H as [Ha Hb].
    unfold token_cpus, sscanf_d_dash_d.
    rewrite <- app_assoc. rewrite scan_int_numeral by done.
    cbn [chars list_ascii_of_string app]. cbn [is_char code]. simpl (_ =? dash).
    cbv iota. rewrite scan_int_numeral by done.
    apply Z.ltb_lt in Hmax.
    change (is_char dash "-") with true. cbv iota.
    destruct (Z.eqb_spec (number b) INT_MAX) as [E|_]; [lia|reflexivity].
Qed.

Lemma parse_entries_from es nl :
  forallb entry_ok es = true →
  tokens_cpus (strsep_tokens (comma_separated (map entry_text es) ++ line_end nl))
  = Some (concat (map entry_cpus es)).
Proof.
  induction es as [|e es IH]; intros H.
  - by destruct nl.
  - cbn [forallb] in H. apply andb_true_iff in H as [He Hes].
    destruct es as [|e' es].
    + cbn [map comma_separated]. rewrite strsep_tokens_last by by apply entry_no_comma.
      cbn [map concat tokens_cpus]. rewrite token_cpus_entry by done.
      bind_step. by rewrite app_nil_r.
    + cbn [map comma_separated] in *. rewrite <- !app_assoc.
      rewrite strsep_tokens_cons.
      2:{ pose proof (entry_no_comma e false He) as Hc. simpl in Hc.
          by rewrite app_nil_r in Hc. }
      cbn [map concat tokens_cpus]. rewrite IH by done.
      pose proof (token_cpus_entry e false He) as Ht. simpl in Ht.
      rewrite app_nil_r in Ht. by rewrite Ht.
Qed.

Lemma entries_no_nul es nl :
  forallb entry_ok es = true →
  no_nul (comma_separated (map entry_text es) ++ line_end nl) = true.
Proof.
  induction es as [|e es IH]; intros H.
  - by destruct nl.
  - cbn [forallb] in H. apply andb_true_iff in H as [He Hes].
    destruct es as [|e' es].
    + cbn [map comma_separated]. by apply entry_no_nul.
    + cbn [map comma_separated] in *. rewrite <- !app_assoc.
      rewrite no_nul_app. apply andb_true_iff. split.
      * pose proof (entry_no_nul e false He) as Hc. simpl in Hc.
        by rewrite app_nil_r in Hc.
      * change (chars "," ++ ?x) with (","%char :: x). cbn [no_nul forallb].
        apply andb_true_iff. split; [done|]. by apply IH.
Qed.

Lemma parse_entries es nl :
  forallb entry_ok es = true →
  parse_shared_cpu_list true (comma_separated (map entry_text es) ++ line_end nl)
  = Some (concat (map entry_cpus es)).
Proof.
  intros H. unfold parse_shared_cpu_list, strdup.
  rewrite c_string_no_nul by by apply entries_no_nul.
  by apply parse_entries_from.
Qed.

(** C5: On the string "0-3,8" the parser stores exactly 0, 1, 2, 3, 8 in
    that order.  More generally, for a list of entries separated by commas
    (optionally ended by the newline of the file), every entry that is a
    single integer contributes itself, every entry a-b whose upper end is
    below the largest [int] contributes the inclusive range from a to b in
    ascending order, and the entries contribute from left to right; the
    call is then defined. *)
Theorem parse_shared_cpu_list_entries (es : list list_entry) (nl : bool) :
  forallb entry_ok es = true →
  parse_shared_cpu_list true (comma_separated (map entry_text es) ++ line_end nl)
  = Some (concat (map entry_cpus es))
  ∧ parse_shared_cpu_list true (chars "0-3,8") = Some [0; 1; 2; 3; 8].
Proof.
  intros H. split; [|reflexivity]. by apply parse_entries.
Qed.

Lemma parse_shared_cpu_list_entries_witness :
  forallb entry_ok
    [Range (chars "0") (chars "3"); Single (chars "8"); Range (chars "12") (chars "13")] = true
  ∧ parse_shared_cpu_list true (chars "0-3,8,12-13
") = Some [0; 1; 2; 3; 8; 12; 13].
Proof.
  split; [reflexivity|].
  apply (parse_shared_cpu_list_entries
    [Range (chars "0") (chars "3"); Single (chars "8"); Range (chars "12") (chars "13")] true).
  reflexivity.
Defined.

(** ** Cache sizes (C6) *)

Lemma digits_no_mega ds : forallb isdigit ds = true → mega ds = false.
Proof.
  intros H. unfold mega, strchr. rewrite c_string_no_nul by by apply digits_no_nul.
  induction ds as [|c ds IH]; simpl; [done|].
  apply andb_true_iff in H as [Hc Hds].
  destruct (isdigit_facts c Hc) as (_ & _ & _ & _ & -> & ->).
  by apply IH.
Qed.

Lemma mega_app a b : no_nul a = true → mega (a ++ b) = mega a || mega b.
Proof.
  intros H. unfold mega, strchr.
  rewrite c_string_app_no_nul, (c_string_no_nul a) by done. rewrite !existsb_app.
  by destruct (existsb _ a), (existsb _ (c_string b)), (existsb _ a), (existsb _ (c_string b)).
Qed.

Lemma suffix_stops suffix factor tail :
  suffix_factor suffix = Some factor → stops (suffix :: tail) = true.
Proof.
  unfold suffix_factor, stops, isdigit, is_char. intros H. apply negb_true_iff.
  destruct (code suffix =? 75) eqn:?, (code suffix =? 107) eqn:?,
    (code suffix =? 77) eqn:?, (code suffix =? 109) eqn:?; simpl in H; try done; lia.
Qed.

(** C6: When the buffer of the size file is a decimal number followed by
    'K' or 'k', the size in KiB is that number; followed by 'M' or 'm', it
    is that number times 1024. In particular "1024K" gives 1024 and "32M"
    gives 32768. *)
Theorem cache_size_KB_suffix (ds : list ascii) (suffix : ascii) (tail : list ascii) (factor : Z) :
  numeral ds = true →
  suffix_factor suffix = Some factor →
  (factor = 1 → mega tail = false) →
  number ds * factor < 2 ^ 31 →
  cache_size_KB (ds ++ suffix :: tail) = number ds * factor
  ∧ cache_size_KB (chars "1024K") = 1024
  ∧ cache_size_KB (chars "32M") = 32768.
Proof.
  intros Hds Hsuf Htail Hfit. split; [|split; reflexivity].
  pose proof (numeral_digits _ Hds) as Hdig.
  pose proof (number_nonneg_from ds 0 Hdig ltac:(lia)) as Hge. fold (number ds) in Hge.
  unfold cache_size_KB, atoi.
  rewrite scan_int_numeral by eauto using suffix_stops.
  fold (mega (ds ++ suffix :: tail)).
  rewrite mega_app, (digits_no_mega _ Hdig) by by apply digits_no_nul. cbn [orb].
  assert (Hnn : no_nul [suffix] = true).
  { unfold suffix_factor in Hsuf. unfold no_nul, is_char in *. simpl.
    rewrite andb_true_r. apply negb_true_iff, Z.eqb_neq. intros E.
    rewrite E in Hsuf. by simpl in Hsuf. }
  change (suffix :: tail) with ([suffix] ++ tail). rewrite mega_app by done.
  unfold suffix_factor in Hsuf.
  destruct (is_char 75 suffix || is_char 107 suffix) eqn:Hk.
  - injection Hsuf as <-.
    assert (mega [suffix] = false) as ->.
    { unfold mega, strchr. rewrite c_string_no_nul by done.
      unfold is_char in *. simpl. rewrite !orb_false_r.
      apply orb_false_iff. split; apply Z.eqb_neq; lia. }
    rewrite Htail by done. simpl. lia.
  - destruct (is_char 77 suffix || is_char 109 suffix) eqn:Hm; [|done].
    injection Hsuf as <-.
    assert (mega [suffix] = true) as ->.
    { unfold mega, strchr. rewrite c_string_no_nul by done.
      simpl. by rewrite !orb_false_r. }
    simpl. apply wrap32_id. unfold in_int. lia.
Qed.

Lemma cache_size_KB_suffix_witness :
  numeral (chars "512") = true
  ∧ suffix_factor "k"%char = Some 1
  ∧ cache_size_KB (chars "512k
") = 512.
Proof.
  split; [reflexivity|]. split; [reflexivity|].
  apply (cache_size_KB_suffix (chars "512") "k"%char (chars "
") 1); [reflexivity..| |reflexivity].
  intros _. reflexivity.
Defined.

(** ** Frames of the stores *)

Lemma store_cell_Some {A : Type} (l l' : list A) i v :
  store_cell l i v = Some l' ↔ (0 <= i < Z.of_nat (length l)) ∧ l' = <[Z.to_nat i := v]> l.
Proof.
  unfold store_cell. destruct (0 <=? i) eqn:H0, (i <? Z.of_nat (length l)) eqn:H1; simpl;
    split; intros H; try done; try lia.
  - injection H as <-. split; [lia|done].
  - by destruct H as [_ ->].
Qed.

Lemma store_Some {A : Type} (p p' : option (list A)) i v :
  store p i v = Some p' →
  cell p' i = Some v ∧ (∀ j, j ≠ i → cell p' j = cell p j).
Proof.
  unfold store, cell. intros H. destruct p as [l|]; [|done]. simpl in H.
  destruct (store_cell l i v) as [l'|] eqn:Hs; [|done]. injection H as <-.
  apply store_cell_Some in Hs as [Hi ->]. simpl. unfold load_cell. split.
  - destruct (0 <=? i) eqn:H0; [|lia]. apply list_lookup_insert_eq. lia.
  - intros j Hj. destruct (0 <=? j) eqn:H0; [|done].
    apply list_lookup_insert_ne. lia.
Qed.

Lemma update_Some {A : Type} (p p' : option (list A)) i f :
  update p i f = Some p' →
  ∃ x, cell p i = Some x ∧ cell p' i = Some (f x) ∧ (∀ j, j ≠ i → cell p' j = cell p j).
Proof.
  unfold update. intros H. destruct p as [l|]; [|done]. simpl in H.
  destruct (load_cell l i) as [x|] eqn:Hx; [|done]. simpl in H.
  destruct (store_cell l i (f x)) as [l'|] eqn:Hs; [|done]. injection H as <-.
  exists x. split; [done|].
  apply (store_Some (Some l) (Some l') i (f x)). unfold store. simpl. by rewrite Hs.
Qed.

(** A property every iteration keeps holds after the loop. *)
Lemma for_each_keeps {S : Type} (Q : S → Prop) (body : Z → S → option S) l st st' :
  (∀ j s s', j ∈ l → body j s = Some s' → Q s → Q s') →
  for_each body l st = Some st' → Q st → Q st'.
Proof.
  revert st. induction l as [|i l IH]; intros st Hkeep Hrun Hst; simpl in Hrun.
  - by injection Hrun as <-.
  - destruct (body i st) as [st1|] eqn:Hb; [|done]. simpl in Hrun.
    apply (IH st1); [|done|].
    + intros j s s' Hj. apply Hkeep. by right.
    + apply (Hkeep i st st1); [by left|done|done].
Qed.

(** A property that iteration [i] establishes and every iteration keeps
    holds after a loop that runs iteration [i]. *)
Lemma for_each_establishes {S : Type} (Q : S → Prop) (body : Z → S → option S) l i st st' :
  i ∈ l →
  (∀ s s', body i s = Some s' → Q s') →
  (∀ j s s', j ∈ l → body j s = Some s' → Q s → Q s') →
  for_each body l st = Some st' → Q st'.
Proof.
  revert st. induction l as [|k l IH]; intros st Hi Hset Hkeep Hrun; [by inversion Hi|].
  simpl in Hrun. destruct (body k st) as [st1|] eqn:Hb; [|done]. simpl in Hrun.
  apply elem_of_cons in Hi as [->|Hi].
  - apply (for_each_keeps Q body l st1); [|done|by eapply Hset].
    intros j s s' Hj. apply Hkeep. by right.
  - apply (IH st1); [done|done| |done]. intros j s s' Hj. apply Hkeep. by right.
Qed.

(** ** Frequencies (C7) *)

Lemma read_frequency_other P c d d' j :
  read_frequency P c d = Some d' → j ≠ c → cell (frequency d') j = cell (frequency d) j.
Proof.
  unfold read_frequency. intros H Hj.
  destruct (scaling_cur_freq P c) as [|contents]; [by injection H as <-|].
  destruct (fgets 32 contents) as [buf|]; [|by injection H as <-].
  destruct (store (frequency d) c (atoi buf ÷ 1000)) as [fr|] eqn:Hs; [|done].
  injection H as <-. simpl. by apply (store_Some _ _ _ _ Hs).
Qed.

Lemma read_frequency_this P c d d' contents buf :
  read_frequency P c d = Some d' →
  scaling_cur_freq P c = File contents → fgets 32 contents = Some buf →
  cell (frequency d') c = Some (atoi buf ÷ 1000).
Proof.
  unfold read_frequency. intros H Hf Hb. rewrite Hf, Hb in H.
  destruct (store (frequency d) c (atoi buf ÷ 1000)) as [fr|] eqn:Hs; [|done].
  injection H as <-. simpl. by apply (store_Some _ _ _ _ Hs).
Qed.

Lemma assign_cpu_frequency level sizeKB cpuc c d d' :
  assign_cpu level sizeKB cpuc c d = Some d' → frequency d' = frequency d.
Proof.
  unfold assign_cpu. intros H.
  repeat case_match; simplify_option_eq; done.
Qed.

(** A pass over an index directory is defined when the parse of its list
    is and the list fits [cpus]; it is then the assignment loop. *)
Lemma cache_index_Some P idx d d' :
  cache_index P idx d = Some d' ↔
  is_Some (shared_cpus_read P idx)
  ∧ (length (shared_cpus P idx) ≤ 256)%nat
  ∧ assign_cache (index_level P idx) (index_sizeKB P idx) (shared_cpus P idx) d = Some d'.
Proof.
  unfold cache_index, shared_cpus.
  destruct (shared_cpus_read P idx) as [cpus|]; simpl.
  - destruct (Nat.leb_spec (length cpus) 256) as [Hle|Hgt].
    + split; [by intros H; split; [eexists|]|by intros (_ & _ & H)].
    + split; [done|]. intros (_ & Hle & _). lia.
  - split; [done|]. by intros ([? ?] & _).
Qed.

Lemma cache_index_run P idx d :
  is_Some (shared_cpus_read P idx) → (length (shared_cpus P idx) ≤ 256)%nat →
  cache_index P idx d
  = assign_cache (index_level P idx) (index_sizeKB P idx) (shared_cpus P idx) d.
Proof.
  intros Hp Hle.
  destruct (assign_cache (index_level P idx) (index_sizeKB P idx) (shared_cpus P idx) d)
    as [d'|] eqn:Ha.
  - by apply cache_index_Some.
  - destruct (cache_index P idx d) as [d'|] eqn:Hc; [|done].
    apply cache_index_Some in Hc as (_ & _ & Hc). congruence.
Qed.

Lemma cache_index_frequency P idx d d' :
  cache_index P idx d = Some d' → frequency d' = frequency d.
Proof.
  intros H. apply cache_index_Some in H as (_ & _ & H). unfold assign_cache in H.
  apply (for_each_keeps (λ s, frequency s = frequency d) _ _ _ _) with (3 := eq_refl) (2 := H).
  intros j s s' _ Hb <-. by eapply assign_cpu_frequency.
Qed.

Lemma cache_loop_frequency P l d d' :
  cache_loop P l d = Some d' → frequency d' = frequency d.
Proof.
  revert d. induction l as [|idx l IH]; intros d H; simpl in H.
  - by injection H as <-.
  - destruct (cache_index_dir P idx); [|by injection H as <-].
    destruct (cache_index P idx d) as [d1|] eqn:H1; [|done]. simpl in H.
    rewrite (IH _ H). by eapply cache_index_frequency.
Qed.


(** ** L2 sharing counts (C3) *)

Lemma for_each_defined {S : Type} (I : S → Prop) (body : Z → S → option S) l st :
  (∀ j s, j ∈ l → I s → ∃ s', body j s = Some s' ∧ I s') →
  I st → ∃ st', for_each body l st = Some st' ∧ I st'.
Proof.
  revert st. induction l as [|i l IH]; intros st Hstep Hst; simpl.
  - by exists st.
  - destruct (Hstep i st) as (st1 & -> & H1); [by left|done|]. simpl.
    apply IH; [|done]. intros j s Hj. apply Hstep. by right.
Qed.

Lemma update_defined {A : Type} (l : list A) i f :
  0 <= i < Z.of_nat (length l) →
  ∃ x, update (Some l) i f = Some (Some (<[Z.to_nat i := f x]> l)).
Proof.
  intros Hi. unfold update, load_cell, store_cell. simpl.
  destruct (lookup_lt_is_Some_2 l (Z.to_nat i)) as [x Hx]; [lia|].
  exists x. destruct (0 <=? i) eqn:H0; [|lia]. rewrite Hx. simpl.
  destruct (i <? Z.of_nat (length l)) eqn:H1; [done|lia].
Qed.

(** Writing an L2 entry: defined inside the block, which keeps its length. *)
Lemma l2_entry_defined sizeKB shared c d (n : nat) :
  (∃ l, l2size d = Some l ∧ length l = n) → 0 <= c < Z.of_nat n →
  ∃ d', (l2 ← update (l2size d) c (set_l2cache_size sizeKB);
         l2 ← update l2 c (set_shared_with_core_number shared);
         Some (set_l2size l2 d)) = Some d'
        ∧ ∃ l, l2size d' = Some l ∧ length l = n.
Proof.
  intros (l & Hl & Hn) Hc. rewrite Hl.
  destruct (update_defined l c (set_l2cache_size sizeKB)) as [x ->]; [lia|].
  bind_step.
  destruct (update_defined (<[Z.to_nat c := set_l2cache_size sizeKB x]> l) c
              (set_shared_with_core_number shared)) as [y ->];
    [rewrite length_insert; lia|].
  bind_step.
  eexists. split; [done|]. cbn [l2size set_l2size]. eexists. split; [done|].
  by rewrite !length_insert.
Qed.

(** The L2 entry of [c] after it was written. *)
Lemma l2_entry_written sizeKB shared c d d' :
  (l2 ← update (l2size d) c (set_l2cache_size sizeKB);
   l2 ← update l2 c (set_shared_with_core_number shared);
   Some (set_l2size l2 d)) = Some d' →
  cell (l2size d') c
  = Some {| l2cache_size := sizeKB; shared_with_core_number := shared |}
  ∧ ∀ j, j ≠ c → cell (l2size d') j = cell (l2size d) j.
Proof.
  intros H.
  destruct (update (l2size d) c (set_l2cache_size sizeKB)) as [l2|] eqn:H1; [|done].
  simpl in H.
  destruct (update l2 c (set_shared_with_core_number shared)) as [l2'|] eqn:H2; [|done].
  injection H as <-. simpl.
  apply update_Some in H1 as (x & _ & Hx & Hox).
  apply update_Some in H2 as (y & Hy & Hy' & Hoy).
  rewrite Hx in Hy. injection Hy as <-. split; [done|].
  intros j Hj. rewrite Hoy by done. by apply Hox.
Qed.

Lemma assign_cpu_l2 sizeKB cpuc c d :
  assign_cpu 2 sizeKB cpuc c d
  = (l2 ← update (l2size d) c (set_l2cache_size sizeKB);
     l2 ← update l2 c (set_shared_with_core_number cpuc);
     Some (set_l2size l2 d)).
Proof. reflexivity. Qed.

Lemma assign_bit_l2 sizeKB shared mask b d :
  Win32.bit_set mask b = true →
  Win32.assign_bit 2 sizeKB shared mask b d
  = (l2 ← update (l2size d) b (set_l2cache_size sizeKB);
     l2 ← update l2 b (set_shared_with_core_number shared);
     Some (set_l2size l2 d)).
Proof. unfold Win32.assign_bit. by intros ->. Qed.

Lemma count_bits_from (f : Z → bool) l acc :
  fold_left (λ count b, if f b then count + 1 else count) l acc
  = acc + Z.of_nat (length (List.filter f l)).
Proof.
  revert acc. induction l as [|b l IH]; intros acc; simpl; [lia|].
  rewrite IH. destruct (f b); simpl; lia.
Qed.

Lemma count_bits_set_bits mask :
  Win32.count_bits mask = Z.of_nat (length (Win32.set_bits mask)).
Proof. unfold Win32.count_bits, Win32.set_bits. by rewrite count_bits_from. Qed.

Lemma elem_of_set_bits mask b :
  b ∈ Win32.set_bits mask ↔ (0 <= b < 64) ∧ Win32.bit_set mask b = true.
Proof.
  unfold Win32.set_bits. rewrite list_elem_of_In, filter_In, <- list_elem_of_In, elem_of_seqZ.
  intuition lia.
Qed.

(** The assignment loop of the Linux build for a list of level 2. *)
Lemma assign_cache_l2 sizeKB cpus d (l : list l2cache) :
  l2size d = Some l →
  (∀ c, c ∈ cpus → 0 <= c < Z.of_nat (length l)) →
  ∃ d', assign_cache 2 sizeKB cpus d = Some d'
        ∧ ∀ c, c ∈ cpus →
            cell (l2size d') c
            = Some {| l2cache_size := sizeKB;
                      shared_with_core_number := Z.of_nat (length cpus) |}.
Proof.
  intros Hl Hin. unfold assign_cache.
  destruct (for_each_defined (λ s, ∃ l', l2size s = Some l' ∧ length l' = length l)
              (assign_cpu 2 sizeKB (Z.of_nat (length cpus))) cpus d) as (d' & Hrun & _).
  { intros j s Hj Hs. rewrite assign_cpu_l2. apply l2_entry_defined; auto. }
  { by exists l. }
  exists d'. split; [done|]. intros c Hc. revert Hrun.
  apply (for_each_establishes
           (λ s, cell (l2size s) c
                 = Some {| l2cache_size := sizeKB;
                           shared_with_core_number := Z.of_nat (length cpus) |}))
    with (i := c); [done|..].
  - intros s s' Hb. rewrite assign_cpu_l2 in Hb. by apply l2_entry_written in Hb as [? _].
  - intros j s s' _ Hb Hs. rewrite assign_cpu_l2 in Hb.
    apply l2_entry_written in Hb as [Hthis Hother].
    destruct (decide (j = c)) as [->|Hne]; [done|]. by rewrite Hother.
Qed.

(** The assignment loop of the Windows build for a record of level 2. *)
Lemma win32_assign_cache_l2 CacheSize mask d (l : list l2cache) :
  l2size d = Some l →
  (∀ b, b ∈ Win32.set_bits mask → b < Z.of_nat (length l)) →
  ∃ d', Win32.assign_cache 2 CacheSize mask d = Some d'
        ∧ ∀ b, b ∈ Win32.set_bits mask →
            cell (l2size d') b
            = Some {| l2cache_size := wrap32 (CacheSize / 1024);
                      shared_with_core_number := Z.of_nat (length (Win32.set_bits mask)) |}.
Proof.
  intros Hl Hin. unfold Win32.assign_cache.
  rewrite count_bits_set_bits.
  set (sizeKB := wrap32 (CacheSize / 1024)).
  set (shared := Z.of_nat (length (Win32.set_bits mask))).
  destruct (for_each_defined (λ s, ∃ l', l2size s = Some l' ∧ length l' = length l)
              (Win32.assign_bit 2 sizeKB shared mask) (seqZ 0 64) d) as (d' & Hrun & _).
  { intros j s Hj Hs. destruct (Win32.bit_set mask j) eqn:Hbit.
    - rewrite assign_bit_l2 by done. apply l2_entry_defined; [done|].
      apply elem_of_seqZ in Hj. split; [lia|]. apply Hin, elem_of_set_bits. split; [lia|done].
    - unfold Win32.assign_bit. rewrite Hbit. by exists s. }
  { by exists l. }
  exists d'. split; [done|]. intros b Hb. revert Hrun.
  apply elem_of_set_bits in Hb as [Hb Hbit].
  apply (for_each_establishes
           (λ s, cell (l2size s) b
                 = Some {| l2cache_size := sizeKB; shared_with_core_number := shared |}))
    with (i := b); [apply elem_of_seqZ; lia|..].
  - intros s s' Hrun. rewrite assign_bit_l2 in Hrun by done.
    by apply l2_entry_written in Hrun as [? _].
  - intros j s s' _ Hrun Hs. destruct (Win32.bit_set mask j) eqn:Hj.
    + rewrite assign_bit_l2 in Hrun by done.
      apply l2_entry_written in Hrun as [Hthis Hother].
      destruct (decide (j = b)) as [->|Hne]; [done|]. by rewrite Hother.
    + unfold Win32.assign_bit in Hrun. rewrite Hj in Hrun. by injection Hrun as <-.
Qed.

Lemma group_processors_first mask : group_processors 0 mask = Win32.set_bits mask.
Proof.
  unfold group_processors. induction (Win32.set_bits mask) as [|b l IH]; [done|].
  simpl. by rewrite IH.
Qed.

(** C3, as the code has it: one L2 cache instance gives every cell it
    writes the same size and, as [shared_with_core_number], the number of
    logical cores of its sharing set, the core itself included.  On Linux
    the instance is an index directory of level 2, the set is the parsed
    shared-CPU list, the number is its length and the cells are those of
    the members.  On Windows the instance is a cache record of level 2,
    the number is the count of the set bits of its mask and the cells are
    the bit positions themselves: they are the members of the sharing set
    for a record of the processor group that starts at logical processor
    0.  The stores are defined when the list is parsed, fits the array of
    256 entries, and the cells lie inside the block. *)
Theorem l2_shared_with_all_members :
  (∀ (P : Platform) (idx : Z) (d : CPU_DATA) (l : list l2cache),
     index_level P idx = 2 →
     is_Some (shared_cpus_read P idx) →
     (length (shared_cpus P idx) ≤ 256)%nat →
     l2size d = Some l →
     (∀ c, c ∈ shared_cpus P idx → 0 <= c < Z.of_nat (length l)) →
     ∃ d', cache_index P idx d = Some d'
           ∧ ∀ c, c ∈ shared_cpus P idx →
               cell (l2size d') c
               = Some {| l2cache_size := index_sizeKB P idx;
                         shared_with_core_number :=
                           Z.of_nat (length (shared_cpus P idx)) |})
  ∧ (∀ (CacheSize mask : Z) (d : CPU_DATA) (l : list l2cache),
       l2size d = Some l →
       (∀ c, c ∈ group_processors 0 mask → c < Z.of_nat (length l)) →
       ∃ d', Win32.assign_cache 2 CacheSize mask d = Some d'
             ∧ Win32.count_bits mask = Z.of_nat (length (group_processors 0 mask))
             ∧ ∀ c, c ∈ group_processors 0 mask →
                 cell (l2size d') c
                 = Some {| l2cache_size := wrap32 (CacheSize / 1024);
                           shared_with_core_number :=
                             Z.of_nat (length (group_processors 0 mask)) |}).
Proof.
  split.
  - intros P idx d l Hlevel Hparse Hroom Hl Hin.
    rewrite cache_index_run, Hlevel by done. by eapply assign_cache_l2.
  - intros CacheSize mask d l Hl. rewrite group_processors_first. intros Hin.
    destruct (win32_assign_cache_l2 CacheSize mask d l Hl Hin) as (d' & Hrun & Hcells).
    exists d'. split; [done|]. split; [apply count_bits_set_bits|done].
Qed.

Lemma l2_shared_with_all_members_witness :
  (index_level four_cpus 2 = 2
   ∧ shared_cpus_read four_cpus 2 = Some [0; 1]
   ∧ index_sizeKB four_cpus 2 = 256
   ∧ ∃ d', cache_index four_cpus 2 (allocated_data 4) = Some d'
           ∧ cell (l2size d') 1
             = Some {| l2cache_size := 256; shared_with_core_number := 2 |})
  ∧ (group_processors 0 12 = [2; 3]
     ∧ ∃ d', Win32.assign_cache 2 262144 12 (allocated_data 4) = Some d'
             ∧ cell (l2size d') 3
               = Some {| l2cache_size := 256; shared_with_core_number := 2 |}).
Proof.
  split.
  - split; [reflexivity|]. split; [reflexivity|]. split; [reflexivity|].
    destruct (proj1 l2_shared_with_all_members four_cpus 2 (allocated_data 4)
                (zeroed zero_l2cache 4) eq_refl) as (d' & Hrun & Hcells).
    + eexists. reflexivity.
    + apply Nat.leb_le. vm_compute. reflexivity.
    + reflexivity.
    + intros c Hc. apply (elem_of_seqZ 0 2) in Hc. simpl. lia.
    + exists d'. split; [exact Hrun|]. apply (Hcells 1). apply (elem_of_seqZ 0 2). lia.
  - split; [reflexivity|].
    destruct (proj2 l2_shared_with_all_members 262144 12 (allocated_data 4)
                (zeroed zero_l2cache 4) eq_refl) as (d' & Hrun & _ & Hcells).
    + intros c Hc. change (group_processors 0 12) with (seqZ 2 2) in Hc.
      apply elem_of_seqZ in Hc. simpl. lia.
    + exists d'. split; [exact Hrun|].
      apply (Hcells 3). change (group_processors 0 12) with (seqZ 2 2).
      apply elem_of_seqZ. lia.
Defined.

(** The claim C3 as it is written fails on Windows with more than one
    processor group: the mask of a cache record numbers the processors
    inside the group of the record and the group is never read, so the L2
    cache of the second group, whose sharing set is the logical processors
    2 and 3, is written over the cells 0 and 1 of the first group, and the
    cells of its own two members keep the zeros of the clearing loop. *)
Lemma l2_of_a_second_group_is_misplaced :
  ∃ d', Windows.populate_caches_and_freq two_groups_l2_host (allocated_data 4) = Some d'
        ∧ group_processors 2 3 = [2; 3]
        ∧ cell (l2size d') 2
          = Some {| l2cache_size := 0; shared_with_core_number := 0 |}
        ∧ cell (l2size d') 3
          = Some {| l2cache_size := 0; shared_with_core_number := 0 |}
        ∧ cell (l2size d') 0
          = Some {| l2cache_size := 512; shared_with_core_number := 2 |}
        ∧ cell (l2size d') 1
          = Some {| l2cache_size := 512; shared_with_core_number := 2 |}.
Proof.
  eexists. split; [vm_compute; reflexivity|]. repeat split; reflexivity.
Qed.

(** ** Defined runs of [populate_caches_and_freq] *)

Lemma store_keeps {A : Type} (p : option (list A)) (n : nat) i v :
  (∃ l, p = Some l ∧ length l = n) → 0 <= i < Z.of_nat n →
  ∃ p', store p i v = Some p' ∧ ∃ l, p' = Some l ∧ length l = n.
Proof.
  intros (l & -> & Hn) Hi. unfold store, store_cell. bind_step.
  destruct (0 <=? i) eqn:H0; [|lia].
  destruct (i <? Z.of_nat (length l)) eqn:H1; [|lia]. cbn.
  eexists. split; [done|]. eexists. split; [done|]. by rewrite length_insert.
Qed.

Lemma update_keeps {A : Type} (p : option (list A)) (n : nat) i f :
  (∃ l, p = Some l ∧ length l = n) → 0 <= i < Z.of_nat n →
  ∃ p', update p i f = Some p' ∧ ∃ l, p' = Some l ∧ length l = n.
Proof.
  intros (l & -> & Hn) Hi.
  destruct (update_defined l i f) as [x ->]; [lia|].
  eexists. split; [done|]. eexists. split; [done|]. by rewrite length_insert.
Qed.

Lemma clear_cpu_defined (n : nat) i d :
  blocks_of_length n d → 0 <= i < Z.of_nat n →
  ∃ d', clear_cpu i d = Some d' ∧ blocks_of_length n d'.
Proof.
  intros (H1 & H2 & Hf) Hi. unfold clear_cpu.
  destruct (store_keeps _ n i 0 H1 Hi) as (l1 & -> & H1').
  bind_step.
  destruct (update_keeps _ n i (set_l2cache_size 0) H2 Hi) as (l2 & -> & H2').
  bind_step.
  destruct (update_keeps _ n i (set_shared_with_core_number 0) H2' Hi) as (l2' & -> & H2'').
  bind_step.
  destruct (store_keeps _ n i 0 Hf Hi) as (fr & -> & Hf').
  bind_step. eexists. split; [done|]. by split.
Qed.

Lemma read_frequency_defined P (n : nat) cpu d :
  blocks_of_length n d → 0 <= cpu < Z.of_nat n →
  ∃ d', read_frequency P cpu d = Some d' ∧ blocks_of_length n d'.
Proof.
  intros Hd Hcpu. unfold read_frequency.
  destruct (scaling_cur_freq P cpu) as [|contents]; [by exists d|].
  destruct (fgets 32 contents) as [buf|]; [|by exists d].
  destruct Hd as (H1 & H2 & Hf).
  destruct (store_keeps _ n cpu (atoi buf ÷ 1000) Hf Hcpu) as (fr & -> & Hf').
  bind_step. eexists. split; [done|]. by split.
Qed.

Lemma assign_cpu_defined (n : nat) level sizeKB cpuc c d :
  blocks_of_length n d → 0 <= c < Z.of_nat n →
  ∃ d', assign_cpu level sizeKB cpuc c d = Some d' ∧ blocks_of_length n d'.
Proof.
  intros (H1 & H2 & Hf) Hc. unfold assign_cpu.
  destruct (level =? 1).
  - destruct (store_keeps _ n c sizeKB H1 Hc) as (l1 & -> & H1').
    bind_step. eexists. split; [done|]. by split.
  - destruct (level =? 2).
    + destruct (update_keeps _ n c (set_l2cache_size sizeKB) H2 Hc) as (l2 & -> & H2a).
      bind_step.
      destruct (update_keeps _ n c (set_shared_with_core_number cpuc) H2a Hc)
        as (l2' & -> & H2b).
      bind_step. eexists. split; [done|]. by split.
    + destruct (level =? 3); eexists; (split; [done|]); by split.
Qed.


Lemma take_line_digits n ds rest :
  forallb isdigit ds = true → (length ds ≤ n)%nat →
  take_line n (ds ++ rest) = ds ++ take_line (n - length ds) rest.
Proof.
  revert n. induction ds as [|c ds IH]; intros n Hds Hn; cbn [length forallb app] in *.
  - by rewrite Nat.sub_0_r.
  - destruct n; [lia|]. apply andb_true_iff in Hds as [Hc Hds].
    cbn [take_line].
    assert (is_char newline c = false) as ->.
    { unfold is_char, isdigit, newline in *. apply andb_true_iff in Hc as [Hc _].
      apply Z.leb_le in Hc. apply Z.eqb_neq. lia. }
    f_equal. rewrite IH by (done || lia). done.
Qed.

Lemma take_line_stops n rest : stops rest = true → stops (take_line n rest) = true.
Proof.
  destruct rest as [|c rest], n as [|n]; try done. simpl.
  by destruct (is_char newline c).
Qed.

(** [atoi] on the line [fgets] takes from a file that starts with a number
    of at most 31 digits. *)
Lemma atoi_of_line ds rest buf :
  numeral ds = true → (length ds < 32)%nat → stops rest = true →
  fgets 32 (ds ++ rest) = Some buf → atoi buf = number ds.
Proof.
  intros Hds Hlen Hrest. unfold fgets.
  destruct (ds ++ rest) as [|c l] eqn:E; [done|]. rewrite <- E.
  change (32 - 1)%nat with 31%nat.
  rewrite take_line_digits by (eauto using numeral_digits || lia).
  intros [= <-]. unfold atoi.
  by rewrite scan_int_numeral by auto using take_line_stops.
Qed.

Lemma fgets_of_number ds rest :
  numeral ds = true → is_Some (fgets 32 (ds ++ rest)).
Proof. unfold numeral, fgets. destruct ds; [done|]. by eexists. Qed.

(** The cache loop with its buffer carried along never writes a frequency
    and stays inside the arrays for lists that name existing CPUs. *)
Lemma cache_loop_from_frequency P range d before d' :
  cache_loop_from P range d before = Some d' → frequency d' = frequency d.
Proof.
  revert d before. induction range as [|idx range IH]; intros d before H; simpl in H.
  - by injection H as <-.
  - destruct (cache_index_dir P idx); [|by injection H as <-].
    destruct (cache_index (with_stack P before) idx d) as [d1|] eqn:H1; [|done].
    simpl in H. rewrite (IH _ _ H). by eapply cache_index_frequency.
Qed.

Lemma cache_loop_from_defined P (n : nat) (L : Z) range d before :
  cache_lists_in_range P L → L <= Z.of_nat n →
  (∀ idx, idx ∈ range → 0 <= idx < L) →
  blocks_of_length n d →
  ∃ d', cache_loop_from P range d before = Some d' ∧ blocks_of_length n d'.
Proof.
  intros Hlists Hn. revert d before.
  induction range as [|idx range IH]; intros d before Hrange Hd; simpl.
  - by exists d.
  - destruct (cache_index_dir P idx) eqn:Hdir; [|by exists d].
    destruct (Hlists idx) as (Hparse & Hroom & Hin); [apply Hrange; by left|done|].
    rewrite (cache_index_run (with_stack P before)) by done. unfold assign_cache.
    destruct (for_each_defined (blocks_of_length n)
                (assign_cpu (index_level (with_stack P before) idx)
                   (index_sizeKB (with_stack P before) idx)
                   (Z.of_nat (length (shared_cpus P idx))))
                (shared_cpus P idx) d) as (d1 & Hd1 & Hb1); [|done|].
    + intros c s Hc Hs. apply assign_cpu_defined; [done|]. specialize (Hin c Hc). lia.
    + change (shared_cpus (with_stack P before) idx) with (shared_cpus P idx).
      rewrite Hd1. bind_step. apply IH; [|done]. intros j Hj. apply Hrange. by right.
Qed.

(** The frequency cell of a readable file after any defined run, whatever
    the buffer of the cache loop held. *)
Lemma frequency_recorded_from P before d d' cpu contents buf :
  populate_caches_and_freq_from P before d = Some d' →
  0 <= cpu < logical_core_count d →
  scaling_cur_freq P cpu = File contents →
  fgets 32 contents = Some buf →
  cell (frequency d') cpu = Some (atoi buf ÷ 1000).
Proof.
  intros Hrun Hcpu Hfile Hbuf.
  unfold populate_caches_and_freq_from in Hrun.
  destruct (for_each clear_cpu _ d) as [d1|] eqn:H1; [|done]. simpl in Hrun.
  destruct (for_each (read_frequency P) _ (set_l3size 0 d1)) as [d2|] eqn:H2; [|done].
  simpl in Hrun. rewrite (cache_loop_from_frequency _ _ _ _ _ Hrun).
  revert H2.
  apply (for_each_establishes (λ s, cell (frequency s) cpu = Some (atoi buf ÷ 1000)))
    with (i := cpu).
  - apply elem_of_seqZ. lia.
  - intros s s' Hb. by eapply read_frequency_this.
  - intros j s s' _ Hb Hs. destruct (decide (j = cpu)) as [->|Hne].
    + by eapply read_frequency_this.
    + rewrite <- Hs. by eapply read_frequency_other.
Qed.

Lemma populate_from_defined P before d :
  blocks_of_length (Z.to_nat (logical_core_count d)) d →
  cache_lists_in_range P (logical_core_count d) →
  ∃ d', populate_caches_and_freq_from P before d = Some d'
        ∧ blocks_of_length (Z.to_nat (logical_core_count d)) d'.
Proof.
  intros Hd Hlists. unfold populate_caches_and_freq_from.
  set (L := logical_core_count d) in *. set (n := Z.to_nat L) in *.
  assert (Hrange : ∀ i, i ∈ seqZ 0 L → 0 <= i < Z.of_nat n).
  { intros i Hi. apply elem_of_seqZ in Hi. lia. }
  destruct (for_each_defined (blocks_of_length n) clear_cpu (seqZ 0 L) d)
    as (d1 & -> & Hd1); [|done|].
  { intros i s Hi Hs. apply clear_cpu_defined; [done|]. by apply Hrange. }
  bind_step.
  destruct (for_each_defined (blocks_of_length n) (read_frequency P) (seqZ 0 L)
              (set_l3size 0 d1)) as (d2 & -> & Hd2); [|done|].
  { intros i s Hi Hs. apply read_frequency_defined; [done|]. by apply Hrange. }
  bind_step.
  apply (cache_loop_from_defined P n L);
    [done| |by intros idx Hidx; apply elem_of_seqZ in Hidx|done].
  destruct (decide (0 <= L)); [lia|].
  assert (L < 0) by lia. lia.
Qed.

(** C7: The frequency recorded for a logical core whose scaling-frequency
    file could be opened and starts with a number (at most 31 digits, a
    value that fits an [int], followed by the newline or anything that is
    not a digit) is that kHz value divided by 1000, the quotient being
    truncated (the C division of [int]): this holds after every defined run
    of [populate_caches_and_freq], whatever the buffer of its cache loop
    held, and the run is defined with the blocks [get_cpu_data] allocates
    and shared-CPU lists that name existing logical CPUs.  The file
    "2400000" gives 2400. *)
Theorem frequency_is_truncated_kHz (P : Platform) (before : list ascii) (d : CPU_DATA)
    (cpu : Z) (ds rest : list ascii) :
  0 <= cpu < logical_core_count d →
  numeral ds = true → (length ds < 32)%nat → stops rest = true →
  scaling_cur_freq P cpu = File (ds ++ rest) →
  (∀ d', populate_caches_and_freq_from P before d = Some d' →
         cell (frequency d') cpu = Some (number ds ÷ 1000))
  ∧ (blocks_of_length (Z.to_nat (logical_core_count d)) d →
     cache_lists_in_range P (logical_core_count d) →
     ∃ d', populate_caches_and_freq_from P before d = Some d'
           ∧ cell (frequency d') cpu = Some (number ds ÷ 1000))
  ∧ number (chars "2400000") ÷ 1000 = 2400.
Proof.
  intros Hcpu Hds Hlen Hrest Hfile.
  destruct (fgets_of_number ds rest Hds) as [buf Hbuf].
  pose proof (atoi_of_line ds rest buf Hds Hlen Hrest Hbuf) as Hatoi.
  split; [|split; [|reflexivity]].
  - intros d' Hrun. rewrite <- Hatoi. by eapply frequency_recorded_from.
  - intros Hd Hlists.
    destruct (populate_from_defined P before d Hd Hlists) as (d' & Hrun & _).
    exists d'. split; [done|]. rewrite <- Hatoi. by eapply frequency_recorded_from.
Qed.

Lemma frequency_is_truncated_kHz_witness :
  ∃ d', populate_caches_and_freq_from four_cpus (chars "7") (allocated_data 4) = Some d'
        ∧ scaling_cur_freq four_cpus 0 = file "2400000"
        ∧ cell (frequency d') 0 = Some 2400
        ∧ scaling_cur_freq four_cpus 1 = file "2400999
"
        ∧ cell (frequency d') 1 = Some 2400.
Proof.
  destruct (populate_caches_and_freq_from four_cpus (chars "7") (allocated_data 4))
    as [d'|] eqn:Hrun; [|vm_compute in Hrun; discriminate Hrun].
  exists d'. split; [reflexivity|]. split; [reflexivity|]. split; [|split; [reflexivity|]].
  - refine (eq_trans (proj1 (frequency_is_truncated_kHz four_cpus (chars "7")
              (allocated_data 4) 0
              (chars "2400000") [] _ eq_refl _ eq_refl eq_refl) d' Hrun) _).
    + vm_compute. split; [discriminate|reflexivity].
    + simpl. lia.
    + vm_compute. reflexivity.
  - refine (eq_trans (proj1 (frequency_is_truncated_kHz four_cpus (chars "7")
              (allocated_data 4) 1
              (chars "2400999") (chars "
") _ eq_refl _ eq_refl eq_refl) d' Hrun) _).
    + vm_compute. split; [discriminate|reflexivity].
    + simpl. lia.
    + vm_compute. reflexivity.
Defined.

(** ** Instruction-set flags (C8) *)

(** C8: Whatever CPUID returns, when the vendor string is "AuthenticAMD"
    the twelve Intel-only flags are false, and when it is "GenuineIntel"
    the four AMD-only flags are false. *)
Theorem other_vendor_flags_false (P : Platform) :
  (get_cpu_vendor P = chars "AuthenticAMD" →
   let alg := get_supported_algorithms P in
   POPCNT alg = false ∧ PCLMULQDQ alg = false ∧ AES alg = false ∧ FMA alg = false
   ∧ F16C alg = false ∧ XSAVE alg = false ∧ OSXSAVE alg = false ∧ RDRAND alg = false
   ∧ RDSEED alg = false ∧ ADX alg = false ∧ MPX alg = false ∧ PREFETCHWT1 alg = false)
  ∧ (get_cpu_vendor P = chars "GenuineIntel" →
     let alg := get_supported_algorithms P in
     SSE4A alg = false ∧ XOP alg = false ∧ FMA4 alg = false ∧ THREEDNOW_PLUS alg = false).
Proof.
  split; intros Hv; unfold get_supported_algorithms; rewrite Hv;
    destruct (cpu_cpuid P 1 0) as [[[? ?] ?] ?];
    destruct (cpu_cpuid P 7 0) as [[[? ?] ?] ?];
    destruct (cpu_cpuid P 0x80000001 0) as [[[? ?] ?] ?];
    repeat split.
Qed.

Lemma other_vendor_flags_false_witness :
  (get_cpu_vendor four_cpus = chars "AuthenticAMD"
   ∧ flag (snd (fst (cpu_cpuid four_cpus 1 0))) 23 = true
   ∧ POPCNT (get_supported_algorithms four_cpus) = false
   ∧ SSE4A (get_supported_algorithms four_cpus) = true)
  ∧ (get_cpu_vendor four_cpus_intel = chars "GenuineIntel"
     ∧ flag (snd (fst (cpu_cpuid four_cpus_intel 0x80000001 0))) 6 = true
     ∧ SSE4A (get_supported_algorithms four_cpus_intel) = false
     ∧ POPCNT (get_supported_algorithms four_cpus_intel) = true).
Proof.
  split.
  - split; [reflexivity|]. split; [reflexivity|]. split; [|reflexivity].
    apply (proj1 (other_vendor_flags_false four_cpus) eq_refl).
  - split; [reflexivity|]. split; [reflexivity|]. split; [|reflexivity].
    apply (proj2 (other_vendor_flags_false four_cpus_intel) eq_refl).
Defined.

(** ** Topology reconstruction on Linux *)

Lemma distinct_snoc ks k : distinct (ks ++ [k]) = add_key (distinct ks) k.
Proof. unfold distinct. by rewrite fold_left_app. Qed.

Lemma elem_of_add_key acc k x : x ∈ add_key acc k ↔ x ∈ acc ∨ x = k.
Proof.
  unfold add_key. case_bool_decide as Hk.
  - split; [by left|]. intros [?| ->]; done.
  - rewrite elem_of_app, list_elem_of_singleton. done.
Qed.

Lemma elem_of_distinct ks x : x ∈ distinct ks ↔ x ∈ ks.
Proof.
  induction ks as [|k ks IH] using rev_ind.
  - done.
  - rewrite distinct_snoc, elem_of_add_key, elem_of_app, list_elem_of_singleton, IH. done.
Qed.

Lemma NoDup_distinct ks : NoDup (distinct ks).
Proof.
  induction ks as [|k ks IH] using rev_ind.
  - constructor.
  - rewrite distinct_snoc. unfold add_key. case_bool_decide as Hk; [done|].
    apply NoDup_app. split; [done|]. split; [|apply NoDup_singleton].
    intros x Hx Hx'. apply list_elem_of_singleton in Hx' as ->. done.
Qed.

Lemma length_distinct ks : (length (distinct ks) ≤ length ks)%nat.
Proof.
  induction ks as [|k ks IH] using rev_ind; [done|].
  rewrite distinct_snoc, length_app. unfold add_key. simpl.
  case_bool_decide; rewrite ?length_app; simpl; lia.
Qed.

Lemma members_snoc key k pre cpu :
  members key k (pre ++ [cpu])
  = if key cpu =? k then members key k pre ++ [cpu] else members key k pre.
Proof.
  unfold members. rewrite List.filter_app. simpl.
  destruct (key cpu =? k); [done|by rewrite app_nil_r].
Qed.

Lemma members_absent key k pre : k ∉ map key pre → members key k pre = [].
Proof.
  unfold members. induction pre as [|c pre IH]; simpl; [done|]. intros Hk.
  apply not_elem_of_cons in Hk as [Hne Hk].
  destruct (key c =? k) eqn:Hc; [lia|]. by apply IH.
Qed.

Lemma scan_keys_absent D k a : k ∉ D → scan_keys D k a = a + Z.of_nat (length D).
Proof.
  revert a. induction D as [|x D IH]; intros a Hk; simpl; [lia|].
  apply not_elem_of_cons in Hk as [Hne Hk].
  destruct (x =? k) eqn:Hx; [lia|]. rewrite IH by done. lia.
Qed.

Lemma scan_keys_present D k a :
  k ∈ D → ∃ i : nat, D !! i = Some k ∧ scan_keys D k a = a + Z.of_nat i.
Proof.
  revert a. induction D as [|x D IH]; intros a Hk; [by inversion Hk|]. simpl.
  destruct (x =? k) eqn:Hx.
  - exists 0%nat. split; [simpl; f_equal; lia|lia].
  - apply elem_of_cons in Hk as [->|Hk]; [lia|].
    destruct (IH (a + 1) Hk) as (i & Hi & ->). exists (S i). split; [done|lia].
Qed.

Lemma scan_keys_at D k i :
  NoDup D → D !! i = Some k → scan_keys D k 0 = Z.of_nat i.
Proof.
  intros Hnd Hi.
  destruct (scan_keys_present D k 0) as (j & Hj & ->); [by eapply list_elem_of_lookup_2|].
  by rewrite (NoDup_lookup D j i k Hnd Hj Hi).
Qed.

Lemma seek_key_present D pad k a :
  k ∈ D → seek_key (D ++ pad) k a = Some (scan_keys D k a).
Proof.
  revert a. induction D as [|x D IH]; intros a Hk; [by inversion Hk|]. simpl.
  destruct (x =? k) eqn:Hx; [done|].
  apply elem_of_cons in Hk as [->|Hk]; [lia|]. by apply IH.
Qed.

(** Changing the cell of one key of a duplicate-free list. *)
Lemma insert_map_NoDup {B : Type} (f g : Z → B) (D : list Z) (i : nat) (k : Z) :
  NoDup D → D !! i = Some k → (∀ k', k' ∈ D → k' ≠ k → g k' = f k') →
  <[i := g k]> (map f D) = map g D.
Proof.
  intros Hnd Hi Hsame. apply list_eq. intros j.
  destruct (decide (j = i)) as [->|Hne].
  - rewrite list_lookup_insert_eq.
    + by rewrite list_lookup_fmap, Hi.
    + rewrite length_map. by eapply lookup_lt_Some.
  - rewrite list_lookup_insert_ne by done. rewrite !list_lookup_fmap.
    destruct (D !! j) as [k'|] eqn:Hj; [|done]. simpl. f_equal. symmetry.
    apply Hsame; [by eapply list_elem_of_lookup_2|].
    intros ->. apply Hne. by eapply NoDup_lookup.
Qed.

Lemma map_ext_elem {B : Type} (f g : Z → B) (D : list Z) :
  (∀ k, k ∈ D → f k = g k) → map f D = map g D.
Proof.
  intros H. apply map_ext_in. intros k Hk. apply H. by apply list_elem_of_In.
Qed.

Lemma insert_pad {B : Type} (l : list B) (x z : B) (r : list B) :
  <[length l := x]> (l ++ z :: r) = (l ++ [x]) ++ r.
Proof.
  rewrite insert_app_r_alt by lia. rewrite Nat.sub_diag. simpl. by rewrite <- app_assoc.
Qed.

Lemma insert_pad_map {B : Type} (f : Z → B) (D : list Z) (x z : B) (r : list B) :
  <[length D := x]> (map f D ++ z :: r) = (map f D ++ [x]) ++ r.
Proof. rewrite <- (length_map f D) at 1. apply insert_pad. Qed.

Lemma load_cell_nat {B : Type} (l : list B) (i : nat) : load_cell l (Z.of_nat i) = l !! i.
Proof.
  unfold load_cell. destruct (0 <=? Z.of_nat i) eqn:H; [by rewrite Nat2Z.id|].
  apply Z.leb_gt in H. lia.
Qed.

Lemma store_cell_nat {B : Type} (l : list B) (i : nat) (v : B) :
  (i < length l)%nat → store_cell l (Z.of_nat i) v = Some (<[i := v]> l).
Proof.
  intros Hi. unfold store_cell.
  destruct (0 <=? Z.of_nat i) eqn:H0; [|apply Z.leb_gt in H0; lia].
  destruct (Z.of_nat i <? Z.of_nat (length l)) eqn:H1; [|apply Z.ltb_ge in H1; lia].
  simpl. by rewrite Nat2Z.id.
Qed.

(** The two loops of [get_core_topology] on one platform. *)
Section LinuxTopology.

Context (P : Platform).

(** One iteration of the first loop. *)
Lemma count_cpu_step (n : nat) pre cpu :
  (length pre < n)%nat →
  count_cpu P cpu (discovered (topology_key P) n pre)
  = Some (discovered (topology_key P) n (pre ++ [cpu])).
Proof.
  intros Hn. set (key := topology_key P).
  pose proof (length_distinct (map key pre)) as Hle. rewrite length_map in Hle.
  pose proof (NoDup_distinct (map key pre)) as Hnd.
  unfold count_cpu, discovered. fold key.
  rewrite map_app. cbn [map]. rewrite distinct_snoc. cbn [keys temp unique].
  set (D := distinct (map key pre)) in *. set (k := key cpu).
  rewrite Nat2Z.id, take_app_length.
  unfold add_key. case_bool_decide as Hk.
  - destruct (scan_keys_present D k 0 Hk) as (i & Hi & ->).
    pose proof (lookup_lt_Some _ _ _ Hi) as Hlt.
    rewrite Z.add_0_l.
    destruct (Z.of_nat i =? Z.of_nat (length D)) eqn:Heq; [lia|].
    cbn [mbind option_bind keys temp unique].
    rewrite load_cell_nat, lookup_app_l by (rewrite length_map; lia).
    rewrite list_lookup_fmap, Hi. cbn [fmap option_fmap option_map mbind option_bind].
    rewrite store_cell_nat by (rewrite length_app, length_map; lia).
    bind_step. do 2 f_equal.
    rewrite insert_app_l by (rewrite length_map; lia). f_equal.
    replace (bump_count (counted_core key pre k)) with (counted_core key (pre ++ [cpu]) k).
    + apply insert_map_NoDup; [done|done|].
      intros k' _ Hne. unfold counted_core. rewrite members_snoc.
      fold k. destruct (k =? k') eqn:E; [lia|done].
    + unfold counted_core, bump_count. cbn. rewrite members_snoc. fold k.
      rewrite Z.eqb_refl, length_app. simpl. do 2 f_equal. lia.
  - rewrite scan_keys_absent by done. rewrite Z.add_0_l, Z.eqb_refl.
    replace (n - length D)%nat with (S (n - length (D ++ [k]))) by (rewrite length_app; simpl; lia).
    rewrite store_cell_nat by (rewrite length_app, length_replicate; lia).
    bind_step.
    rewrite load_cell_nat, lookup_app_r by (rewrite length_map; lia).
    rewrite length_map, Nat.sub_diag. cbn [lookup list_lookup replicate mbind option_bind].
    rewrite store_cell_nat by (rewrite length_app, length_map; simpl; lia).
    cbn [mbind option_bind keys temp unique].
    replace (Z.of_nat (length D) + 1) with (Z.of_nat (length (D ++ [k])))
      by (rewrite length_app; simpl; lia).
    rewrite insert_pad, insert_pad_map, load_cell_nat.
    rewrite lookup_app_l by (rewrite length_app, length_map; simpl; lia).
    rewrite lookup_app_r by (rewrite length_map; lia).
    rewrite length_map, Nat.sub_diag.
    cbn [lookup list_lookup mbind option_bind].
    rewrite store_cell_nat by (rewrite !length_app, length_map, length_replicate; simpl; lia).
    bind_step. do 2 f_equal.
    rewrite insert_app_l by (rewrite length_app, length_map; simpl; lia).
    rewrite <- (length_map (counted_core key pre) D) at 1.
    rewrite insert_app_r_alt by lia. rewrite Nat.sub_diag. cbn [insert list_insert].
    f_equal. rewrite map_app. cbn [map]. f_equal.
    + apply map_ext_elem. intros k' Hk'. unfold counted_core. rewrite members_snoc.
      fold k. destruct (k =? k') eqn:E; [|done].
      apply Z.eqb_eq in E as <-. done.
    + unfold counted_core, bump_count, new_core, zero_core. cbn.
      rewrite members_snoc. fold k. rewrite Z.eqb_refl.
      rewrite members_absent; [done|]. intros Hin. apply Hk. by apply elem_of_distinct.
Qed.

(** The first loop never leaves its blocks. *)
Lemma count_loop (n : nat) post pre :
  (length pre + length post ≤ n)%nat →
  for_each (count_cpu P) post (discovered (topology_key P) n pre)
  = Some (discovered (topology_key P) n (pre ++ post)).
Proof.
  revert pre. induction post as [|c post IH]; intros pre Hn; simpl.
  - by rewrite app_nil_r.
  - simpl in Hn. rewrite count_cpu_step by lia. simpl.
    rewrite IH by (rewrite length_app; simpl; lia).
    by rewrite <- app_assoc.
Qed.

Lemma count_loop_all L :
  for_each (count_cpu P) (seqZ 0 L)
    {| keys := zeroed 0 L; temp := zeroed zero_core L; unique := 0 |}
  = Some (discovered (topology_key P) (Z.to_nat L) (seqZ 0 L)).
Proof.
  pose proof (count_loop (Z.to_nat L) (seqZ 0 L) []) as H.
  rewrite app_nil_l in H. rewrite <- H.
  - unfold discovered, zeroed. simpl. by rewrite Nat.sub_0_r.
  - rewrite length_seqZ. simpl. lia.
Qed.

Lemma members_split key k pre cpu post :
  key cpu = k →
  members key k (pre ++ cpu :: post) = members key k pre ++ cpu :: members key k post.
Proof.
  intros Hk. unfold members. rewrite List.filter_app. simpl.
  by rewrite Hk, Z.eqb_refl.
Qed.

(** One iteration of the second loop when every block was served. *)
Lemma place_cpu_step (D pad : list Z) fill all pre cpu post :
  D = distinct (map (topology_key P) all) → all = pre ++ cpu :: post →
  place_cpu P (D ++ pad) cpu (map (placed_core (topology_key P) fill all pre) D)
  = Some (map (placed_core (topology_key P) fill all (pre ++ [cpu])) D).
Proof.
  intros HD Hall. set (key := topology_key P) in *. set (k := key cpu).
  assert (Hk : k ∈ D).
  { rewrite HD. apply elem_of_distinct. apply list_elem_of_fmap. exists cpu. split; [done|].
    rewrite Hall. apply elem_of_app. right. by left. }
  assert (Hnd : NoDup D) by (rewrite HD; apply NoDup_distinct).
  unfold place_cpu. fold key. fold k.
  rewrite seek_key_present by done.
  destruct (scan_keys_present D k 0 Hk) as (i & Hi & ->). rewrite Z.add_0_l.
  pose proof (lookup_lt_Some _ _ _ Hi) as Hlt.
  bind_step.
  rewrite load_cell_nat, list_lookup_fmap, Hi.
  cbn [fmap option_fmap option_map mbind option_bind placed_core logical_ids logical_count id type].
  assert (Htot : members key k all = members key k pre ++ cpu :: members key k post)
    by (rewrite Hall; by apply members_split).
  rewrite Htot, length_app. cbn [length].
  replace (length (members key k pre) + S (length (members key k post))
           - length (members key k pre))%nat
    with (S (length (members key k post))) by lia.
  cbn [replicate].
  rewrite store_cell_nat by (rewrite length_app; simpl; lia).
  bind_step. rewrite insert_pad.
  rewrite store_cell_nat by (rewrite length_map; lia).
  f_equal.
  set (new := {| id := k |}).
  replace new with (placed_core key fill all (pre ++ [cpu]) k).
  - apply insert_map_NoDup; [done|done|].
    intros k' _ Hne. unfold placed_core. rewrite members_snoc. fold k.
    destruct (k =? k') eqn:E; [lia|done].
  - unfold placed_core, new. rewrite members_snoc. fold k. rewrite Z.eqb_refl.
    rewrite Htot, !length_app. cbn [length].
    replace (length (members key k pre) + S (length (members key k post))
             - (length (members key k pre) + 1))%nat
      with (length (members key k post)) by lia.
    do 2 f_equal. lia.
Qed.

Lemma place_loop (D pad : list Z) fill all post pre :
  D = distinct (map (topology_key P) all) → all = pre ++ post →
  for_each (place_cpu P (D ++ pad)) post (map (placed_core (topology_key P) fill all pre) D)
  = Some (map (placed_core (topology_key P) fill all all) D).
Proof.
  intros HD. revert pre. induction post as [|c post IH]; intros pre Hall; simpl.
  - rewrite app_nil_r in Hall. by rewrite <- Hall.
  - rewrite (place_cpu_step D pad fill all pre c post) by done. simpl.
    apply IH. by rewrite <- app_assoc.
Qed.

Lemma placed_all key fill all k : placed_core key fill all all k = final_core key all k.
Proof. unfold placed_core, final_core. by rewrite Nat.sub_diag, app_nil_r. Qed.

(** The cores as the copy loop leaves them when every block was served. *)
Lemma copied_cores (D : list Z) all :
  (∀ i : nat, (i < length D)%nat → malloc_logical_ids P (Z.of_nat i) = true) →
  imap (λ i t, copy_core P (Z.of_nat i) t) (map (counted_core (topology_key P) all) D)
  = map (placed_core (topology_key P) (heap_cell P) all []) D.
Proof.
  intros Hok. apply list_eq. intros i.
  rewrite list_lookup_imap, !list_lookup_fmap.
  destruct (D !! i) as [k|] eqn:Hi; [|done]. simpl. f_equal.
  unfold copy_core, placed_core, counted_core. cbn.
  rewrite Hok by (by eapply lookup_lt_Some). by rewrite Nat2Z.id, Nat.sub_0_r.
Qed.

(** A loop stops being defined at an iteration that a kept property blocks. *)
Lemma for_each_blocked {S : Type} (J : S → Prop) (body : Z → S → option S) l i st :
  i ∈ l →
  (∀ j s s', body j s = Some s' → J s → J s') →
  (∀ s, J s → body i s = None) →
  J st → for_each body l st = None.
Proof.
  revert st. induction l as [|k l IH]; intros st Hi Hkeep Hblock Hst; [by inversion Hi|].
  simpl. destruct (body k st) as [st1|] eqn:Hb; [|done]. simpl.
  apply elem_of_cons in Hi as [->|Hi].
  - by rewrite Hblock in Hb.
  - apply IH; [done|done|done|]. by eapply Hkeep.
Qed.

(** The second loop is defined only if every block was served. *)
Lemma place_loop_needs_blocks (D pad : list Z) all cs' :
  D = distinct (map (topology_key P) all) →
  for_each (place_cpu P (D ++ pad)) all
    (imap (λ i t, copy_core P (Z.of_nat i) t) (map (counted_core (topology_key P) all) D))
  = Some cs' →
  ∀ i : nat, (i < length D)%nat → malloc_logical_ids P (Z.of_nat i) = true.
Proof.
  intros HD Hrun i Hi. set (key := topology_key P) in *.
  destruct (malloc_logical_ids P (Z.of_nat i)) eqn:Hm; [done|]. exfalso.
  assert (Hnd : NoDup D) by (rewrite HD; apply NoDup_distinct).
  destruct (lookup_lt_is_Some_2 D i Hi) as [k Hk].
  assert (Hin : k ∈ map key all).
  { apply elem_of_distinct. rewrite <- HD. by eapply list_elem_of_lookup_2. }
  apply list_elem_of_fmap in Hin as (cpu & Hkey & Hcpu).
  rewrite (for_each_blocked (λ cs, ∃ c, cs !! i = Some c ∧ logical_ids c = None)
             (place_cpu P (D ++ pad)) all cpu) in Hrun; [done|done|..].
  - intros j s s' Hb (c & Hc & Hnull). unfold place_cpu in Hb.
    destruct (seek_key (D ++ pad) (topology_key P j) 0) as [idx|]; [|done]. simpl in Hb.
    destruct (load_cell s idx) as [c0|] eqn:Hload; [|done]. simpl in Hb.
    destruct (logical_ids c0) as [ids|] eqn:Hids; [|done]. simpl in Hb.
    destruct (store_cell ids (logical_count c0) j) as [ids'|]; [|done]. simpl in Hb.
    apply store_cell_Some in Hb as [Hidx ->].
    exists c. split; [|done]. rewrite list_lookup_insert_ne; [done|].
    intros <-. unfold load_cell in Hload.
    destruct (0 <=? idx); [|done]. congruence.
  - intros s (c & Hc & Hnull). unfold place_cpu. fold key. rewrite <- Hkey.
    rewrite seek_key_present by (by eapply list_elem_of_lookup_2).
    rewrite (scan_keys_at D k i) by done. bind_step.
    by rewrite load_cell_nat, Hc; bind_step; rewrite Hnull.
  - eexists. split.
    + rewrite list_lookup_imap, list_lookup_fmap, Hk. done.
    + unfold copy_core. cbn. by rewrite Hm.
Qed.

Lemma take_discovered_temp key (n : nat) all :
  take (Z.to_nat (unique (discovered key n all))) (temp (discovered key n all))
  = map (counted_core key all) (distinct (map key all)).
Proof.
  unfold discovered. cbn [unique temp]. rewrite Nat2Z.id.
  apply take_app_length'. by rewrite length_map.
Qed.

(** What a successful call leaves behind. *)
Lemma get_core_topology_success d d' :
  get_core_topology P d = Some (0, d') → d' = topology_result P d.
Proof.
  unfold get_core_topology. intros H.
  destruct (calloc_keys P && calloc_temp P); [|done]. cbn [negb] in H.
  rewrite count_loop_all in H. bind_step in H.
  destruct (calloc_cores P); [|done]. cbn [negb] in H.
  rewrite take_discovered_temp in H. unfold discovered in H. cbn [keys unique] in H.
  destruct (for_each _ _ _) as [cs|] eqn:Hrun in H; [|done]. bind_step in H.
  injection H as <-.
  pose proof (place_loop_needs_blocks _ _ _ _ eq_refl Hrun) as Hok.
  rewrite copied_cores in Hrun by done.
  rewrite (place_loop _ _ (heap_cell P) (seqZ 0 (logical_core_count d)) _ []) in Hrun by done.
  injection Hrun as <-.
  unfold topology_result. f_equal. f_equal.
  apply map_ext. intros k. apply placed_all.
Qed.

(** A call whose allocations are served succeeds. *)
Lemma get_core_topology_defined d :
  calloc_keys P = true → calloc_temp P = true → calloc_cores P = true →
  (∀ i : nat, (i < length (distinct (map (topology_key P) (seqZ 0 (logical_core_count d)))))%nat →
              malloc_logical_ids P (Z.of_nat i) = true) →
  get_core_topology P d = Some (0, topology_result P d).
Proof.
  intros Hk Ht Hc Hok. unfold get_core_topology. rewrite Hk, Ht, Hc. cbn [andb negb].
  rewrite count_loop_all. bind_step.
  rewrite take_discovered_temp, copied_cores by done.
  unfold discovered. cbn [keys unique].
  rewrite (place_loop _ _ (heap_cell P) (seqZ 0 (logical_core_count d)) _ []) by done.
  bind_step. unfold topology_result. do 4 f_equal.
  apply map_ext. intros k. apply placed_all.
Qed.

End LinuxTopology.

(** ** Files that are missing or hold a line *)

(** A file that cannot be opened, or that holds a line, fixes the value
    read whatever the buffer held before. *)
Lemma read_int_file_settled size f buf buf' :
  missing_or_line f = true →
  fst (read_int_file size f buf) = fst (read_int_file size f buf').
Proof. by destruct f as [|[|c contents]]. Qed.

(** With such files the ids of a logical CPU do not depend on what the
    buffer held when the pass started. *)
Lemma topology_ids_settled P cpu :
  missing_or_line (physical_package_id P cpu) = true →
  missing_or_line (core_id P cpu) = true →
  topology_ids P cpu
  = (fst (read_int_file 32 (physical_package_id P cpu) []),
     fst (read_int_file 32 (core_id P cpu) [])).
Proof.
  unfold topology_ids. intros Hp Hc.
  destruct (physical_package_id P cpu) as [|[|c contents]]; [|done|];
    by destruct (core_id P cpu) as [|[|c' contents']].
Qed.

(** Likewise for the level and the size of an index directory. *)
Lemma index_level_settled P idx :
  missing_or_line (cache_level P idx) = true →
  index_level P idx = fst (read_int_file 64 (cache_level P idx) []).
Proof. unfold index_level, index_level_read. apply read_int_file_settled. Qed.

Lemma index_sizeKB_settled P idx :
  missing_or_line (cache_size P idx) = true →
  index_sizeKB P idx
  = match cache_size P idx with
    | NoFile => 0
    | File contents => cache_size_KB (fgets_into 64 contents [])
    end.
Proof. unfold index_sizeKB. by destruct (cache_size P idx) as [|[|c contents]]. Qed.

Lemma topology_files_settled_check P N :
  forallb (λ cpu, missing_or_line (physical_package_id P cpu)
                  && missing_or_line (core_id P cpu)) (seqZ 0 N) = true →
  topology_files_settled P N.
Proof.
  intros H cpu Hcpu. rewrite forallb_forall in H.
  specialize (H cpu). apply andb_true_iff. apply H.
  apply list_elem_of_In, elem_of_seqZ. lia.
Qed.

Lemma cache_files_settled_check P range :
  forallb (λ idx, missing_or_line (cache_level P idx)
                  && missing_or_line (cache_size P idx)) range = true →
  cache_files_settled P range.
Proof.
  intros H idx Hidx. rewrite forallb_forall in H.
  specialize (H idx). apply andb_true_iff. apply H. by apply list_elem_of_In.
Qed.

(** ** The loops with their buffer carried along *)

(** A loop that carries a second component which its body does not depend
    on behaves as the loop without it. *)
Lemma for_each_carried {S B : Type} (f : Z → S → option S)
    (h : Z → S * B → option (S * B)) l s b :
  (∀ i s b, i ∈ l → fst <$> h i (s, b) = f i s) →
  fst <$> for_each h l (s, b) = for_each f l s.
Proof.
  revert s b. induction l as [|i l IH]; intros s b H; simpl; [done|].
  rewrite <- (H i s b) by by left.
  destruct (h i (s, b)) as [[s' b']|]; simpl; [|done].
  apply IH. intros j t c Hj. apply H. by right.
Qed.

(** With topology files that are missing or hold a line, a pass reads the
    same key whatever its buffer held. *)
Lemma topology_key_with_stack P before cpu :
  missing_or_line (physical_package_id P cpu) = true →
  missing_or_line (core_id P cpu) = true →
  topology_key (with_stack P before) cpu = topology_key P cpu.
Proof.
  intros Hp Hc. unfold topology_key.
  by rewrite (topology_ids_settled (with_stack P before)), (topology_ids_settled P).
Qed.

(** Then the call is the same whatever the two buffers held. *)
Lemma get_core_topology_from_settled P buf1 buf2 d :
  topology_files_settled P (logical_core_count d) →
  get_core_topology_from P buf1 buf2 d = get_core_topology P d.
Proof.
  intros Hfiles. unfold get_core_topology_from, get_core_topology.
  destruct (negb (calloc_keys P && calloc_temp P)); [done|].
  assert (Hkey : ∀ cpu before, cpu ∈ seqZ 0 (logical_core_count d) →
                               topology_key (with_stack P before) cpu = topology_key P cpu).
  { intros cpu before Hcpu. apply elem_of_seqZ in Hcpu.
    destruct (Hfiles cpu) as [Hp Hc]; [lia|]. by apply topology_key_with_stack. }
  rewrite (for_each_carried (count_cpu P)).
  2:{ intros cpu st before Hcpu. unfold count_cpu_from. cbn [fst snd].
      assert (count_cpu (with_stack P before) cpu st = count_cpu P cpu st) as ->
        by (unfold count_cpu; by rewrite Hkey).
      by destruct (count_cpu P cpu st). }
  destruct (for_each (count_cpu P) _ _) as [st|]; [|done]. bind_step.
  destruct (negb (calloc_cores P)); [done|].
  rewrite (for_each_carried (place_cpu P (keys st))); [done|].
  intros cpu cs before Hcpu. unfold place_cpu_from. cbn [fst snd].
  assert (place_cpu (with_stack P before) (keys st) cpu cs = place_cpu P (keys st) cpu cs)
    as -> by (unfold place_cpu; by rewrite Hkey).
  by destruct (place_cpu P (keys st) cpu cs).
Qed.

(** With level and size files that are missing or hold a line, a pass of
    the cache loop does the same whatever its buffer held. *)
Lemma cache_index_with_stack P before idx d :
  missing_or_line (cache_level P idx) = true →
  missing_or_line (cache_size P idx) = true →
  cache_index (with_stack P before) idx d = cache_index P idx d.
Proof.
  intros Hl Hs. unfold cache_index.
  rewrite (index_level_settled (with_stack P before)), (index_level_settled P) by done.
  by rewrite (index_sizeKB_settled (with_stack P before)), (index_sizeKB_settled P).
Qed.

Lemma cache_loop_from_settled P range d before :
  cache_files_settled P (visited P range) →
  cache_loop_from P range d before = cache_loop P range d.
Proof.
  revert d before. induction range as [|idx range IH]; intros d before Hfiles; [done|].
  simpl in *. destruct (cache_index_dir P idx); [|done].
  destruct (Hfiles idx) as [Hl Hs]; [by left|].
  rewrite cache_index_with_stack by done.
  destruct (cache_index P idx d) as [d'|]; simpl; [|done].
  apply IH. intros j Hj. apply Hfiles. by right.
Qed.

Lemma populate_from_settled P before d :
  cache_files_settled P (visited P (seqZ 0 (logical_core_count d))) →
  populate_caches_and_freq_from P before d = populate_caches_and_freq P d.
Proof.
  intros Hfiles. unfold populate_caches_and_freq_from, populate_caches_and_freq.
  destruct (for_each clear_cpu _ d) as [d1|]; [|done]. bind_step.
  destruct (for_each (read_frequency P) _ _) as [d2|]; [|done]. bind_step.
  by apply cache_loop_from_settled.
Qed.

(** Without that condition the carried buffer shows: a file that opens
    without a line is read from what the pass before left.  On
    [some_empty_files] the logical CPUs 1 and 3 take their package id from
    the core id of the CPU before them and form two more cores, and the
    index directory 1 takes its level from the level of directory 0 while
    directory 2 reads the size of directory 1 as its level.  On
    [first_cpu_without_line] the second loop, entered with the line the
    first loop read last, computes for CPU 0 a key the first loop never
    stored, and the search of line 344 runs past the end of [keys]. *)
Lemma carried_buffers_on_empty_files :
  (λ r, map (λ c, (id c, core_cpus c)) (block_cells (cores (snd r))))
    <$> get_core_topology_from some_empty_files [] [] (allocated_data 4)
  = Some [(196612, [0]); (262144, [1]); (327686, [2]); (393216, [3])]
  ∧ l2size <$> populate_caches_and_freq_from some_empty_files [] (allocated_data 4)
    = Some (Some [ {| l2cache_size := 0; shared_with_core_number := 1 |};
                   {| l2cache_size := 64; shared_with_core_number := 1 |};
                   {| l2cache_size := 0; shared_with_core_number := 0 |};
                   {| l2cache_size := 0; shared_with_core_number := 0 |} ])
  ∧ topology_buffer (with_stack first_cpu_without_line []) 1 = chars "6
"
  ∧ get_core_topology_from first_cpu_without_line [] (chars "6
") (allocated_data 2) = None.
Proof. repeat split; vm_compute; reflexivity. Qed.

(** ** The partition, whatever the keys *)

Lemma scan_keys_bounds D k a : a <= scan_keys D k a <= a + Z.of_nat (length D).
Proof.
  revert a. induction D as [|x D IH]; intros a; simpl; [lia|].
  destruct (x =? k); [lia|]. specialize (IH (a + 1)). lia.
Qed.

Lemma seek_key_nonneg block k a idx : seek_key block k a = Some idx → a <= idx.
Proof.
  revert a. induction block as [|x block IH]; intros a; simpl; [done|].
  destruct (x =? k); [intros [= <-]; lia|]. intros H. apply IH in H. lia.
Qed.

Lemma total_count_app cs cs' :
  total_count (cs ++ cs') = total_count cs + total_count cs'.
Proof. induction cs as [|c cs IH]; simpl; [done|]. rewrite IH. lia. Qed.

Lemma total_count_insert cs (i : nat) c c' :
  cs !! i = Some c →
  total_count (<[i := c']> cs) = total_count cs - logical_count c + logical_count c'.
Proof.
  revert i. induction cs as [|x cs IH]; intros [|i] H; simpl in *; try done.
  - injection H as ->. lia.
  - rewrite (IH i H). lia.
Qed.

Lemma load_cell_Some {A : Type} (l : list A) i x :
  load_cell l i = Some x → 0 <= i ∧ l !! Z.to_nat i = Some x.
Proof.
  unfold load_cell. destruct (0 <=? i) eqn:H0; [|done]. intros H. split; [lia|done].
Qed.

(** One pass of the first loop counts one logical CPU, on any platform. *)
Lemma count_cpu_total Q cpu st st' :
  count_cpu Q cpu st = Some st' → discovery_ok st →
  discovery_ok st'
  ∧ total_count (counted st') = total_count (counted st) + 1
  ∧ length (temp st') = length (temp st) ∧ length (keys st') = length (keys st).
Proof.
  unfold count_cpu, discovery_ok, counted. intros H (H0 & Hk & Ht & Hpos).
  set (key := topology_key Q cpu) in *.
  set (u := Z.to_nat (unique st)) in *.
  assert (Hidx : 0 <= scan_keys (take u (keys st)) key 0 <= unique st).
  { pose proof (scan_keys_bounds (take u (keys st)) key 0) as Hb.
    rewrite length_take in Hb. lia. }
  set (idx := scan_keys (take u (keys st)) key 0) in *.
  destruct (idx =? unique st) eqn:E.
  - apply Z.eqb_eq in E.
    destruct (store_cell (keys st) (unique st) key) as [keys'|] eqn:Hs1; [|done].
    bind_step in H.
    destruct (load_cell (temp st) (unique st)) as [c|] eqn:Hl1; [|done]. bind_step in H.
    destruct (store_cell (temp st) (unique st) (new_core key c)) as [temp'|] eqn:Hs2; [|done].
    cbn [mbind option_bind keys temp unique] in H.
    apply store_cell_Some in Hs1 as [Hu1 ->]. apply store_cell_Some in Hs2 as [Hu2 ->].
    apply load_cell_Some in Hl1 as [_ Hl1]. fold u in Hl1 |- *.
    rewrite E in H. fold u in H.
    assert (Hload : load_cell (<[u := new_core key c]> (temp st)) (unique st)
                    = Some (new_core key c)).
    { unfold load_cell. destruct (0 <=? unique st) eqn:Hz; [|lia]. fold u.
      apply list_lookup_insert_eq. lia. }
    rewrite Hload in H. bind_step in H.
    destruct (store_cell _ (unique st) (bump_count (new_core key c))) as [temp''|] eqn:Hs3;
      [|done].
    injection H as <-. cbn [keys temp unique].
    apply store_cell_Some in Hs3 as [_ ->]. fold u.
    rewrite list_insert_insert_eq, !length_insert.
    replace (Z.to_nat (unique st + 1)) with (S u) by lia.
    assert (Htake : take (S u) (<[u := bump_count (new_core key c)]> (temp st))
                    = take u (temp st) ++ [bump_count (new_core key c)]).
    { rewrite (take_S_r _ u (bump_count (new_core key c)))
        by (apply list_lookup_insert_eq; lia).
      by rewrite take_insert_ge by lia. }
    rewrite Htake, total_count_app. cbn. repeat split; try lia.
    apply Forall_app. split; [done|]. constructor; [simpl; lia|done].
  - apply Z.eqb_neq in E. bind_step in H.
    destruct (load_cell (temp st) idx) as [c|] eqn:Hl; [|done]. bind_step in H.
    destruct (store_cell (temp st) idx (bump_count c)) as [temp'|] eqn:Hs; [|done].
    injection H as <-. cbn [keys temp unique].
    apply store_cell_Some in Hs as [Hi ->]. apply load_cell_Some in Hl as [_ Hl].
    fold u. rewrite length_insert.
    assert (Hlt : (Z.to_nat idx < u)%nat) by lia.
    rewrite take_insert_lt by lia.
    assert (Hc : take u (temp st) !! Z.to_nat idx = Some c) by by rewrite lookup_take_lt.
    rewrite (total_count_insert _ _ c) by done. cbn. repeat split; try lia.
    apply Forall_insert; [done|]. cbn.
    rewrite Forall_forall in Hpos. specialize (Hpos c (list_elem_of_lookup_2 _ _ _ Hc)). lia.
Qed.

Lemma count_cpu_from_eq P cpu st b :
  count_cpu_from P cpu (st, b)
  = (st1 ← count_cpu (with_stack P b) cpu st;
     Some (st1, topology_buffer (with_stack P b) cpu)).
Proof. reflexivity. Qed.

Lemma place_cpu_from_eq P keys cpu cs b :
  place_cpu_from P keys cpu (cs, b)
  = (cs1 ← place_cpu (with_stack P b) keys cpu cs;
     Some (cs1, topology_buffer (with_stack P b) cpu)).
Proof. reflexivity. Qed.

(** The first loop with its buffer carried along counts every logical CPU. *)
Lemma count_loop_from_total P l st b st' b' :
  for_each (count_cpu_from P) l (st, b) = Some (st', b') → discovery_ok st →
  discovery_ok st'
  ∧ total_count (counted st') = total_count (counted st) + Z.of_nat (length l)
  ∧ length (temp st') = length (temp st).
Proof.
  revert st b. induction l as [|cpu l IH]; intros st b H Hok; cbn [for_each] in H.
  - injection H as <- <-. split; [done|]. simpl. split; [lia|done].
  - rewrite count_cpu_from_eq in H.
    destruct (count_cpu (with_stack P b) cpu st) as [st1|] eqn:H1;
      cbn [mbind option_bind] in H; [|done].
    destruct (count_cpu_total _ _ _ _ H1 Hok) as (Hok1 & Hsum1 & Hlen1 & _).
    destruct (IH _ _ H Hok1) as (Hok' & Hsum' & Hlen').
    split; [done|]. split; [|congruence]. rewrite Hsum', Hsum1. simpl length. lia.
Qed.

(** Storing one more logical CPU in a core. *)
Lemma concat_filled_insert cs (i : nat) c c' cpu :
  cs !! i = Some c → filled c' = filled c ++ [cpu] →
  concat (map filled (<[i := c']> cs)) ≡ₚ cpu :: concat (map filled cs).
Proof.
  revert i. induction cs as [|x cs IH]; intros [|i] H Hc'; simpl in *; try done.
  - injection H as ->. rewrite Hc', <- app_assoc. simpl.
    by rewrite <- Permutation_middle.
  - rewrite (IH i H Hc'). by rewrite <- Permutation_middle.
Qed.

(** One pass of the second loop stores its logical CPU in a core that has
    room, on any platform. *)
Lemma place_cpu_stored Q keys cpu cs cs' :
  place_cpu Q keys cpu cs = Some cs' → Forall in_room cs →
  Forall in_room cs'
  ∧ map (λ c, length (core_cpus c)) cs' = map (λ c, length (core_cpus c)) cs
  ∧ concat (map filled cs') ≡ₚ cpu :: concat (map filled cs).
Proof.
  unfold place_cpu. intros H Hroom.
  destruct (seek_key keys (topology_key Q cpu) 0) as [idx|] eqn:Hseek; [|done].
  bind_step in H.
  destruct (load_cell cs idx) as [c|] eqn:Hl; [|done]. bind_step in H.
  destruct (logical_ids c) as [ids|] eqn:Hids; [|done]. bind_step in H.
  destruct (store_cell ids (logical_count c) cpu) as [ids'|] eqn:Hs; [|done].
  bind_step in H.
  apply store_cell_Some in H as [Hi ->]. apply store_cell_Some in Hs as [Hn ->].
  apply load_cell_Some in Hl as [_ Hl].
  set (c' := {| id := id c; type := type c;
                logical_ids := Some (<[Z.to_nat (logical_count c) := cpu]> ids);
                logical_count := logical_count c + 1 |}).
  assert (Hcells : core_cpus c = ids) by (unfold core_cpus; by rewrite Hids).
  assert (Hcells' : core_cpus c' = <[Z.to_nat (logical_count c) := cpu]> ids) by done.
  split; [|split].
  - apply Forall_insert; [done|]. unfold in_room. rewrite Hcells', length_insert.
    cbn. lia.
  - rewrite list_fmap_insert. apply list_insert_id. rewrite list_lookup_fmap, Hl. cbn.
    by rewrite length_insert, Hcells.
  - apply (concat_filled_insert _ _ c); [done|]. unfold filled.
    rewrite Hcells, Hcells'. cbn [logical_count c'].
    replace (Z.to_nat (logical_count c + 1)) with (S (Z.to_nat (logical_count c))) by lia.
    rewrite (take_S_r _ _ cpu) by (apply list_lookup_insert_eq; lia).
    by rewrite take_insert_ge by lia.
Qed.

Lemma place_loop_from_stored P keys l cs b cs' b' :
  for_each (place_cpu_from P keys) l (cs, b) = Some (cs', b') → Forall in_room cs →
  Forall in_room cs'
  ∧ map (λ c, length (core_cpus c)) cs' = map (λ c, length (core_cpus c)) cs
  ∧ concat (map filled cs') ≡ₚ l ++ concat (map filled cs).
Proof.
  revert cs b. induction l as [|cpu l IH]; intros cs b H Hroom; cbn [for_each] in H.
  - by injection H as <- <-.
  - rewrite place_cpu_from_eq in H.
    destruct (place_cpu (with_stack P b) keys cpu cs) as [cs1|] eqn:H1;
      cbn [mbind option_bind] in H; [|done].
    destruct (place_cpu_stored _ _ _ _ _ H1 Hroom) as (Hroom1 & Hlen1 & Hperm1).
    destruct (IH _ _ H Hroom1) as (Hroom' & Hlen' & Hperm').
    split; [done|]. split; [congruence|].
    rewrite Hperm', Hperm1. simpl. by rewrite <- Permutation_middle.
Qed.

(** Cores that hold as many cells as they were counted for are full. *)
Lemma filled_all_full (cs : list PhysicalCoreInfo) (caps : list Z) :
  Forall in_room cs →
  Forall2 (λ c cap, Z.of_nat (length (core_cpus c)) <= cap) cs caps →
  Z.of_nat (length (concat (map filled cs))) = foldr Z.add 0 caps →
  Forall2 (λ c cap, logical_count c = cap ∧ Z.of_nat (length (core_cpus c)) = cap) cs caps.
Proof.
  intros Hroom Hcap. revert Hroom.
  assert (Hle : ∀ cs caps,
            Forall in_room cs →
            Forall2 (λ c cap, Z.of_nat (length (core_cpus c)) <= cap) cs caps →
            Z.of_nat (length (concat (map filled cs))) <= foldr Z.add 0 caps).
  { clear. intros cs caps Hroom H. induction H as [|c cap cs caps Hc _ IH]; simpl; [lia|].
    apply Forall_cons in Hroom as [Hr Hroom]. specialize (IH Hroom).
    rewrite length_app. unfold filled at 1. rewrite length_take. unfold in_room in Hr. lia. }
  induction Hcap as [|c cap cs caps Hc Hcaps IH]; intros Hroom Hsum; [constructor|].
  apply Forall_cons in Hroom as [Hr Hroom]. simpl in Hsum. rewrite length_app in Hsum.
  pose proof (Hle cs caps Hroom Hcaps) as Hrest.
  unfold filled at 1 in Hsum. rewrite length_take in Hsum. unfold in_room in Hr.
  constructor; [lia|]. apply IH; [done|]. lia.
Qed.

Lemma total_count_caps (cs : list PhysicalCoreInfo) :
  total_count cs = foldr Z.add 0 (map logical_count cs).
Proof. induction cs as [|c cs IH]; simpl; [done|]. by rewrite IH. Qed.

(** The cores as the copy loop leaves them: nothing stored yet, and a
    block no longer than the count of the first loop. *)
Lemma copies_not_filled (h : nat → PhysicalCoreInfo → PhysicalCoreInfo) ts :
  (∀ i t, logical_count (h i t) = 0) → concat (map filled (imap h ts)) = [].
Proof.
  revert h. induction ts as [|t ts IH]; intros h Hh; [done|].
  cbn [imap map concat]. unfold filled at 1. rewrite Hh. cbn [Z.to_nat take app].
  apply IH. intros i x. apply Hh.
Qed.

Lemma copies_bounded (h : nat → PhysicalCoreInfo → PhysicalCoreInfo) ts :
  (∀ i t, 1 <= logical_count t → Z.of_nat (length (core_cpus (h i t))) <= logical_count t) →
  Forall (λ t, 1 <= logical_count t) ts →
  Forall2 (λ c cap, Z.of_nat (length (core_cpus c)) <= cap) (imap h ts) (map logical_count ts).
Proof.
  revert h. induction ts as [|t ts IH]; intros h Hh Hpos; [constructor|].
  apply Forall_cons in Hpos as [Ht Hpos]. cbn [imap map]. constructor; [by apply Hh|].
  apply IH; [|done]. intros i x. apply Hh.
Qed.

Lemma bounded_by_lengths (cs cs0 : list PhysicalCoreInfo) (caps : list Z) :
  map (λ c, length (core_cpus c)) cs = map (λ c, length (core_cpus c)) cs0 →
  Forall2 (λ c cap, Z.of_nat (length (core_cpus c)) <= cap) cs0 caps →
  Forall2 (λ c cap, Z.of_nat (length (core_cpus c)) <= cap) cs caps.
Proof.
  intros Hlen H. revert cs Hlen.
  induction H as [|c0 cap cs0 caps Hc _ IH]; intros [|c cs] Hlen; try done.
  simpl in Hlen. injection Hlen as Hl Hlen. constructor; [lia|by apply IH].
Qed.

(** On Linux the cores of every successful call split the logical CPUs,
    whatever the files hold and whatever the buffers held. *)
Lemma linux_partition_from P buf1 buf2 d d' :
  get_core_topology_from P buf1 buf2 d = Some (0, d') →
  ∃ cs, cores d' = Some cs
        ∧ physical_core_count d' = Z.of_nat (length cs)
        ∧ all_cpus cs ≡ₚ seqZ 0 (logical_core_count d)
        ∧ Forall (λ c, is_Some (logical_ids c) ∧ count_matches c) cs.
Proof.
  unfold get_core_topology_from. intros H.
  destruct (negb (calloc_keys P && calloc_temp P)); [done|].
  set (L := logical_core_count d) in *.
  destruct (for_each (count_cpu_from P) (seqZ 0 L) _) as [[st b1]|] eqn:H1; [|done].
  cbn [fmap option_fmap option_map fst mbind option_bind] in H.
  destruct (negb (calloc_cores P)); [done|].
  set (cs0 := imap (λ i t, copy_core P (Z.of_nat i) t) (take (Z.to_nat (unique st)) (temp st)))
    in *.
  destruct (for_each (place_cpu_from P (keys st)) (seqZ 0 L) (cs0, buf2))
    as [[cs b2]|] eqn:H2; [|done].
  cbn [fmap option_fmap option_map fst mbind option_bind] in H. injection H as <-.
  cbn [cores physical_core_count set_cores set_physical_core_count].
  apply count_loop_from_total in H1 as ((Hu & _ & Hut & Hpos) & Hsum & Hlen).
  2:{ unfold discovery_ok, counted, zeroed. cbn. rewrite !length_replicate.
      repeat split; try lia. constructor. }
  change (total_count (counted {| keys := zeroed 0 L; temp := zeroed zero_core L;
                                  unique := 0 |})) with 0 in Hsum.
  rewrite length_seqZ in Hsum. fold (counted st) in cs0.
  assert (Hlen0 : length cs0 = length (counted st)) by (unfold cs0; by rewrite length_imap).
  assert (Hroom0 : Forall in_room cs0).
  { apply Forall_forall. intros c Hc. apply list_elem_of_lookup_1 in Hc as [i Hc].
    unfold cs0 in Hc. rewrite list_lookup_imap in Hc.
    destruct (counted st !! i) as [t|]; [|done]. injection Hc as <-.
    unfold in_room. cbn. lia. }
  assert (Hfilled0 : concat (map filled cs0) = []) by by apply copies_not_filled.
  destruct (place_loop_from_stored _ _ _ _ _ _ _ H2 Hroom0) as (Hroom & Hcaps & Hperm).
  rewrite Hfilled0, app_nil_r in Hperm.
  assert (Hbound : Forall2 (λ c cap, Z.of_nat (length (core_cpus c)) <= cap)
                     cs (map logical_count (counted st))).
  { assert (H0 : Forall2 (λ c cap, Z.of_nat (length (core_cpus c)) <= cap)
                   cs0 (map logical_count (counted st))).
    { apply copies_bounded; [|done]. intros i t Ht. unfold core_cpus. cbn.
      destruct (malloc_logical_ids P _); cbn; [rewrite length_replicate|]; lia. }
    by apply (bounded_by_lengths cs cs0). }
  assert (Hfull := filled_all_full cs (map logical_count (counted st)) Hroom Hbound).
  rewrite Hperm, length_seqZ, <- total_count_caps, Hsum in Hfull.
  specialize (Hfull ltac:(lia)).
  exists cs. split; [done|].
  assert (Hlencs : length cs = length (counted st)).
  { apply Forall2_length in Hfull. by rewrite length_map in Hfull. }
  split; [|split].
  - rewrite Hlencs. unfold counted. rewrite length_take. lia.
  - rewrite <- Hperm. unfold all_cpus.
    assert (map core_cpus cs = map filled cs) as ->; [|done].
    apply Forall2_fmap_r in Hfull. clear -Hfull.
    induction Hfull as [|c t cs ts [Hc Hl] _ IH]; [done|]. simpl. f_equal; [|done].
    unfold filled. rewrite take_ge; [done|]. lia.
  - apply Forall2_fmap_r in Hfull. rewrite Forall_forall in Hpos.
    apply Forall_forall. intros c Hc.
    apply list_elem_of_lookup_1 in Hc as [i Hc].
    destruct (Forall2_lookup_l _ _ _ _ _ Hfull Hc) as (t & Ht & Hct & Hlt).
    specialize (Hpos t (list_elem_of_lookup_2 _ _ _ Ht)). split.
    + unfold core_cpus in Hlt. destruct (logical_ids c); [done|]. simpl in Hlt. lia.
    + unfold count_matches. lia.
Qed.

(** ** The partition of the logical CPUs (C2) *)

(** Putting [c] in front of the group of its key is a permutation. *)
Lemma concat_groups_cons (F : Z → list Z) (h c : Z) (D : list Z) :
  NoDup D → h ∈ D →
  concat (map (λ k, if h =? k then c :: F k else F k) D) ≡ₚ c :: concat (map F D).
Proof.
  induction D as [|k D IH]; intros Hnd Hh; [by inversion Hh|].
  apply NoDup_cons in Hnd as [Hk Hnd]. simpl.
  destruct (h =? k) eqn:E.
  - apply Z.eqb_eq in E as ->. simpl.
    rewrite (map_ext_elem (λ k0, if k =? k0 then c :: F k0 else F k0) F D); [done|].
    intros k' Hk'. destruct (k =? k') eqn:E; [|done].
    apply Z.eqb_eq in E as <-. done.
  - apply elem_of_cons in Hh as [->|Hh]; [lia|].
    rewrite IH by done. by rewrite Permutation_middle.
Qed.

Lemma concat_members key (D all : list Z) :
  NoDup D → (∀ cpu, cpu ∈ all → key cpu ∈ D) →
  concat (map (λ k, members key k all) D) ≡ₚ all.
Proof.
  intros Hnd. induction all as [|c all IH]; intros Hin.
  - assert (concat (map (λ k, members key k []) D) = []) as ->; [|done].
    clear. induction D as [|k D IHD]; [done|]. simpl. exact IHD.
  - transitivity (c :: concat (map (λ k, members key k all) D)).
    + rewrite <- (concat_groups_cons (λ k, members key k all) (key c) c D Hnd)
        by (apply Hin; by left).
      erewrite map_ext; [done|]. intros k. unfold members. simpl.
      by destruct (key c =? k).
    + constructor. apply IH. intros cpu Hcpu. apply Hin. by right.
Qed.

Lemma all_cpus_final key all D :
  all_cpus (map (final_core key all) D) = concat (map (λ k, members key k all) D).
Proof. unfold all_cpus. by rewrite map_map. Qed.

(** On Linux the cores of a successful call split the logical CPUs. *)
Lemma linux_partition P d d' :
  get_core_topology P d = Some (0, d') →
  ∃ cs, cores d' = Some cs
        ∧ physical_core_count d' = Z.of_nat (length cs)
        ∧ all_cpus cs ≡ₚ seqZ 0 (logical_core_count d)
        ∧ Forall (λ c, is_Some (logical_ids c) ∧ count_matches c) cs.
Proof.
  intros H. apply get_core_topology_success in H as ->. unfold topology_result.
  eexists. split; [done|]. cbn [physical_core_count set_cores set_physical_core_count].
  split; [by rewrite length_map|]. split.
  - rewrite all_cpus_final. apply concat_members; [apply NoDup_distinct|].
    intros cpu Hcpu. apply elem_of_distinct. apply list_elem_of_fmap. by exists cpu.
  - apply Forall_forall. intros c Hc. apply list_elem_of_fmap in Hc as (k & -> & _).
    split; [by eexists|done].
Qed.

(** The collecting loop of the Windows build. *)
Lemma collect_loop mask fill (total : nat) post pre :
  (length (List.filter (Win32.bit_set mask) (pre ++ post)) = total) →
  for_each (Win32.collect_bit mask) post
    (Some (List.filter (Win32.bit_set mask) pre
           ++ replicate (total - length (List.filter (Win32.bit_set mask) pre)) fill),
     Z.of_nat (length (List.filter (Win32.bit_set mask) pre)))
  = Some (Some (List.filter (Win32.bit_set mask) (pre ++ post)), Z.of_nat total).
Proof.
  revert pre. induction post as [|b post IH]; intros pre Htot.
  - rewrite app_nil_r in *. simpl. by rewrite Htot, Nat.sub_diag, app_nil_r.
  - simpl. unfold Win32.collect_bit at 1.
    replace (pre ++ b :: post) with ((pre ++ [b]) ++ post) in * by by rewrite <- app_assoc.
    specialize (IH (pre ++ [b]) Htot).
    rewrite List.filter_app in IH. simpl in IH.
    rewrite !List.filter_app, !length_app in Htot. simpl in Htot.
    destruct (Win32.bit_set mask b) eqn:Hb.
    + simpl in Htot.
      replace (total - length (List.filter (Win32.bit_set mask) pre))%nat
        with (S (total - length (List.filter (Win32.bit_set mask) pre ++ [b])))
        by (rewrite length_app; simpl; lia).
      cbn [replicate]. unfold store. bind_step.
      rewrite store_cell_nat by (rewrite length_app; simpl; lia).
      bind_step. rewrite insert_pad.
      replace (Z.of_nat (length (List.filter (Win32.bit_set mask) pre)) + 1)
        with (Z.of_nat (length (List.filter (Win32.bit_set mask) pre ++ [b])))
        by (rewrite length_app; simpl; lia).
      exact IH.
    + bind_step. by rewrite app_nil_r in IH.
Qed.

Lemma collect_loop_null mask l idx st :
  for_each (Win32.collect_bit mask) l (None, idx) = Some st →
  List.filter (Win32.bit_set mask) l = [] ∧ st = (None, idx).
Proof.
  induction l as [|b l IH]; simpl; intros H.
  - by injection H as <-.
  - unfold Win32.collect_bit at 1 in H. destruct (Win32.bit_set mask b); [done|].
    by apply IH.
Qed.

Lemma collect_loop_all mask fill l :
  for_each (Win32.collect_bit mask) l
    (Some (replicate (length (List.filter (Win32.bit_set mask) l)) fill), 0)
  = Some (Some (List.filter (Win32.bit_set mask) l),
          Z.of_nat (length (List.filter (Win32.bit_set mask) l))).
Proof.
  pose proof (collect_loop mask fill _ l [] eq_refl) as H.
  simpl in H. by rewrite Nat.sub_0_r in H.
Qed.

Lemma core_of_mask_cpus W i mask c :
  Win32.core_of_mask W i mask = Some c →
  core_cpus c = Win32.set_bits mask ∧ count_matches c.
Proof.
  unfold Win32.core_of_mask, count_matches, core_cpus. rewrite count_bits_set_bits.
  unfold Win32.set_bits. generalize (seqZ 0 64). intros l H.
  destruct (Win32.malloc_logical_ids W i).
  - rewrite Nat2Z.id, collect_loop_all in H. bind_step in H.
    by injection H as <-.
  - destruct (for_each _ _ _) as [[ids idx]|] eqn:Hloop in H; [|done].
    apply collect_loop_null in Hloop as [Hnone [= -> ->]].
    bind_step in H. injection H as <-. by rewrite Hnone.
Qed.

Lemma cores_of_masks_cpus W i masks cs :
  Win32.cores_of_masks W i masks = Some cs →
  map core_cpus cs = map Win32.set_bits masks ∧ Forall count_matches cs.
Proof.
  revert i cs. induction masks as [|mask masks IH]; intros i cs H; simpl in H.
  - by injection H as <-.
  - destruct (Win32.core_of_mask W i mask) as [c|] eqn:Hc; [|done]. simpl in H.
    destruct (Win32.cores_of_masks W (i + 1) masks) as [cs'|] eqn:Hcs; [|done].
    injection H as <-. apply core_of_mask_cpus in Hc as [Hc ?].
    apply IH in Hcs as [Hcs ?]. simpl. rewrite Hc, Hcs. by split; [|constructor].
Qed.

(** On Windows the cores of a successful call own the set bits of the
    masks, whatever the masks are. *)
Lemma windows_cores W d d' :
  Win32.get_core_topology W d = Some (0, d') →
  ∃ cs, cores d' = Some cs
        ∧ all_cpus cs = concat (map Win32.set_bits (Win32.core_masks W))
        ∧ Forall count_matches cs.
Proof.
  unfold Win32.get_core_topology. intros H.
  destruct (Win32.sizing_insufficient_buffer W); [|done].
  destruct (Win32.malloc_buffer W); [|done].
  destruct (Win32.filling_ok W); [|done].
  destruct (Win32.calloc_cores W); [|done]. cbn [negb] in H.
  destruct (Win32.cores_of_masks W 0 (Win32.core_masks W)) as [cs|] eqn:Hcs; [|done].
  injection H as <-. apply cores_of_masks_cpus in Hcs as [Hcs ?].
  exists cs. split; [done|]. unfold all_cpus. by rewrite Hcs.
Qed.

(** On Windows a call succeeds when the system calls and the allocations do. *)
Lemma windows_topology_defined W d :
  Win32.sizing_insufficient_buffer W = true → Win32.malloc_buffer W = true →
  Win32.filling_ok W = true → Win32.calloc_cores W = true →
  (∀ i, Win32.malloc_logical_ids W i = true) →
  ∃ d', Win32.get_core_topology W d = Some (0, d').
Proof.
  intros H1 H2 H3 H4 Hm. unfold Win32.get_core_topology. rewrite H1, H2, H3, H4. cbn [negb].
  assert (Hcs : ∀ masks i, ∃ cs, Win32.cores_of_masks W i masks = Some cs).
  { induction masks as [|mask masks IH]; intros i; simpl; [by eexists|].
    unfold Win32.core_of_mask. rewrite Hm, count_bits_set_bits, Nat2Z.id.
    unfold Win32.set_bits. rewrite collect_loop_all. bind_step.
    destruct (IH (i + 1)) as [cs ->]. cbn. by eexists. }
  destruct (Hcs (Win32.core_masks W) 0) as [cs ->]. by eexists.
Qed.

(** C2, as the code has it: on Linux, whenever [get_core_topology]
    succeeds for N logical CPUs, the [logical_ids] of the cores together
    hold every index of 0 .. N-1 exactly once, every block is allocated and
    [logical_count] is its length.  This holds of a pass-by-pass reading
    of the files from one buffer and of the call with its buffers carried
    from pass to pass, whatever the files hold and whatever the buffers
    held at first.  The call succeeds when its allocations are served and
    every topology file of the N logical CPUs either cannot be opened or
    holds a line.  On Windows [logical_count] is the length of [logical_ids]
    too, and the cores hold the set bit positions of the masks the system
    reported, so they split 0 .. N-1 exactly when those masks do. *)
Theorem topology_partition :
  (∀ (P : Platform) (d d' : CPU_DATA),
     get_core_topology P d = Some (0, d') →
     ∃ cs, cores d' = Some cs
           ∧ physical_core_count d' = Z.of_nat (length cs)
           ∧ all_cpus cs ≡ₚ seqZ 0 (logical_core_count d)
           ∧ Forall (λ c, is_Some (logical_ids c) ∧ count_matches c) cs)
  ∧ (∀ (P : Platform) (buf1 buf2 : list ascii) (d d' : CPU_DATA),
       get_core_topology_from P buf1 buf2 d = Some (0, d') →
       ∃ cs, cores d' = Some cs
             ∧ physical_core_count d' = Z.of_nat (length cs)
             ∧ all_cpus cs ≡ₚ seqZ 0 (logical_core_count d)
             ∧ Forall (λ c, is_Some (logical_ids c) ∧ count_matches c) cs)
  ∧ (∀ (P : Platform) (buf1 buf2 : list ascii) (d : CPU_DATA),
       topology_files_settled P (logical_core_count d) →
       calloc_keys P = true → calloc_temp P = true → calloc_cores P = true →
       (∀ i, malloc_logical_ids P i = true) →
       ∃ d', get_core_topology_from P buf1 buf2 d = Some (0, d'))
  ∧ (∀ (W : Win32.Platform) (d d' : CPU_DATA),
       Win32.get_core_topology W d = Some (0, d') →
       ∃ cs, cores d' = Some cs
             ∧ Forall count_matches cs
             ∧ all_cpus cs = concat (map Win32.set_bits (Win32.core_masks W))
             ∧ (concat (map Win32.set_bits (Win32.core_masks W))
                  ≡ₚ seqZ 0 (logical_core_count d) →
                all_cpus cs ≡ₚ seqZ 0 (logical_core_count d))
             ∧ (all_cpus cs ≡ₚ seqZ 0 (logical_core_count d) →
                concat (map Win32.set_bits (Win32.core_masks W))
                  ≡ₚ seqZ 0 (logical_core_count d)))
  ∧ (∀ (W : Win32.Platform) (d : CPU_DATA),
       Win32.sizing_insufficient_buffer W = true → Win32.malloc_buffer W = true →
       Win32.filling_ok W = true → Win32.calloc_cores W = true →
       (∀ i, Win32.malloc_logical_ids W i = true) →
       ∃ d', Win32.get_core_topology W d = Some (0, d')).
Proof.
  split; [apply linux_partition|].
  split; [|split; [|split; [|apply windows_topology_defined]]].
  - apply linux_partition_from.
  - intros P buf1 buf2 d Hfiles Hk Ht Hc Hm. eexists.
    rewrite get_core_topology_from_settled by done.
    apply get_core_topology_defined; auto.
  - intros W d d' H. destruct (windows_cores W d d' H) as (cs & Hcs & Hall & Hcount).
    exists cs. split; [done|]. split; [done|]. split; [done|]. by rewrite Hall.
Qed.

Lemma topology_partition_witness :
  (∃ d' cs, get_core_topology_from four_cpus (chars "7") (chars "9") (allocated_data 4)
            = Some (0, d')
            ∧ cores d' = Some cs ∧ all_cpus cs ≡ₚ [0; 1; 2; 3])
  ∧ (∃ d' cs, Win32.get_core_topology one_group (allocated_data 4) = Some (0, d')
              ∧ cores d' = Some cs ∧ all_cpus cs ≡ₚ [0; 1; 2; 3]).
Proof.
  split.
  - assert (Hfiles : topology_files_settled four_cpus
                       (logical_core_count (allocated_data 4))).
    { apply topology_files_settled_check. vm_compute. reflexivity. }
    destruct (proj1 (proj2 (proj2 topology_partition)) four_cpus (chars "7") (chars "9")
                (allocated_data 4))
      as [d' Hrun]; [exact Hfiles|reflexivity..|intros i; reflexivity|].
    destruct (proj1 (proj2 topology_partition) four_cpus (chars "7") (chars "9")
                (allocated_data 4) d' Hrun)
      as (cs & Hcs & _ & Hperm & _).
    exists d', cs. split; [exact Hrun|]. split; [exact Hcs|exact Hperm].
  - destruct (Win32.get_core_topology one_group (allocated_data 4)) as [[rc d']|] eqn:Hrun;
      [|vm_compute in Hrun; discriminate Hrun].
    assert (Hrc : rc = 0) by (vm_compute in Hrun; congruence). subst rc.
    destruct (proj1 (proj2 (proj2 (proj2 topology_partition)))
                one_group (allocated_data 4) d' Hrun)
      as (cs & Hcs & _ & _ & Hperm & _).
    exists d', cs. split; [reflexivity|]. split; [exact Hcs|]. apply Hperm.
    vm_compute. reflexivity.
Defined.

(** The claim C2 as it is written fails on Windows with more than one
    processor group: the masks are relative to their group, so two cores of
    different groups own the same indices and the indices 2 and 3 of the
    four logical processors are owned by none. *)
Lemma topology_partition_fails_across_groups :
  ∃ d' cs, Win32.get_core_topology two_groups (allocated_data 4) = Some (0, d')
           ∧ logical_core_count d' = 4
           ∧ cores d' = Some cs
           ∧ all_cpus cs = [0; 1; 0; 1]
           ∧ ¬ (all_cpus cs ≡ₚ seqZ 0 4).
Proof.
  eexists _, _. split; [vm_compute; reflexivity|].
  split; [reflexivity|]. split; [reflexivity|]. split; [vm_compute; reflexivity|].
  intros Hperm.
  assert (H2 : 2 ∈ all_cpus
    [ {| id := 0; type := CORE_TYPE_UNKNOWN; logical_ids := Some [0; 1]; logical_count := 2 |};
      {| id := 1; type := CORE_TYPE_UNKNOWN; logical_ids := Some [0; 1]; logical_count := 2 |} ]).
  { rewrite Hperm. apply elem_of_seqZ. lia. }
  vm_compute in H2. repeat (apply elem_of_cons in H2 as [H2|H2]; [discriminate H2|]).
  by inversion H2.
Qed.

(** ** Missing topology files (C4) *)







(** ** The grouping key (C10) *)

Lemma wrap32_shifted p : ∃ q, wrap32 (Z.shiftl p 16) = q * 2 ^ 16.
Proof.
  unfold wrap32. rewrite Z.shiftl_mul_pow2 by lia.
  exists (p - 2 ^ 16 * ((p * 2 ^ 16 + 2 ^ 31) / 2 ^ 32)).
  pose proof (Z.div_mod (p * 2 ^ 16 + 2 ^ 31) (2 ^ 32) ltac:(lia)). lia.
Qed.

Lemma land_high_low q c : Z.land (q * 2 ^ 16) (c mod 2 ^ 16) = 0.
Proof.
  apply Z.bits_inj'. intros n Hn. rewrite Z.land_spec, Z.bits_0.
  destruct (Z.lt_ge_cases n 16).
  - rewrite Z.mul_pow2_bits_low by lia. done.
  - rewrite (Z.mod_pow2_bits_high c 16 n) by lia. apply andb_false_r.
Qed.

(** The key is the shifted package id plus the low 16 bits of the core id. *)
Lemma core_key_sum phy core :
  core_key phy core = wrap32 (Z.shiftl phy 16) + core mod 2 ^ 16.
Proof.
  unfold core_key. change 0xFFFF with (Z.ones 16). rewrite Z.land_ones by lia.
  destruct (wrap32_shifted phy) as [q ->].
  pose proof (Z.add_lor_land (q * 2 ^ 16) (core mod 2 ^ 16)) as H.
  rewrite land_high_low in H. lia.
Qed.

(** C10: The key of a logical CPU is [(phy << 16) | (core & 0xFFFF)] and
    so keeps only the low 16 bits of its core id.  Two core ids of one
    package that are congruent modulo 2^16 have the same key, and after a
    successful call two logical CPUs with such ids are owned by the same
    physical core.  A core id outside 0 .. 65535
    shares its key with a different core id inside that range; for package
    ids of 16 bits and core ids inside that range the key determines the
    pair.  The statement on the call is for topology files that cannot be
    opened or hold a line, with the buffers carried from pass to pass,
    whatever they held at first. *)
Theorem core_key_low_16_bits :
  (∀ (P : Platform) (cpu : Z),
     topology_key P cpu
     = Z.lor (wrap32 (Z.shiftl (fst (topology_ids P cpu)) 16))
             (Z.land (snd (topology_ids P cpu)) 0xFFFF))
  ∧ (∀ phy c1 c2 : Z, c1 mod 2 ^ 16 = c2 mod 2 ^ 16 → core_key phy c1 = core_key phy c2)
  ∧ (∀ (P : Platform) (buf1 buf2 : list ascii) (d d' : CPU_DATA) (i j phy c1 c2 : Z),
       topology_files_settled P (logical_core_count d) →
       get_core_topology_from P buf1 buf2 d = Some (0, d') →
       0 <= i < logical_core_count d → 0 <= j < logical_core_count d →
       topology_ids P i = (phy, c1) → topology_ids P j = (phy, c2) →
       c1 mod 2 ^ 16 = c2 mod 2 ^ 16 →
       ∃ cs c, cores d' = Some cs ∧ c ∈ cs ∧ i ∈ core_cpus c ∧ j ∈ core_cpus c)
  ∧ (∀ phy c : Z, ¬ (0 <= c < 2 ^ 16) →
       c mod 2 ^ 16 ≠ c ∧ 0 <= c mod 2 ^ 16 < 2 ^ 16
       ∧ core_key phy (c mod 2 ^ 16) = core_key phy c)
  ∧ (∀ p1 p2 c1 c2 : Z,
       - 2 ^ 15 <= p1 < 2 ^ 15 → - 2 ^ 15 <= p2 < 2 ^ 15 →
       0 <= c1 < 2 ^ 16 → 0 <= c2 < 2 ^ 16 →
       core_key p1 c1 = core_key p2 c2 → p1 = p2 ∧ c1 = c2).
Proof.
  assert (Hsame : ∀ phy c1 c2 : Z,
             c1 mod 2 ^ 16 = c2 mod 2 ^ 16 → core_key phy c1 = core_key phy c2).
  { intros phy c1 c2 H. by rewrite !core_key_sum, H. }
  split; [intros P cpu; unfold topology_key; by destruct (topology_ids P cpu)|].
  split; [done|]. split; [|split].
  - intros P buf1 buf2 d d' i j phy c1 c2 Hfiles Hrun Hi Hj Hidi Hidj Hmod.
    rewrite get_core_topology_from_settled in Hrun by done.
    apply get_core_topology_success in Hrun as ->. unfold topology_result.
    set (all := seqZ 0 (logical_core_count d)).
    set (k := core_key phy c1).
    assert (Hki : topology_key P i = k) by (unfold topology_key; by rewrite Hidi).
    assert (Hkj : topology_key P j = k).
    { unfold topology_key. rewrite Hidj. symmetry. by apply Hsame. }
    assert (Hiall : i ∈ all) by (apply elem_of_seqZ; lia).
    assert (Hjall : j ∈ all) by (apply elem_of_seqZ; lia).
    eexists _, (final_core (topology_key P) all k). split; [done|]. split.
    + apply list_elem_of_fmap. exists k. split; [done|].
      apply elem_of_distinct. apply list_elem_of_fmap. by exists i.
    + unfold core_cpus, final_core, block_cells, members. cbn.
      rewrite !list_elem_of_In, !filter_In, <- !list_elem_of_In, Hki, Hkj, Z.eqb_refl.
      done.
  - intros phy c Hc. pose proof (Z.mod_pos_bound c (2 ^ 16) ltac:(lia)) as Hb.
    split; [lia|]. split; [done|]. apply Hsame. by rewrite Z.mod_mod by lia.
  - intros p1 p2 c1 c2 Hp1 Hp2 Hc1 Hc2. rewrite !core_key_sum.
    rewrite !Z.shiftl_mul_pow2 by lia.
    rewrite !wrap32_id by (unfold in_int; lia).
    rewrite !Z.mod_small by lia. lia.
Qed.

Lemma core_key_low_16_bits_witness :
  topology_ids wide_core_ids 0 = (0, 1)
  ∧ topology_ids wide_core_ids 1 = (0, 65537)
  ∧ ∃ d' cs c, get_core_topology_from wide_core_ids (chars "7") (chars "9")
                 (allocated_data 2) = Some (0, d')
               ∧ cores d' = Some cs ∧ c ∈ cs ∧ 0 ∈ core_cpus c ∧ 1 ∈ core_cpus c.
Proof.
  split; [reflexivity|]. split; [reflexivity|].
  destruct (get_core_topology_from wide_core_ids (chars "7") (chars "9") (allocated_data 2))
    as [[rc d']|] eqn:Hrun; [|vm_compute in Hrun; discriminate Hrun].
  assert (Hrc : rc = 0) by (vm_compute in Hrun; congruence). subst rc.
  destruct (proj1 (proj2 (proj2 core_key_low_16_bits)) wide_core_ids (chars "7") (chars "9")
              (allocated_data 2) d' 0 1 0 1 65537) as (cs & c & Hcs & Hc & H0 & H1);
    [apply topology_files_settled_check; vm_compute; reflexivity|exact Hrun
    |simpl; lia|simpl; lia|reflexivity|reflexivity|reflexivity|].
  exists d', cs, c. split; [reflexivity|]. split; [exact Hcs|]. split; [exact Hc|].
  split; [exact H0|exact H1].
Defined.

(** ** The aggregator (C1, C9) *)

(** [get_cpu_brand] returns 0 or 203, never 200: [get_cpu_data] compares
    its result with 200 and so returns right after the brand string. *)
Lemma get_cpu_data_stops_after_brand P d :
  get_cpu_data P (Some d)
  = Some (if malloc_brand P then 0 else 203,
          Some (set_cpu_name (snd (get_cpu_brand P (cpu_name d))) d)).
Proof.
  unfold get_cpu_data, get_cpu_brand. by destruct (malloc_brand P).
Qed.

(** C1 (failure of the code): on a machine with four logical CPUs, with
    every allocation served and a record zeroed by the caller,
    [get_cpu_data] returns 0 although nothing after the brand string ran:
    the logical core count is still 0, no per-logical array is allocated,
    no flag is decoded and there is no core list.  The statements that
    were skipped (lines 551-579) would have returned 0 with four logical
    CPUs, arrays of length 4, decoded flags and two cores. *)
Theorem get_cpu_data_returns_before_population :
  ∃ d' full,
    get_cpu_data four_cpus (Some zeroed_data) = Some (0, Some d')
    ∧ get_nprocs four_cpus = 4
    ∧ logical_core_count d' = 0
    ∧ l1size d' = None ∧ l2size d' = None ∧ frequency d' = None
    ∧ cores d' = None
    ∧ algorithms d' = no_algorithms
    ∧ fill_cpu_data four_cpus d' = Some (0, full)
    ∧ logical_core_count full = 4
    ∧ length (block_cells (l1size full)) = 4%nat
    ∧ length (block_cells (l2size full)) = 4%nat
    ∧ length (block_cells (frequency full)) = 4%nat
    ∧ SSE (algorithms full) = true
    ∧ map core_cpus (block_cells (cores full)) = [[0; 1]; [2; 3]].
Proof.
  eexists _, _. split; [vm_compute; reflexivity|].
  split; [reflexivity|]. do 6 (split; [reflexivity|]).
  split; [vm_compute; reflexivity|].
  repeat split; vm_compute; reflexivity.
Qed.

(** Lines 551-579 on a machine that reports no logical CPU, with the
    allocations served: no loop runs a pass. *)
Lemma fill_cpu_data_zero_count P d :
  get_nprocs P = 0 →
  calloc_l1size P = true → calloc_l2size P = true → calloc_frequency P = true →
  calloc_keys P = true → calloc_temp P = true → calloc_cores P = true →
  fill_cpu_data P d
  = Some (0, set_cores (Some [])
               (set_physical_core_count 0
                  (set_algorithms (get_supported_algorithms P)
                     (set_l3size 0
                        (set_l3size 0
                           (set_frequency (Some [])
                              (set_l2size (Some [])
                                 (set_l1size (Some [])
                                    (set_logical_core_count 0 d))))))))).
Proof.
  intros Hn H1 H2 H3 Hk Ht Hc.
  unfold fill_cpu_data, populate_caches_and_freq, get_core_topology.
  rewrite Hn, H1, H2, H3, Hk, Ht, Hc. reflexivity.
Qed.

(** C9: On a machine that reports no logical CPU, [get_cpu_data] called on
    the zeroed record the header asks for returns 0 when the brand string
    is allocated: the record has the logical core count 0, the physical
    core count 0, no core and no cell in any per-logical array.  The call
    returns right after the brand string (see C1) and leaves the null
    pointers of the caller; the statements after it, with their
    allocations served, would also return 0, with a core list and three
    arrays of length zero. *)
Theorem zero_count_capture_is_empty (P : Platform) :
  get_nprocs P = 0 → malloc_brand P = true →
  ∃ d', get_cpu_data P (Some zeroed_data) = Some (0, Some d')
        ∧ logical_core_count d' = 0
        ∧ physical_core_count d' = 0
        ∧ block_cells (cores d') = []
        ∧ block_cells (l1size d') = []
        ∧ block_cells (l2size d') = []
        ∧ block_cells (frequency d') = []
        ∧ (calloc_l1size P = true → calloc_l2size P = true → calloc_frequency P = true →
           calloc_keys P = true → calloc_temp P = true → calloc_cores P = true →
           ∃ full, fill_cpu_data P d' = Some (0, full)
                   ∧ logical_core_count full = 0
                   ∧ physical_core_count full = 0
                   ∧ cores full = Some []
                   ∧ l1size full = Some [] ∧ l2size full = Some []
                   ∧ frequency full = Some []).
Proof.
  intros Hn Hb. rewrite get_cpu_data_stops_after_brand, Hb.
  eexists. split; [reflexivity|]. do 6 (split; [reflexivity|]).
  intros H1 H2 H3 Hk Ht Hc.
  rewrite fill_cpu_data_zero_count by done.
  eexists. split; [reflexivity|]. by repeat split.
Qed.

Lemma zero_count_capture_is_empty_witness :
  get_nprocs no_cpus = 0
  ∧ ∃ d', get_cpu_data no_cpus (Some zeroed_data) = Some (0, Some d')
          ∧ logical_core_count d' = 0
          ∧ physical_core_count d' = 0
          ∧ block_cells (cores d') = []
          ∧ block_cells (l1size d') = []
          ∧ block_cells (l2size d') = []
          ∧ block_cells (frequency d') = [].
Proof.
  split; [reflexivity|].
  destruct (zero_count_capture_is_empty no_cpus eq_refl eq_refl)
    as (d' & Hrun & HL & Hp & Hc & H1 & H2 & Hf & _).
  exists d'. split; [exact Hrun|]. split; [exact HL|]. split; [exact Hp|].
  split; [exact Hc|]. split; [exact H1|]. split; [exact H2|exact Hf].
Defined.

(** * Further properties *)

(** ** Outcomes of [get_core_topology] on Linux *)

Lemma members_present key k cpus : k ∈ map key cpus → members key k cpus ≠ [].
Proof.
  unfold members. induction cpus as [|c cpus IH]; simpl; [by inversion 1|].
  intros Hk. destruct (key c =? k) eqn:Hc; [done|].
  apply elem_of_cons in Hk as [->|Hk]; [lia|by apply IH].
Qed.

Lemma elem_of_members key k cpus c : c ∈ members key k cpus ↔ c ∈ cpus ∧ key c = k.
Proof.
  unfold members. rewrite !list_elem_of_In, filter_In. intuition lia.
Qed.

(** The cores a successful call leaves. *)
Lemma successful_cores P d d' cs :
  get_core_topology P d = Some (0, d') → cores d' = Some cs →
  cs = map (final_core (topology_key P) (seqZ 0 (logical_core_count d)))
         (distinct (map (topology_key P) (seqZ 0 (logical_core_count d))))
  ∧ physical_core_count d' = Z.of_nat (length cs).
Proof.
  intros Hrun Hcs. apply get_core_topology_success in Hrun as ->.
  unfold topology_result in *. cbn in Hcs. injection Hcs as <-.
  split; [done|]. cbn. by rewrite length_map.
Qed.

(** The second loop fails as soon as one block is missing. *)
Lemma place_loop_undefined P (D pad : list Z) all (i : nat) :
  D = distinct (map (topology_key P) all) →
  (i < length D)%nat → malloc_logical_ids P (Z.of_nat i) = false →
  for_each (place_cpu P (D ++ pad)) all
    (imap (λ i t, copy_core P (Z.of_nat i) t) (map (counted_core (topology_key P) all) D))
  = None.
Proof.
  intros HD Hi Hm.
  destruct (for_each _ _ _) as [cs'|] eqn:Hrun; [|done].
  pose proof (place_loop_needs_blocks P D pad all cs' HD Hrun i Hi). congruence.
Qed.

(** X1: [get_core_topology] on Linux, with its buffers carried from pass
    to pass and whatever they held at first, has four outcomes.  It
    returns 203 with the record untouched when [calloc] of [keys] or [temp]
    fails; the only codes are 0 and 203.  When every topology file of the
    logical CPUs either cannot be opened or holds a line, it returns 203
    with [physical_core_count] already set and [cores] null when [calloc]
    of [cores] fails; it returns 0 when every block is served; and when
    [malloc] fails for the [logical_ids] of one of the cores, the result
    of [malloc] is not tested and the second loop stores through the null
    pointer. *)
Theorem get_core_topology_outcomes (P : Platform) (buf1 buf2 : list ascii) (d : CPU_DATA) :
  let n := length (distinct (map (topology_key P) (seqZ 0 (logical_core_count d)))) in
  (calloc_keys P && calloc_temp P = false →
   get_core_topology_from P buf1 buf2 d = Some (203, d))
  ∧ (topology_files_settled P (logical_core_count d) →
     calloc_keys P && calloc_temp P = true →
     (calloc_cores P = false →
      get_core_topology_from P buf1 buf2 d
      = Some (203, set_cores None (set_physical_core_count (Z.of_nat n) d)))
     ∧ (calloc_cores P = true →
        (∀ i : nat, (i < n)%nat → malloc_logical_ids P (Z.of_nat i) = true) →
        get_core_topology_from P buf1 buf2 d = Some (0, topology_result P d))
     ∧ (calloc_cores P = true →
        ∀ i : nat, (i < n)%nat → malloc_logical_ids P (Z.of_nat i) = false →
        get_core_topology_from P buf1 buf2 d = None))
  ∧ (∀ rc d', get_core_topology_from P buf1 buf2 d = Some (rc, d') → rc = 0 ∨ rc = 203).
Proof.
  intros n. split; [|split].
  - intros H. unfold get_core_topology_from. by rewrite H.
  - intros Hfiles H. rewrite get_core_topology_from_settled by done. split; [|split].
    + intros Hc. unfold get_core_topology. rewrite H, Hc. cbn [negb].
      rewrite count_loop_all. bind_step. done.
    + intros Hc Hm. apply andb_true_iff in H as [Hk Ht].
      by apply get_core_topology_defined.
    + intros Hc i Hi Hm. unfold get_core_topology. rewrite H, Hc. cbn [negb].
      rewrite count_loop_all. bind_step. rewrite take_discovered_temp.
      unfold discovered. cbn [keys unique].
      rewrite (place_loop_undefined P _ _ _ i eq_refl Hi Hm). done.
  - intros rc d' H. unfold get_core_topology_from in H.
    destruct (calloc_keys P && calloc_temp P); [|injection H as <- _; by right].
    cbn [negb] in H.
    destruct (fst <$> for_each (count_cpu_from P) _ _) as [st|] in H; [|done].
    bind_step in H.
    destruct (calloc_cores P); [|injection H as <- _; by right]. cbn [negb] in H.
    destruct (fst <$> for_each _ _ _) as [cs|] in H; [|done]. injection H as <- _. by left.
Qed.

Lemma get_core_topology_outcomes_witness :
  calloc_keys four_cpus && calloc_temp four_cpus = true
  ∧ get_core_topology_from four_cpus (chars "7") (chars "9") (allocated_data 4)
    = Some (0, topology_result four_cpus (allocated_data 4)).
Proof.
  split; [reflexivity|].
  apply (proj1 (proj2 (get_core_topology_outcomes four_cpus (chars "7") (chars "9")
                         (allocated_data 4))));
    try reflexivity.
  apply topology_files_settled_check. vm_compute. reflexivity.
Defined.

(** X2: After a successful call every physical core owns at least one
    logical CPU, there are at most as many cores as logical CPUs, and at
    least one core when there is a logical CPU. *)
Theorem cores_are_not_empty (P : Platform) (d d' : CPU_DATA) (cs : list PhysicalCoreInfo) :
  get_core_topology P d = Some (0, d') → cores d' = Some cs →
  Forall (λ c, core_cpus c ≠ [] ∧ 1 <= logical_count c) cs
  ∧ (length cs ≤ Z.to_nat (logical_core_count d))%nat
  ∧ (0 < logical_core_count d → cs ≠ []).
Proof.
  intros Hrun Hcs. destruct (successful_cores P d d' cs Hrun Hcs) as [-> _].
  set (all := seqZ 0 (logical_core_count d)). split; [|split].
  - apply Forall_forall. intros c Hc. apply list_elem_of_fmap in Hc as (k & -> & Hk).
    rewrite elem_of_distinct in Hk. pose proof (members_present _ _ _ Hk) as Hne.
    split; [done|]. cbn. destruct (members (topology_key P) k all); [done|]. simpl. lia.
  - rewrite length_map. etrans; [apply length_distinct|].
    unfold all. by rewrite length_map, length_seqZ.
  - intros Hpos Hnil. apply (f_equal length) in Hnil. rewrite length_map in Hnil.
    assert (Hin : topology_key P 0 ∈ distinct (map (topology_key P) all)).
    { apply elem_of_distinct, list_elem_of_fmap. exists 0. split; [done|].
      apply elem_of_seqZ. lia. }
    destruct (distinct (map (topology_key P) all)); [by inversion Hin|done].
Qed.

Lemma cores_are_not_empty_witness :
  ∃ d' cs, get_core_topology four_cpus (allocated_data 4) = Some (0, d')
           ∧ cores d' = Some cs
           ∧ Forall (λ c, core_cpus c ≠ [] ∧ 1 <= logical_count c) cs.
Proof.
  destruct (get_core_topology four_cpus (allocated_data 4)) as [[rc d']|] eqn:Hrun;
    [|vm_compute in Hrun; discriminate Hrun].
  assert (Hrc : rc = 0) by (vm_compute in Hrun; congruence). subst rc.
  destruct (cores d') as [cs|] eqn:Hcs;
    [|vm_compute in Hrun; injection Hrun as <-; discriminate Hcs].
  exists d', cs. split; [reflexivity|]. split; [exact Hcs|].
  exact (proj1 (cores_are_not_empty four_cpus (allocated_data 4) d' cs Hrun Hcs)).
Defined.

(** ** The grouping of [get_core_topology] on Linux *)

Lemma map_id_final_core key all D : map id (map (final_core key all) D) = D.
Proof. rewrite map_map. simpl. apply map_id. Qed.

Lemma cores_have_their_keys (P : Platform) (d d' : CPU_DATA) (cs : list PhysicalCoreInfo) :
  get_core_topology P d = Some (0, d') → cores d' = Some cs →
  NoDup (map id cs)
  ∧ Forall (λ c, type c = CORE_TYPE_UNKNOWN
                 ∧ Forall (λ cpu, topology_key P cpu = id c
                                  ∧ 0 <= cpu < logical_core_count d) (core_cpus c)) cs.
Proof.
  intros Hrun Hcs. destruct (successful_cores P d d' cs Hrun Hcs) as [-> _]. split.
  - rewrite map_id_final_core. apply NoDup_distinct.
  - apply Forall_forall. intros c Hc. apply list_elem_of_fmap in Hc as (k & -> & Hk).
    split; [done|]. apply Forall_forall. intros cpu Hcpu. cbn in Hcpu.
    apply elem_of_members in Hcpu as [Hcpu Hkey]. split; [done|].
    apply elem_of_seqZ in Hcpu. lia.
Qed.

(** X3: When every topology file of the logical CPUs either cannot be
    opened or holds a line, after a successful call (with its buffers
    carried from pass to pass, whatever they held at first) the [id] of a
    core is the key of each of its logical CPUs, no two cores have the same
    [id], every core has the type CORE_TYPE_UNKNOWN, and every logical
    index a core owns lies in 0 .. N-1. *)
Theorem core_ids_are_the_keys (P : Platform) (buf1 buf2 : list ascii) (d d' : CPU_DATA)
    (cs : list PhysicalCoreInfo) :
  topology_files_settled P (logical_core_count d) →
  get_core_topology_from P buf1 buf2 d = Some (0, d') → cores d' = Some cs →
  NoDup (map id cs)
  ∧ Forall (λ c, type c = CORE_TYPE_UNKNOWN
                 ∧ Forall (λ cpu, topology_key P cpu = id c
                                  ∧ 0 <= cpu < logical_core_count d) (core_cpus c)) cs.
Proof.
  intros Hfiles Hrun. rewrite get_core_topology_from_settled in Hrun by done.
  by apply cores_have_their_keys.
Qed.

Lemma core_ids_are_the_keys_witness :
  ∃ d' cs, get_core_topology_from wide_core_ids (chars "7") (chars "9") (allocated_data 2)
           = Some (0, d')
           ∧ cores d' = Some cs ∧ NoDup (map id cs).
Proof.
  destruct (get_core_topology_from wide_core_ids (chars "7") (chars "9") (allocated_data 2))
    as [[rc d']|] eqn:Hrun; [|vm_compute in Hrun; discriminate Hrun].
  assert (Hrc : rc = 0) by (vm_compute in Hrun; congruence). subst rc.
  destruct (cores d') as [cs|] eqn:Hcs;
    [|vm_compute in Hrun; injection Hrun as <-; discriminate Hcs].
  exists d', cs. split; [reflexivity|]. split; [exact Hcs|].
  refine (proj1 (core_ids_are_the_keys wide_core_ids (chars "7") (chars "9")
                   (allocated_data 2) d' cs _ Hrun Hcs)).
  apply topology_files_settled_check. vm_compute. reflexivity.
Defined.

(** X4: When every topology file of the logical CPUs either cannot be
    opened or holds a line, after a successful call (with its buffers
    carried from pass to pass, whatever they held at first) two logical
    CPUs are owned by the same physical core exactly when their keys are
    equal. *)
Theorem same_core_iff_same_key (P : Platform) (buf1 buf2 : list ascii) (d d' : CPU_DATA)
    (cs : list PhysicalCoreInfo) (i j : Z) :
  topology_files_settled P (logical_core_count d) →
  get_core_topology_from P buf1 buf2 d = Some (0, d') → cores d' = Some cs →
  0 <= i < logical_core_count d → 0 <= j < logical_core_count d →
  (∃ c, c ∈ cs ∧ i ∈ core_cpus c ∧ j ∈ core_cpus c)
  ↔ topology_key P i = topology_key P j.
Proof.
  intros Hfiles Hrun Hcs Hi Hj. rewrite get_core_topology_from_settled in Hrun by done.
  destruct (cores_have_their_keys P d d' cs Hrun Hcs) as [_ Hkeys].
  destruct (successful_cores P d d' cs Hrun Hcs) as [Heq _]. split.
  - intros (c & Hc & Hic & Hjc). rewrite Forall_forall in Hkeys.
    destruct (Hkeys c Hc) as [_ Hmem]. rewrite Forall_forall in Hmem.
    destruct (Hmem i Hic) as [-> _]. by destruct (Hmem j Hjc) as [-> _].
  - intros Hsame. subst cs. set (all := seqZ 0 (logical_core_count d)).
    exists (final_core (topology_key P) all (topology_key P i)). split; [|split].
    + apply list_elem_of_fmap. eexists. split; [done|].
      apply elem_of_distinct, list_elem_of_fmap. exists i. split; [done|].
      apply elem_of_seqZ. lia.
    + cbn. apply elem_of_members. split; [apply elem_of_seqZ; lia|done].
    + cbn. apply elem_of_members. split; [apply elem_of_seqZ; lia|done].
Qed.

Lemma same_core_iff_same_key_witness :
  ∃ d' cs, get_core_topology_from four_cpus (chars "7") (chars "9") (allocated_data 4)
           = Some (0, d')
           ∧ cores d' = Some cs
           ∧ topology_key four_cpus 1 ≠ topology_key four_cpus 2
           ∧ ¬ (∃ c, c ∈ cs ∧ 1 ∈ core_cpus c ∧ 2 ∈ core_cpus c).
Proof.
  destruct (get_core_topology_from four_cpus (chars "7") (chars "9") (allocated_data 4))
    as [[rc d']|] eqn:Hrun; [|vm_compute in Hrun; discriminate Hrun].
  assert (Hrc : rc = 0) by (vm_compute in Hrun; congruence). subst rc.
  destruct (cores d') as [cs|] eqn:Hcs;
    [|vm_compute in Hrun; injection Hrun as <-; discriminate Hcs].
  assert (Hne : topology_key four_cpus 1 ≠ topology_key four_cpus 2)
    by (vm_compute; discriminate).
  exists d', cs. split; [reflexivity|]. split; [exact Hcs|]. split; [exact Hne|].
  intros Hsame. apply Hne.
  refine (proj1 (same_core_iff_same_key four_cpus (chars "7") (chars "9")
                   (allocated_data 4) d' cs 1 2 _ Hrun Hcs
                   ltac:(simpl; lia) ltac:(simpl; lia)) Hsame).
  apply topology_files_settled_check. vm_compute. reflexivity.
Defined.

(** ** The order of the result on Linux *)

Lemma ascending_filter (f : Z → bool) l : ascending l → ascending (List.filter f l).
Proof.
  induction l as [|x l IH]; simpl; [done|]. intros [Hx Hl].
  destruct (f x); simpl; [|by apply IH]. split; [|by apply IH].
  apply Forall_forall. intros y Hy. rewrite Forall_forall in Hx. apply Hx.
  apply list_elem_of_In in Hy. apply filter_In in Hy as [Hy _]. by apply list_elem_of_In.
Qed.

Lemma ascending_seqZ_from m (n : nat) : ascending (seqZ m (Z.of_nat n)).
Proof.
  revert m. induction n as [|n IH]; intros m; [done|].
  rewrite seqZ_cons by lia. simpl. split.
  - apply Forall_forall. intros y Hy. apply elem_of_seqZ in Hy. lia.
  - replace (Z.pred (Z.of_nat (S n))) with (Z.of_nat n) by lia. apply IH.
Qed.

Lemma ascending_seqZ m n : ascending (seqZ m n).
Proof.
  destruct (decide (0 <= n)) as [Hn|Hn].
  - rewrite <- (Z2Nat.id n Hn). apply ascending_seqZ_from.
  - unfold seqZ. by replace (Z.to_nat n) with 0%nat by lia.
Qed.

Lemma Forall_firsts_from (Q : Z → Prop) key seen cpus :
  Forall Q cpus → Forall Q (firsts_from key seen cpus).
Proof.
  revert seen. induction cpus as [|c cpus IH]; intros seen H; simpl; [done|].
  apply Forall_cons in H as [Hc H]. case_bool_decide; [by apply IH|].
  constructor; [done|by apply IH].
Qed.

Lemma ascending_firsts_from key seen cpus :
  ascending cpus → ascending (firsts_from key seen cpus).
Proof.
  revert seen. induction cpus as [|c cpus IH]; intros seen; simpl; [done|].
  intros [Hc H]. case_bool_decide; [by apply IH|]. simpl.
  split; [by apply Forall_firsts_from|by apply IH].
Qed.

(** The distinct keys are the keys of the CPUs that bring a new key. *)
Lemma distinct_firsts_from key acc cpus :
  fold_left add_key (map key cpus) acc = acc ++ map key (firsts_from key acc cpus).
Proof.
  revert acc. induction cpus as [|c cpus IH]; intros acc; simpl.
  - by rewrite app_nil_r.
  - rewrite IH. unfold add_key. case_bool_decide; [done|].
    simpl. by rewrite <- app_assoc.
Qed.

(** A CPU that brings a new key is the first of the list with its key. *)
Lemma firsts_from_head key seen cpus c :
  c ∈ firsts_from key seen cpus →
  (key c ∉ seen) ∧ head (members key (key c) cpus) = Some c.
Proof.
  revert seen. induction cpus as [|x cpus IH]; intros seen; simpl; [by inversion 1|].
  case_bool_decide as Hx.
  - intros Hc. destruct (IH seen Hc) as [Hseen Hhead]. split; [done|].
    unfold members in *. simpl. destruct (key x =? key c) eqn:E; [|done].
    apply Z.eqb_eq in E. congruence.
  - intros Hc. apply elem_of_cons in Hc as [->|Hc].
    + split; [done|]. unfold members. simpl. by rewrite Z.eqb_refl.
    + destruct (IH _ Hc) as [Hseen Hhead]. rewrite not_elem_of_app in Hseen.
      destruct Hseen as [Hseen Hne]. split; [done|].
      unfold members in *. simpl. destruct (key x =? key c) eqn:E; [|done].
      apply Z.eqb_eq in E. exfalso. apply Hne. rewrite E. by left.
Qed.

(** X5: After a successful call the logical indices of every core are in
    strictly increasing order, and the cores are in the order of their
    first logical CPU: those first CPUs are strictly increasing too, and
    logical CPU 0 is the first index of the first core. *)
Theorem cores_in_first_seen_order (P : Platform) (d d' : CPU_DATA)
    (cs : list PhysicalCoreInfo) :
  get_core_topology P d = Some (0, d') → cores d' = Some cs →
  Forall (λ c, ascending (core_cpus c)) cs
  ∧ ∃ firsts, map (λ c, head (core_cpus c)) cs = map Some firsts
              ∧ ascending firsts
              ∧ (0 < logical_core_count d → head firsts = Some 0).
Proof.
  intros Hrun Hcs. destruct (successful_cores P d d' cs Hrun Hcs) as [-> _].
  set (key := topology_key P). set (all := seqZ 0 (logical_core_count d)). split.
  - apply Forall_forall. intros c Hc. apply list_elem_of_fmap in Hc as (k & -> & _).
    cbn. apply ascending_filter, ascending_seqZ.
  - exists (firsts_from key [] all). split; [|split].
    + unfold distinct. rewrite distinct_firsts_from, app_nil_l, !map_map.
      apply map_ext_in. intros c Hc. cbn.
      apply list_elem_of_In in Hc. by apply firsts_from_head in Hc as [_ ->].
    + apply ascending_firsts_from, ascending_seqZ.
    + intros Hpos. unfold all. rewrite seqZ_cons by lia. cbn [firsts_from].
      rewrite bool_decide_eq_false_2; [done|by inversion 1].
Qed.

Lemma cores_in_first_seen_order_witness :
  ∃ d' cs, get_core_topology four_cpus (allocated_data 4) = Some (0, d')
           ∧ cores d' = Some cs
           ∧ Forall (λ c, ascending (core_cpus c)) cs.
Proof.
  destruct (get_core_topology four_cpus (allocated_data 4)) as [[rc d']|] eqn:Hrun;
    [|vm_compute in Hrun; discriminate Hrun].
  assert (Hrc : rc = 0) by (vm_compute in Hrun; congruence). subst rc.
  destruct (cores d') as [cs|] eqn:Hcs;
    [|vm_compute in Hrun; injection Hrun as <-; discriminate Hcs].
  exists d', cs. split; [reflexivity|]. split; [exact Hcs|].
  exact (proj1 (cores_in_first_seen_order four_cpus (allocated_data 4) d' cs Hrun Hcs)).
Defined.

(** ** [get_core_topology] on Windows *)

Lemma length_filter_le (f : Z → bool) l : (length (List.filter f l) ≤ length l)%nat.
Proof. induction l as [|x l IH]; simpl; [done|]. destruct (f x); simpl; lia. Qed.

Lemma set_bits_facts mask :
  ascending (Win32.set_bits mask)
  ∧ Forall (λ b, 0 <= b < 64) (Win32.set_bits mask)
  ∧ (length (Win32.set_bits mask) ≤ 64)%nat.
Proof.
  unfold Win32.set_bits. split; [|split].
  - apply ascending_filter, ascending_seqZ.
  - apply Forall_forall. intros b Hb. apply list_elem_of_In, filter_In in Hb as [Hb _].
    apply list_elem_of_In, elem_of_seqZ in Hb. lia.
  - etrans; [apply length_filter_le|]. by rewrite length_seqZ.
Qed.

Lemma core_of_mask_fields W i mask c :
  Win32.core_of_mask W i mask = Some c → id c = i ∧ type c = CORE_TYPE_UNKNOWN.
Proof.
  unfold Win32.core_of_mask. intros H.
  destruct (for_each _ _ _) as [[ids idx]|] in H; [|done]. by injection H as <-.
Qed.

Lemma cores_of_masks_ids W i masks cs :
  Win32.cores_of_masks W i masks = Some cs →
  map id cs = seqZ i (Z.of_nat (length masks))
  ∧ Forall (λ c, type c = CORE_TYPE_UNKNOWN) cs.
Proof.
  revert i cs. induction masks as [|mask masks IH]; intros i cs H;
    cbn [Win32.cores_of_masks] in H.
  - injection H as <-. split; [reflexivity|constructor].
  - destruct (Win32.core_of_mask W i mask) as [c|] eqn:Hc; [|discriminate H].
    bind_step in H.
    destruct (Win32.cores_of_masks W (i + 1) masks) as [cs'|] eqn:Hcs; [|discriminate H].
    bind_step in H. injection H as <-.
    apply core_of_mask_fields in Hc as [Hid Hty].
    apply IH in Hcs as [Hids Htys]. split; [|constructor; assumption].
    cbn [map length]. rewrite seqZ_cons by lia. rewrite Hid, Hids.
    replace (Z.pred (Z.of_nat (S (length masks)))) with (Z.of_nat (length masks)) by lia.
    reflexivity.
Qed.

(** X6: After a successful call on Windows there is one core per record of
    the buffer, the [id] of a core is its position 0, 1, 2, ... in the
    buffer, every core has the type CORE_TYPE_UNKNOWN, and the logical
    indices of a core are the set bits of its mask in strictly increasing
    order, all below 64, so that [logical_count] is at most 64. *)
Theorem windows_cores_follow_the_records (W : Win32.Platform) (d d' : CPU_DATA)
    (cs : list PhysicalCoreInfo) :
  Win32.get_core_topology W d = Some (0, d') → cores d' = Some cs →
  physical_core_count d' = Z.of_nat (length (Win32.core_masks W))
  ∧ length cs = length (Win32.core_masks W)
  ∧ map id cs = seqZ 0 (Z.of_nat (length cs))
  ∧ map core_cpus cs = map Win32.set_bits (Win32.core_masks W)
  ∧ Forall (λ c, type c = CORE_TYPE_UNKNOWN
                 ∧ ascending (core_cpus c)
                 ∧ Forall (λ b, 0 <= b < 64) (core_cpus c)
                 ∧ 0 <= logical_count c <= 64) cs.
Proof.
  unfold Win32.get_core_topology. intros H Hcs.
  destruct (Win32.sizing_insufficient_buffer W); [|discriminate H].
  destruct (Win32.malloc_buffer W); [|discriminate H].
  destruct (Win32.filling_ok W); [|discriminate H].
  destruct (Win32.calloc_cores W); [|discriminate H]. cbn [negb] in H.
  destruct (Win32.cores_of_masks W 0 (Win32.core_masks W)) as [cs0|] eqn:Hrun;
    [|discriminate H].
  bind_step in H. injection H as <-.
  cbn [cores set_cores set_physical_core_count physical_core_count] in *.
  injection Hcs as ->.
  destruct (cores_of_masks_ids _ _ _ _ Hrun) as [Hids Htys].
  destruct (cores_of_masks_cpus _ _ _ _ Hrun) as [Hcpus Hcounts].
  assert (Hlen : length cs = length (Win32.core_masks W)).
  { apply (f_equal length) in Hcpus. rewrite !length_map in Hcpus. exact Hcpus. }
  split; [reflexivity|]. split; [exact Hlen|]. split; [rewrite Hlen; exact Hids|].
  split; [exact Hcpus|].
  apply Forall_forall. intros c Hc.
  rewrite Forall_forall in Htys. rewrite Forall_forall in Hcounts.
  assert (Hbits : ∃ mask, core_cpus c = Win32.set_bits mask).
  { apply list_elem_of_lookup in Hc as [k Hk].
    assert (Hk' : map core_cpus cs !! k = Some (core_cpus c)).
    { rewrite list_lookup_fmap, Hk. reflexivity. }
    rewrite Hcpus, list_lookup_fmap in Hk'.
    destruct (Win32.core_masks W !! k) as [mask|]; [|discriminate Hk'].
    exists mask. apply (inj Some) in Hk'. symmetry. exact Hk'. }
  destruct Hbits as [mask Hbits]. destruct (set_bits_facts mask) as (Ha & Hb & Hl).
  split; [exact (Htys c Hc)|]. rewrite Hbits. split; [exact Ha|]. split; [exact Hb|].
  rewrite (Hcounts c Hc), Hbits. lia.
Qed.

Lemma windows_cores_follow_the_records_witness :
  ∃ d' cs, Win32.get_core_topology one_group (allocated_data 4) = Some (0, d')
           ∧ cores d' = Some cs
           ∧ map id cs = [0; 1]
           ∧ map core_cpus cs = [[0; 1]; [2; 3]].
Proof.
  destruct (Win32.get_core_topology one_group (allocated_data 4)) as [[rc d']|] eqn:Hrun;
    [|vm_compute in Hrun; discriminate Hrun].
  assert (Hrc : rc = 0) by (vm_compute in Hrun; congruence). subst rc.
  destruct (cores d') as [cs|] eqn:Hcs;
    [|vm_compute in Hrun; injection Hrun as <-; discriminate Hcs].
  destruct (windows_cores_follow_the_records one_group (allocated_data 4) d' cs Hrun Hcs)
    as (_ & Hlen & Hids & Hcpus & _).
  exists d', cs. split; [reflexivity|]. split; [exact Hcs|].
  split; [rewrite Hids, Hlen; reflexivity|exact Hcpus].
Defined.

(** The collecting loop without a block: defined only if no bit is set. *)
Lemma collect_loop_null_defined mask l idx :
  List.filter (Win32.bit_set mask) l = [] →
  for_each (Win32.collect_bit mask) l (None, idx) = Some (None, idx).
Proof.
  induction l as [|b l IH]; simpl; [done|]. unfold Win32.collect_bit at 1.
  destruct (Win32.bit_set mask b); [done|]. intros H. bind_step. by apply IH.
Qed.

Lemma core_of_mask_undefined W i mask :
  Win32.core_of_mask W i mask = None
  ↔ Win32.malloc_logical_ids W i = false ∧ Win32.set_bits mask ≠ [].
Proof.
  unfold Win32.core_of_mask. rewrite count_bits_set_bits, Nat2Z.id.
  unfold Win32.set_bits. generalize (seqZ 0 64). intros l.
  destruct (Win32.malloc_logical_ids W i).
  - rewrite collect_loop_all. bind_step. split; [done|]. by intros [? _].
  - destruct (List.filter (Win32.bit_set mask) l) as [|b bs] eqn:Hf.
    + rewrite collect_loop_null_defined by done. bind_step. split; [done|]. by intros [_ ?].
    + destruct (for_each _ _ _) as [st|] eqn:Hrun.
      * apply collect_loop_null in Hrun as [Hnil _]. congruence.
      * done.
Qed.

Lemma cores_of_masks_undefined W i masks :
  Win32.cores_of_masks W i masks = None
  ↔ ∃ (j : nat) mask, masks !! j = Some mask
                      ∧ Win32.malloc_logical_ids W (i + Z.of_nat j) = false
                      ∧ Win32.set_bits mask ≠ [].
Proof.
  revert i. induction masks as [|mask masks IH]; intros i; simpl.
  - split; [done|]. by intros (j & m & Hj & _).
  - destruct (Win32.core_of_mask W i mask) as [c|] eqn:Hc; bind_step.
    + destruct (Win32.cores_of_masks W (i + 1) masks) as [cs|] eqn:Hcs; bind_step.
      * split; [done|]. intros (j & m & Hj & Hm & Hb). destruct j as [|j].
        -- injection Hj as <-. rewrite Z.add_0_r in Hm.
           assert (Win32.core_of_mask W i mask = None) by by apply core_of_mask_undefined.
           congruence.
        -- assert (Win32.cores_of_masks W (i + 1) masks = None); [|congruence].
           apply IH. exists j, m. split; [done|]. split; [|done].
           by replace (i + 1 + Z.of_nat j) with (i + Z.of_nat (S j)) by lia.
      * split; [|done]. intros _. apply IH in Hcs as (j & m & Hj & Hm & Hb).
        exists (S j), m. split; [done|]. split; [|done].
        by replace (i + Z.of_nat (S j)) with (i + 1 + Z.of_nat j) by lia.
    + split; [|done]. intros _. apply core_of_mask_undefined in Hc as [Hm Hb].
      exists 0%nat, mask. split; [done|]. by rewrite Z.add_0_r.
Qed.

(** X7: On Windows the result of [malloc] for [logical_ids] is not tested.
    When the two system calls and the other allocations succeed, the call
    stores through a null pointer exactly when [malloc] fails for a record
    whose mask has a set bit; otherwise it returns 0. *)
Theorem windows_topology_null_block (W : Win32.Platform) (d : CPU_DATA) :
  Win32.sizing_insufficient_buffer W = true → Win32.malloc_buffer W = true →
  Win32.filling_ok W = true → Win32.calloc_cores W = true →
  (Win32.get_core_topology W d = None
   ↔ ∃ (j : nat) mask, Win32.core_masks W !! j = Some mask
                       ∧ Win32.malloc_logical_ids W (Z.of_nat j) = false
                       ∧ Win32.set_bits mask ≠ [])
  ∧ (∀ rc d', Win32.get_core_topology W d = Some (rc, d') → rc = 0).
Proof.
  intros H1 H2 H3 H4. unfold Win32.get_core_topology. rewrite H1, H2, H3, H4. cbn [negb].
  pose proof (cores_of_masks_undefined W 0 (Win32.core_masks W)) as Hiff.
  destruct (Win32.cores_of_masks W 0 (Win32.core_masks W)) as [cs|]; bind_step.
  - split; [|by intros rc d' [= <- _]]. split; [done|]. intros H. by apply Hiff in H.
  - split; [|done]. split; [|done]. intros _. by apply Hiff.
Qed.

Lemma windows_topology_null_block_witness :
  ∃ d', Win32.get_core_topology one_group (allocated_data 4) = Some (0, d').
Proof.
  destruct (Win32.get_core_topology one_group (allocated_data 4)) as [[rc d']|] eqn:Hrun;
    [|vm_compute in Hrun; discriminate Hrun].
  exists d'. f_equal. f_equal.
  exact (proj2 (windows_topology_null_block one_group (allocated_data 4)
                  eq_refl eq_refl eq_refl eq_refl) rc d' Hrun).
Defined.

(** ** [populate_caches_and_freq] on Linux *)

Lemma for_each_ext {S : Type} (f g : Z → S → option S) l st :
  (∀ i s, i ∈ l → f i s = g i s) → for_each f l st = for_each g l st.
Proof.
  revert st. induction l as [|i l IH]; intros st H; simpl; [done|].
  rewrite (H i st) by by left. destruct (g i st) as [st'|]; simpl; [|done].
  apply IH. intros j s Hj. apply H. by right.
Qed.

(** Every iteration of a defined loop ran from a state with the invariant. *)
Lemma for_each_reaches {S : Type} (J : S → Prop) (body : Z → S → option S) l st st' i :
  (∀ j s s', j ∈ l → body j s = Some s' → J s → J s') →
  for_each body l st = Some st' → J st → i ∈ l →
  ∃ s s', J s ∧ body i s = Some s'.
Proof.
  revert st. induction l as [|k l IH]; intros st Hkeep Hrun Hst Hi; [by inversion Hi|].
  simpl in Hrun. destruct (body k st) as [st1|] eqn:Hb; [|done]. simpl in Hrun.
  apply elem_of_cons in Hi as [->|Hi]; [by exists st, st1|].
  apply (IH st1); [|done| |done].
  - intros j s s' Hj. apply Hkeep. by right.
  - apply (Hkeep k st st1); [by left|done|done].
Qed.

Lemma cache_loop_visited P range d :
  cache_loop P range d = for_each (cache_index P) (visited P range) d.
Proof.
  revert d. induction range as [|idx range IH]; intros d; simpl; [done|].
  destruct (cache_index_dir P idx); [|done]. simpl.
  destruct (cache_index P idx d); simpl; [apply IH|done].
Qed.

Lemma elem_of_visited P range idx :
  idx ∈ visited P range → idx ∈ range ∧ cache_index_dir P idx = true.
Proof.
  induction range as [|k range IH]; simpl; [by inversion 1|].
  destruct (cache_index_dir P k) eqn:Hk; [|by inversion 1].
  intros H. apply elem_of_cons in H as [->|H].
  - split; [by left|done].
  - destruct (IH H). split; [by right|done].
Qed.

(** What one assignment changes. *)
Lemma assign_cpu_frame level sizeKB cpuc c d d' :
  assign_cpu level sizeKB cpuc c d = Some d' →
  cpu_name d' = cpu_name d ∧ logical_core_count d' = logical_core_count d
  ∧ physical_core_count d' = physical_core_count d ∧ cores d' = cores d
  ∧ frequency d' = frequency d ∧ algorithms d' = algorithms d
  ∧ (level ≠ 1 → l1size d' = l1size d)
  ∧ (level ≠ 2 → l2size d' = l2size d)
  ∧ (level ≠ 3 → l3size d' = l3size d)
  ∧ (level = 3 → l3size d' = sizeKB)
  ∧ (level = 1 → cell (l1size d') c = Some sizeKB
                 ∧ ∀ j, j ≠ c → cell (l1size d') j = cell (l1size d) j)
  ∧ (level = 2 → cell (l2size d') c
                 = Some {| l2cache_size := sizeKB; shared_with_core_number := cpuc |}
                 ∧ ∀ j, j ≠ c → cell (l2size d') j = cell (l2size d) j).
Proof.
  unfold assign_cpu. intros H.
  destruct (level =? 1) eqn:E1; [apply Z.eqb_eq in E1; subst level|apply Z.eqb_neq in E1].
  { destruct (store (l1size d) c sizeKB) as [l1|] eqn:Hs; [|done]. injection H as <-.
    cbn. repeat split; try done. all: by apply (store_Some _ _ _ _ Hs). }
  destruct (level =? 2) eqn:E2; [apply Z.eqb_eq in E2; subst level|apply Z.eqb_neq in E2].
  { pose proof (l2_entry_written sizeKB cpuc c d d' H) as [Hthis Hother].
    destruct (update (l2size d) c (set_l2cache_size sizeKB)) as [l2|]; [|done].
    bind_step in H.
    destruct (update l2 c (set_shared_with_core_number cpuc)) as [l2'|]; [|done].
    injection H as <-. cbn. repeat split; try done. }
  destruct (level =? 3) eqn:E3; [apply Z.eqb_eq in E3; subst level|apply Z.eqb_neq in E3].
  { injection H as <-. cbn. repeat split; done. }
  injection H as <-. repeat split; done.
Qed.

(** The fields no assignment loop changes. *)
Lemma assign_cache_frame level sizeKB cpus d d' :
  assign_cache level sizeKB cpus d = Some d' →
  cpu_name d' = cpu_name d ∧ logical_core_count d' = logical_core_count d
  ∧ physical_core_count d' = physical_core_count d ∧ cores d' = cores d
  ∧ frequency d' = frequency d ∧ algorithms d' = algorithms d
  ∧ (level ≠ 1 → l1size d' = l1size d)
  ∧ (level ≠ 2 → l2size d' = l2size d)
  ∧ (level ≠ 3 → l3size d' = l3size d).
Proof.
  unfold assign_cache. intros H.
  apply (for_each_keeps
           (λ s, cpu_name s = cpu_name d ∧ logical_core_count s = logical_core_count d
                 ∧ physical_core_count s = physical_core_count d ∧ cores s = cores d
                 ∧ frequency s = frequency d ∧ algorithms s = algorithms d
                 ∧ (level ≠ 1 → l1size s = l1size d)
                 ∧ (level ≠ 2 → l2size s = l2size d)
                 ∧ (level ≠ 3 → l3size s = l3size d)) _ _ _ _) with (2 := H).
  - intros j s s' _ Hb (H1 & H2 & H3 & H4 & H5 & H6 & H7 & H8 & H9).
    apply assign_cpu_frame in Hb as (G1 & G2 & G3 & G4 & G5 & G6 & G7 & G8 & G9 & _).
    rewrite G1, G2, G3, G4, G5, G6. repeat split; try done.
    + intros Hl. rewrite G7 by done. by apply H7.
    + intros Hl. rewrite G8 by done. by apply H8.
    + intros Hl. rewrite G9 by done. by apply H9.
  - repeat split; done.
Qed.

(** X8: An index directory of level 1 writes its size into [l1size] of
    every listed CPU and changes nothing else; one of level 2 changes only
    [l2size]; one of level 3 changes only [l3size]; one of any other level,
    such as the level 0 of a level file that cannot be opened, changes
    nothing at all. *)
Theorem cache_index_touches_one_field (P : Platform) (idx : Z) (d d' : CPU_DATA) :
  cache_index P idx d = Some d' →
  cpu_name d' = cpu_name d ∧ logical_core_count d' = logical_core_count d
  ∧ physical_core_count d' = physical_core_count d ∧ cores d' = cores d
  ∧ frequency d' = frequency d ∧ algorithms d' = algorithms d
  ∧ (index_level P idx ≠ 1 → l1size d' = l1size d)
  ∧ (index_level P idx ≠ 2 → l2size d' = l2size d)
  ∧ (index_level P idx ≠ 3 → l3size d' = l3size d)
  ∧ (index_level P idx = 1 →
     ∀ c, c ∈ shared_cpus P idx → cell (l1size d') c = Some (index_sizeKB P idx)).
Proof.
  intros H. apply cache_index_Some in H as (_ & _ & H).
  destruct (assign_cache_frame _ _ _ _ _ H) as (H1 & H2 & H3 & H4 & H5 & H6 & H7 & H8 & H9).
  repeat split; try done.
  intros Hlevel c Hc. revert H. unfold assign_cache.
  apply (for_each_establishes (λ s, cell (l1size s) c = Some (index_sizeKB P idx)))
    with (i := c); [done|..].
  - intros s s' Hb. apply assign_cpu_frame in Hb. by apply Hb.
  - intros j s s' _ Hb Hs. apply assign_cpu_frame in Hb.
    destruct Hb as (_ & _ & _ & _ & _ & _ & _ & _ & _ & _ & Hl1 & _).
    destruct (Hl1 Hlevel) as [Hthis Hother].
    destruct (decide (j = c)) as [->|Hne]; [done|]. by rewrite Hother.
Qed.

Lemma cache_index_touches_one_field_witness :
  index_level four_cpus 0 = 1
  ∧ shared_cpus four_cpus 0 = [0; 1]
  ∧ ∃ d', cache_index four_cpus 0 (allocated_data 4) = Some d'
          ∧ cell (l1size d') 1 = Some 32
          ∧ l2size d' = l2size (allocated_data 4).
Proof.
  split; [reflexivity|]. split; [reflexivity|].
  destruct (cache_index four_cpus 0 (allocated_data 4)) as [d'|] eqn:Hrun;
    [|vm_compute in Hrun; discriminate Hrun].
  destruct (cache_index_touches_one_field four_cpus 0 (allocated_data 4) d' Hrun)
    as (_ & _ & _ & _ & _ & _ & _ & H2 & _ & H1).
  exists d'. split; [reflexivity|]. split.
  - refine (eq_trans (H1 eq_refl 1 _) _); [|vm_compute; reflexivity].
    apply (elem_of_seqZ 0 2). lia.
  - apply H2. vm_compute. discriminate.
Defined.

(** The clearing loop zeroes the cells of its CPU and no other. *)
Lemma clear_cpu_cells i d d' :
  clear_cpu i d = Some d' →
  (cell (l1size d') i = Some 0 ∧ cell (l2size d') i = Some zero_l2cache
   ∧ cell (frequency d') i = Some 0)
  ∧ ∀ j, j ≠ i → cell (l1size d') j = cell (l1size d) j
               ∧ cell (l2size d') j = cell (l2size d) j
               ∧ cell (frequency d') j = cell (frequency d) j.
Proof.
  unfold clear_cpu. intros H.
  destruct (store (l1size d) i 0) as [l1|] eqn:H1; [|done]. bind_step in H.
  destruct (update (l2size d) i (set_l2cache_size 0)) as [l2|] eqn:H2; [|done].
  bind_step in H.
  destruct (update l2 i (set_shared_with_core_number 0)) as [l2'|] eqn:H3; [|done].
  bind_step in H.
  destruct (store (frequency d) i 0) as [fr|] eqn:H4; [|done]. injection H as <-.
  cbn [l1size l2size frequency set_frequency set_l2size set_l1size].
  apply store_Some in H1 as [H1 H1']. apply store_Some in H4 as [H4 H4'].
  apply update_Some in H2 as (x & _ & H2 & H2').
  apply update_Some in H3 as (y & Hy & H3 & H3').
  rewrite H2 in Hy. injection Hy as <-. split; [by repeat split|].
  intros j Hj. rewrite H1', H4', H3', H2' by done. done.
Qed.

Lemma clear_loop_cells l d d' c :
  for_each clear_cpu l d = Some d' → c ∈ l →
  cell (l1size d') c = Some 0 ∧ cell (l2size d') c = Some zero_l2cache
  ∧ cell (frequency d') c = Some 0.
Proof.
  intros Hrun Hc. revert Hrun.
  apply (for_each_establishes
           (λ s, cell (l1size s) c = Some 0 ∧ cell (l2size s) c = Some zero_l2cache
                 ∧ cell (frequency s) c = Some 0)) with (i := c); [done|..].
  - intros s s' Hb. by apply clear_cpu_cells in Hb as [? _].
  - intros j s s' _ Hb (H1 & H2 & H3). apply clear_cpu_cells in Hb as [Hthis Hother].
    destruct (decide (j = c)) as [->|Hne]; [done|].
    destruct (Hother c) as (-> & -> & ->); done.
Qed.

Lemma read_frequency_frame P cpu d d' :
  read_frequency P cpu d = Some d' →
  l1size d' = l1size d ∧ l2size d' = l2size d ∧ l3size d' = l3size d.
Proof.
  unfold read_frequency. intros H.
  destruct (scaling_cur_freq P cpu) as [|contents]; [by injection H as <-|].
  destruct (fgets 32 contents) as [buf|]; [|by injection H as <-].
  destruct (store (frequency d) cpu (atoi buf ÷ 1000)) as [fr|]; [|done].
  by injection H as <-.
Qed.

Lemma read_frequency_unread P cpu d d' :
  read_frequency P cpu d = Some d' → unread (scaling_cur_freq P cpu) →
  frequency d' = frequency d.
Proof.
  unfold read_frequency. intros H [Hf|Hf]; rewrite Hf in H; by injection H as <-.
Qed.

(** The state between the three loops of a defined run. *)
Lemma populate_stages P d d' :
  populate_caches_and_freq P d = Some d' →
  ∃ d1 d2,
    for_each clear_cpu (seqZ 0 (logical_core_count d)) d = Some d1
    ∧ for_each (read_frequency P) (seqZ 0 (logical_core_count d)) (set_l3size 0 d1) = Some d2
    ∧ for_each (cache_index P) (visited P (seqZ 0 (logical_core_count d))) d2 = Some d'.
Proof.
  unfold populate_caches_and_freq. intros H.
  destruct (for_each clear_cpu (seqZ 0 (logical_core_count d)) d) as [d1|] eqn:H1;
    [|done].
  bind_step in H.
  destruct (for_each (read_frequency P) (seqZ 0 (logical_core_count d)) (set_l3size 0 d1))
    as [d2|] eqn:H2; [|done].
  bind_step in H. rewrite cache_loop_visited in H.
  exists d1, d2. split; [reflexivity|]. split; [exact H2|exact H].
Qed.

(** X9: When the level file and the size file of every visited index
    directory either cannot be opened or hold a line, after a defined run
    (with the buffer of the cache loop carried from pass to pass, whatever
    it held at first, and whatever the arrays held before) a logical CPU
    that no visited index directory of level 1 lists has an L1 size of
    zero, and one that no visited directory of level 2 lists has an L2
    entry of zero size and zero sharers. *)
Theorem uncovered_cpus_stay_zero (P : Platform) (before : list ascii) (d d' : CPU_DATA)
    (c : Z) :
  cache_files_settled P (visited P (seqZ 0 (logical_core_count d))) →
  populate_caches_and_freq_from P before d = Some d' →
  0 <= c < logical_core_count d →
  ((∀ idx, idx ∈ visited P (seqZ 0 (logical_core_count d)) →
           index_level P idx = 1 → c ∉ shared_cpus P idx) →
   cell (l1size d') c = Some 0)
  ∧ ((∀ idx, idx ∈ visited P (seqZ 0 (logical_core_count d)) →
             index_level P idx = 2 → c ∉ shared_cpus P idx) →
     cell (l2size d') c = Some zero_l2cache).
Proof.
  intros Hfiles Hrun Hc. rewrite populate_from_settled in Hrun by done.
  destruct (populate_stages P d d' Hrun) as (d1 & d2 & H1 & H2 & H3).
  assert (Hin : c ∈ seqZ 0 (logical_core_count d)) by (apply elem_of_seqZ; lia).
  destruct (clear_loop_cells _ _ _ c H1 Hin) as (Hz1 & Hz2 & _).
  assert (Hd2 : l1size d2 = l1size d1 ∧ l2size d2 = l2size d1).
  { apply (for_each_keeps (λ s, l1size s = l1size d1 ∧ l2size s = l2size d1) _ _ _ _)
      with (2 := H2); [|done].
    intros j s s' _ Hb [Ha Hb']. apply read_frequency_frame in Hb as (-> & -> & _). done. }
  destruct Hd2 as [E1 E2]. split; intros Hun.
  - apply (for_each_keeps (λ s, cell (l1size s) c = Some 0) _ _ _ _) with (2 := H3);
      [|by rewrite E1].
    intros idx s s' Hidx Hb Hs. apply cache_index_Some in Hb as (_ & _ & Hb).
    destruct (decide (index_level P idx = 1)) as [Hl|Hl].
    + apply (for_each_keeps (λ s, cell (l1size s) c = Some 0) _ _ _ _) with (2 := Hb);
        [|done].
      intros j t t' Hj Ht Hcell. apply assign_cpu_frame in Ht.
      destruct Ht as (_ & _ & _ & _ & _ & _ & _ & _ & _ & _ & Hl1 & _).
      destruct (Hl1 Hl) as [_ Hother]. rewrite Hother; [done|].
      intros ->. by apply (Hun idx Hidx Hl).
    + apply assign_cache_frame in Hb. destruct Hb as (_ & _ & _ & _ & _ & _ & Hl1 & _).
      by rewrite Hl1.
  - apply (for_each_keeps (λ s, cell (l2size s) c = Some zero_l2cache) _ _ _ _)
      with (2 := H3); [|by rewrite E2].
    intros idx s s' Hidx Hb Hs. apply cache_index_Some in Hb as (_ & _ & Hb).
    destruct (decide (index_level P idx = 2)) as [Hl|Hl].
    + apply (for_each_keeps (λ s, cell (l2size s) c = Some zero_l2cache) _ _ _ _)
        with (2 := Hb); [|done].
      intros j t t' Hj Ht Hcell. apply assign_cpu_frame in Ht.
      destruct Ht as (_ & _ & _ & _ & _ & _ & _ & _ & _ & _ & _ & Hl2).
      destruct (Hl2 Hl) as [_ Hother]. rewrite Hother; [done|].
      intros ->. by apply (Hun idx Hidx Hl).
    + apply assign_cache_frame in Hb. destruct Hb as (_ & _ & _ & _ & _ & _ & _ & Hl2 & _).
      by rewrite Hl2.
Qed.

Lemma uncovered_cpus_stay_zero_witness :
  cell (l1size earlier_capture) 3 = Some 32
  ∧ ∃ d', populate_caches_and_freq_from four_cpus (chars "7") earlier_capture = Some d'
          ∧ cell (l1size d') 3 = Some 0
          ∧ cell (l2size d') 3 = Some zero_l2cache.
Proof.
  split; [reflexivity|].
  destruct (populate_caches_and_freq_from four_cpus (chars "7") earlier_capture)
    as [d'|] eqn:Hrun; [|vm_compute in Hrun; discriminate Hrun].
  destruct (uncovered_cpus_stay_zero four_cpus (chars "7") earlier_capture d' 3) as [H1 H2];
    [apply cache_files_settled_check; vm_compute; reflexivity|exact Hrun|simpl; lia|].
  assert (Hcases : ∀ idx, idx ∈ visited four_cpus (seqZ 0 (logical_core_count earlier_capture)) →
                          3 ∉ shared_cpus four_cpus idx ∨ index_level four_cpus idx = 3).
  { intros idx Hidx. apply (elem_of_seqZ 0 4) in Hidx.
    assert (Hor : idx = 0 ∨ idx = 1 ∨ idx = 2 ∨ idx = 3) by lia.
    destruct Hor as [-> | [-> | [-> | ->]]]; [left|left|left|right; reflexivity];
      intros Hin; apply (elem_of_seqZ 0 2) in Hin; lia. }
  exists d'. split; [reflexivity|]. split.
  - apply H1. intros idx Hidx Hl. destruct (Hcases idx Hidx) as [Hn|H3]; [exact Hn|].
    rewrite Hl in H3. discriminate H3.
  - apply H2. intros idx Hidx Hl. destruct (Hcases idx Hidx) as [Hn|H3]; [exact Hn|].
    rewrite Hl in H3. discriminate H3.
Defined.

(** X10: After a defined run, whatever the array held before, the
    frequency of a logical CPU whose scaling-frequency file cannot be
    opened, or is at end of file, is zero. *)
Theorem unread_frequency_is_zero (P : Platform) (d d' : CPU_DATA) (cpu : Z) :
  populate_caches_and_freq P d = Some d' →
  0 <= cpu < logical_core_count d →
  unread (scaling_cur_freq P cpu) →
  cell (frequency d') cpu = Some 0.
Proof.
  intros Hrun Hcpu Hun. destruct (populate_stages P d d' Hrun) as (d1 & d2 & H1 & H2 & H3).
  assert (Hin : cpu ∈ seqZ 0 (logical_core_count d)) by (apply elem_of_seqZ; lia).
  destruct (clear_loop_cells _ _ _ cpu H1 Hin) as (_ & _ & Hz).
  assert (E : frequency d' = frequency d2).
  { apply (for_each_keeps (λ s, frequency s = frequency d2) _ _ _ _) with (2 := H3); [|done].
    intros j s s' _ Hb <-. by eapply cache_index_frequency. }
  rewrite E.
  apply (for_each_keeps (λ s, cell (frequency s) cpu = Some 0) _ _ _ _) with (2 := H2);
    [|done].
  intros j s s' _ Hb Hs. destruct (decide (j = cpu)) as [->|Hne].
  - by rewrite (read_frequency_unread _ _ _ _ Hb Hun).
  - rewrite <- Hs. by eapply read_frequency_other.
Qed.

Lemma unread_frequency_is_zero_witness :
  cell (frequency earlier_capture) 3 = Some 2400
  ∧ scaling_cur_freq four_cpus 3 = NoFile
  ∧ ∃ d', populate_caches_and_freq four_cpus earlier_capture = Some d'
          ∧ cell (frequency d') 3 = Some 0.
Proof.
  split; [reflexivity|]. split; [reflexivity|].
  destruct (populate_caches_and_freq four_cpus earlier_capture) as [d'|] eqn:Hrun;
    [|vm_compute in Hrun; discriminate Hrun].
  exists d'. split; [reflexivity|].
  apply (unread_frequency_is_zero four_cpus earlier_capture d' 3 Hrun).
  - simpl. lia.
  - left. reflexivity.
Defined.

(** The value of [l3size] after one assignment loop. *)
Lemma assign_cache_l3_value level sizeKB cpus d d' :
  assign_cache level sizeKB cpus d = Some d' →
  l3size d' = if level =? 3 then match cpus with [] => l3size d | _ => sizeKB end
              else l3size d.
Proof.
  intros H. destruct (level =? 3) eqn:E.
  - apply Z.eqb_eq in E. unfold assign_cache in H.
    destruct cpus as [|c cpus]; [by injection H as <-|].
    revert H. apply (for_each_establishes (λ s, l3size s = sizeKB)) with (i := c);
      [by left|..].
    + intros s s' Hb. apply assign_cpu_frame in Hb. by apply Hb.
    + intros j s s' _ Hb _. apply assign_cpu_frame in Hb. by apply Hb.
  - apply Z.eqb_neq in E. apply assign_cache_frame in H. by apply H.
Qed.

Lemma cache_index_l3 P idx d d' :
  cache_index P idx d = Some d' → l3size d' = l3_after P (l3size d) idx.
Proof.
  unfold l3_after. intros H. apply cache_index_Some in H as (_ & _ & H).
  by apply assign_cache_l3_value in H.
Qed.

Lemma cache_indexes_l3 P l d d' :
  for_each (cache_index P) l d = Some d' → l3size d' = fold_left (l3_after P) l (l3size d).
Proof.
  revert d. induction l as [|idx l IH]; intros d H; simpl in H.
  - by injection H as <-.
  - destruct (cache_index P idx d) as [d1|] eqn:H1; [|done]. simpl in H.
    rewrite (IH _ H). simpl. by rewrite (cache_index_l3 _ _ _ _ H1).
Qed.

(** X11: When the level file and the size file of every visited index
    directory either cannot be opened or hold a line, after a defined run
    (with the buffer of the cache loop carried from pass to pass, whatever
    it held at first) [l3size] is the size of the last visited index directory of level 3
    whose shared-CPU list gave at least one CPU, and zero when there is
    none: a directory of level 3 whose list is empty or cannot be opened
    does not set it. *)
Theorem l3size_is_the_last_level_3 (P : Platform) (before : list ascii) (d d' : CPU_DATA) :
  cache_files_settled P (visited P (seqZ 0 (logical_core_count d))) →
  populate_caches_and_freq_from P before d = Some d' →
  l3size d' = fold_left (l3_after P) (visited P (seqZ 0 (logical_core_count d))) 0
  ∧ ((∀ idx, idx ∈ visited P (seqZ 0 (logical_core_count d)) →
             index_level P idx ≠ 3 ∨ shared_cpus P idx = []) →
     l3size d' = 0).
Proof.
  intros Hfiles Hrun. rewrite populate_from_settled in Hrun by done.
  destruct (populate_stages P d d' Hrun) as (d1 & d2 & H1 & H2 & H3).
  assert (E : l3size d2 = 0).
  { apply (for_each_keeps (λ s, l3size s = 0) _ _ _ _) with (2 := H2); [|done].
    intros j s s' _ Hb Hs. apply read_frequency_frame in Hb as (_ & _ & ->). done. }
  pose proof (cache_indexes_l3 _ _ _ _ H3) as Hl3. rewrite E in Hl3. split; [done|].
  intros Hnone. rewrite Hl3. clear -Hnone.
  induction (visited P (seqZ 0 (logical_core_count d))) as [|idx l IH]; [done|].
  simpl. replace (l3_after P 0 idx) with 0.
  - apply IH. intros j Hj. apply Hnone. by right.
  - unfold l3_after. destruct (Hnone idx) as [Hl|Hl]; [by left| |].
    + apply Z.eqb_neq in Hl. by rewrite Hl.
    + rewrite Hl. by destruct (index_level P idx =? 3).
Qed.

Lemma l3size_is_the_last_level_3_witness :
  ∃ d', populate_caches_and_freq_from four_cpus (chars "7") (allocated_data 4) = Some d'
        ∧ l3size d' = 8192.
Proof.
  destruct (populate_caches_and_freq_from four_cpus (chars "7") (allocated_data 4))
    as [d'|] eqn:Hrun; [|vm_compute in Hrun; discriminate Hrun].
  exists d'. split; [reflexivity|].
  refine (eq_trans (proj1 (l3size_is_the_last_level_3 four_cpus (chars "7")
                             (allocated_data 4) d' _ Hrun)) _).
  - apply cache_files_settled_check. vm_compute. reflexivity.
  - vm_compute. reflexivity.
Defined.

(** Two platforms on which an index directory reads the same. *)
Lemma cache_index_agrees P Q idx d :
  stack_bytes P = stack_bytes Q →
  cache_level P idx = cache_level Q idx → cache_size P idx = cache_size Q idx →
  cache_shared_cpu_list P idx = cache_shared_cpu_list Q idx →
  strdup_list P idx = strdup_list Q idx →
  cache_index P idx d = cache_index Q idx d.
Proof.
  intros Hs Hl Hz Hc Hd.
  unfold cache_index, shared_cpus_read, index_level, index_sizeKB, index_level_read.
  by rewrite Hs, Hl, Hz, Hc, Hd.
Qed.

Lemma cache_loop_agrees P Q range d :
  stack_bytes P = stack_bytes Q →
  (∀ idx, idx ∈ range → cache_index_dir P idx = cache_index_dir Q idx) →
  (∀ idx, idx ∈ visited P range →
          cache_level P idx = cache_level Q idx ∧ cache_size P idx = cache_size Q idx
          ∧ cache_shared_cpu_list P idx = cache_shared_cpu_list Q idx
          ∧ strdup_list P idx = strdup_list Q idx) →
  cache_loop P range d = cache_loop Q range d.
Proof.
  intros Hs. revert d. induction range as [|idx range IH]; intros d Hdir Hfiles; [done|].
  simpl in *. rewrite <- (Hdir idx) by by left.
  destruct (cache_index_dir P idx) eqn:Hd; [|done].
  destruct (Hfiles idx) as (Hl & Hz & Hc & Hp); [by left|].
  rewrite <- (cache_index_agrees P Q idx d) by done.
  destruct (cache_index P idx d) as [d1|]; simpl; [|done].
  apply IH.
  - intros j Hj. apply Hdir. by right.
  - intros j Hj. apply Hfiles. by right.
Qed.

(** X12: [populate_caches_and_freq] reads the frequency files of the
    logical CPUs below N only, looks for index directories numbered below
    N only, and reads the files of a directory only if no lower-numbered
    directory is missing: two platforms that agree on those give the same
    result. *)
Theorem populate_reads_only_what_it_visits (P Q : Platform) (d : CPU_DATA) :
  (∀ cpu, 0 <= cpu < logical_core_count d → scaling_cur_freq P cpu = scaling_cur_freq Q cpu) →
  (∀ idx, 0 <= idx < logical_core_count d → cache_index_dir P idx = cache_index_dir Q idx) →
  stack_bytes P = stack_bytes Q →
  (∀ idx, idx ∈ visited P (seqZ 0 (logical_core_count d)) →
          cache_level P idx = cache_level Q idx ∧ cache_size P idx = cache_size Q idx
          ∧ cache_shared_cpu_list P idx = cache_shared_cpu_list Q idx
          ∧ strdup_list P idx = strdup_list Q idx) →
  populate_caches_and_freq P d = populate_caches_and_freq Q d.
Proof.
  intros Hfreq Hdir Hs Hfiles. unfold populate_caches_and_freq.
  destruct (for_each clear_cpu _ d) as [d1|]; [|done]. bind_step.
  rewrite (for_each_ext (read_frequency P) (read_frequency Q)).
  - destruct (for_each (read_frequency Q) _ _) as [d2|]; [|done]. bind_step.
    apply cache_loop_agrees; [done| |done].
    intros idx Hidx. apply Hdir. by apply elem_of_seqZ in Hidx.
  - intros cpu s Hcpu. unfold read_frequency. rewrite Hfreq; [done|].
    by apply elem_of_seqZ in Hcpu.
Qed.

Lemma populate_reads_only_what_it_visits_witness :
  index_level single_cpu 2 = 2 ∧ index_level single_cpu 3 = 3
  ∧ populate_caches_and_freq single_cpu (allocated_data 1)
    = populate_caches_and_freq single_cpu_index0 (allocated_data 1)
  ∧ ∃ d', populate_caches_and_freq single_cpu (allocated_data 1) = Some d'
          ∧ cell (l1size d') 0 = Some 32
          ∧ cell (l2size d') 0 = Some zero_l2cache
          ∧ l3size d' = 0.
Proof.
  split; [reflexivity|]. split; [reflexivity|].
  assert (Heq : populate_caches_and_freq single_cpu (allocated_data 1)
                = populate_caches_and_freq single_cpu_index0 (allocated_data 1)).
  { apply (populate_reads_only_what_it_visits single_cpu single_cpu_index0 (allocated_data 1)).
    - intros cpu _. reflexivity.
    - intros idx Hidx. simpl in Hidx. assert (idx = 0) as -> by lia. reflexivity.
    - reflexivity.
    - intros idx Hidx. apply (elem_of_seqZ 0 1) in Hidx. assert (idx = 0) as -> by lia.
      repeat split; reflexivity. }
  split; [exact Heq|].
  destruct (populate_caches_and_freq single_cpu (allocated_data 1)) as [d'|] eqn:Hrun;
    [|vm_compute in Hrun; discriminate Hrun].
  exists d'. split; [reflexivity|].
  vm_compute in Hrun. injection Hrun as <-. repeat split; reflexivity.
Defined.

(** ** When [populate_caches_and_freq] stays inside its arrays *)

Lemma store_inside {A : Type} (p p' : option (list A)) (n : nat) i v :
  store p i v = Some p' → (∃ l, p = Some l ∧ length l = n) →
  0 <= i < Z.of_nat n ∧ ∃ l, p' = Some l ∧ length l = n.
Proof.
  intros H (l & -> & Hn). unfold store, store_cell in H. bind_step in H.
  destruct (0 <=? i) eqn:H0; [|done].
  destruct (i <? Z.of_nat (length l)) eqn:H1; [|done].
  cbn in H. injection H as <-.
  apply Z.leb_le in H0. apply Z.ltb_lt in H1. split; [lia|].
  eexists. split; [done|]. by rewrite length_insert.
Qed.

Lemma update_inside {A : Type} (p p' : option (list A)) (n : nat) i f :
  update p i f = Some p' → (∃ l, p = Some l ∧ length l = n) →
  0 <= i < Z.of_nat n ∧ ∃ l, p' = Some l ∧ length l = n.
Proof.
  intros H (l & -> & Hn). unfold update in H. bind_step in H.
  destruct (load_cell l i) as [x|]; [|done]. bind_step in H.
  unfold store_cell in H.
  destruct (0 <=? i) eqn:H0; [|done].
  destruct (i <? Z.of_nat (length l)) eqn:H1; [|done].
  cbn in H. injection H as <-.
  apply Z.leb_le in H0. apply Z.ltb_lt in H1. split; [lia|].
  eexists. split; [done|]. by rewrite length_insert.
Qed.

(** An assignment that is defined was inside the blocks. *)
Lemma assign_cpu_inside (n : nat) level sizeKB cpuc c d d' :
  assign_cpu level sizeKB cpuc c d = Some d' → blocks_of_length n d →
  blocks_of_length n d' ∧ (level = 1 ∨ level = 2 → 0 <= c < Z.of_nat n).
Proof.
  unfold assign_cpu. intros H (H1 & H2 & Hf).
  destruct (level =? 1) eqn:E1.
  - destruct (store (l1size d) c sizeKB) as [l1|] eqn:Hs; [|done].
    bind_step in H. injection H as <-.
    destruct (store_inside _ _ n _ _ Hs H1) as [Hc H1']. split; [by split|done].
  - apply Z.eqb_neq in E1. destruct (level =? 2) eqn:E2.
    + destruct (update (l2size d) c (set_l2cache_size sizeKB)) as [l2|] eqn:Hu; [|done].
      bind_step in H.
      destruct (update l2 c (set_shared_with_core_number cpuc)) as [l2'|] eqn:Hu'; [|done].
      bind_step in H. injection H as <-.
      destruct (update_inside _ _ n _ _ Hu H2) as [Hc H2a].
      destruct (update_inside _ _ n _ _ Hu' H2a) as [_ H2b].
      split; [by split|done].
    + apply Z.eqb_neq in E2.
      split; [|intros [?|?]; done].
      destruct (level =? 3); injection H as <-; by split.
Qed.

(** An assignment inside the blocks, or of another level, is defined. *)
Lemma assign_cpu_safe (n : nat) level sizeKB cpuc c d :
  blocks_of_length n d → (level = 1 ∨ level = 2 → 0 <= c < Z.of_nat n) →
  ∃ d', assign_cpu level sizeKB cpuc c d = Some d' ∧ blocks_of_length n d'.
Proof.
  intros Hd Hc.
  destruct (decide (level = 1 ∨ level = 2)) as [Hl|Hl].
  - apply assign_cpu_defined; [done|]. by apply Hc.
  - unfold assign_cpu.
    destruct (level =? 1) eqn:E1; [apply Z.eqb_eq in E1; tauto|].
    destruct (level =? 2) eqn:E2; [apply Z.eqb_eq in E2; tauto|].
    destruct Hd as (H1 & H2 & Hf).
    destruct (level =? 3); eexists; (split; [done|]); by split.
Qed.

Lemma cache_index_keeps_blocks P (n : nat) idx d d' :
  cache_index P idx d = Some d' → blocks_of_length n d → blocks_of_length n d'.
Proof.
  intros H Hd. apply cache_index_Some in H as (_ & _ & H). unfold assign_cache in H.
  apply (for_each_keeps (blocks_of_length n) _ _ _ _) with (2 := H); [|done].
  intros c s s' _ Hb Hs. by apply (assign_cpu_inside n) in Hb as [? _].
Qed.

(** Lists that are safe keep the cache loop inside the blocks. *)
Lemma cache_indexes_safe P (n : nat) (L : Z) l d :
  L <= Z.of_nat n → (∀ idx, idx ∈ l → index_safe P L idx) →
  blocks_of_length n d →
  ∃ d', for_each (cache_index P) l d = Some d' ∧ blocks_of_length n d'.
Proof.
  intros Hn Hsafe Hd. apply for_each_defined; [|done].
  intros idx s Hidx Hs. destruct (Hsafe idx Hidx) as (Hparse & Hroom & Hin).
  rewrite cache_index_run by done. unfold assign_cache.
  apply for_each_defined; [|done].
  intros c t Hc Ht. apply assign_cpu_safe; [done|].
  intros Hlevel. specialize (Hin Hlevel c Hc). lia.
Qed.

(** X13: With the three arrays allocated for N logical CPUs, and the level
    file and the size file of every visited index directory either missing
    or holding a line, [populate_caches_and_freq] (with the buffer of the
    cache loop carried from pass to pass, whatever it held at first) is
    defined exactly when every index directory it visits gives a shared-CPU list whose parse
    has a result (no range ends at the largest [int]), of at most 256 CPUs
    (the room of [cpus]) and that, for the levels 1 and 2, names only
    logical CPUs from 0 to N-1. *)
Theorem populate_defined_iff_lists_safe (P : Platform) (before : list ascii) (d : CPU_DATA) :
  blocks_of_length (Z.to_nat (logical_core_count d)) d →
  cache_files_settled P (visited P (seqZ 0 (logical_core_count d))) →
  (is_Some (populate_caches_and_freq_from P before d)
   ↔ ∀ idx, idx ∈ visited P (seqZ 0 (logical_core_count d)) →
            index_safe P (logical_core_count d) idx).
Proof.
  intros Hd Hfiles. rewrite populate_from_settled by done.
  set (L := logical_core_count d) in *. set (n := Z.to_nat L) in *.
  assert (Hrange : ∀ i, i ∈ seqZ 0 L → 0 <= i < Z.of_nat n).
  { intros i Hi. apply elem_of_seqZ in Hi. lia. }
  destruct (for_each_defined (blocks_of_length n) clear_cpu (seqZ 0 L) d)
    as (d1 & H1 & Hd1); [|done|].
  { intros i s Hi Hs. apply clear_cpu_defined; [done|]. by apply Hrange. }
  destruct (for_each_defined (blocks_of_length n) (read_frequency P) (seqZ 0 L)
              (set_l3size 0 d1)) as (d2 & H2 & Hd2); [|done|].
  { intros i s Hi Hs. apply read_frequency_defined; [done|]. by apply Hrange. }
  assert (Hpop : populate_caches_and_freq P d
                 = for_each (cache_index P) (visited P (seqZ 0 L)) d2).
  { unfold populate_caches_and_freq. fold L. rewrite H1. bind_step. rewrite H2. bind_step.
    apply cache_loop_visited. }
  rewrite Hpop. split.
  - intros [d' Hrun] idx Hidx.
    destruct (for_each_reaches (blocks_of_length n) (cache_index P)
                (visited P (seqZ 0 L)) d2 d' idx)
      as (s & s' & Hs & Hb); [|done|done|done|].
    { intros j t t' _. apply cache_index_keeps_blocks. }
    apply cache_index_Some in Hb as (Hparse & Hroom & Hb).
    split; [done|]. split; [done|].
    intros Hlevel c Hc. unfold assign_cache in Hb.
    destruct (for_each_reaches (blocks_of_length n)
                (assign_cpu (index_level P idx) (index_sizeKB P idx)
                   (Z.of_nat (length (shared_cpus P idx))))
                (shared_cpus P idx) s s' c)
      as (t & t' & Ht & Hbc); [|done|done|done|].
    { intros j u u' _ Hu Hbu. by apply (assign_cpu_inside n) in Hu as [? _]. }
    apply (assign_cpu_inside n) in Hbc as [_ Hin]; [|done].
    specialize (Hin Hlevel). lia.
  - intros Hsafe.
    destruct (cache_indexes_safe P n L (visited P (seqZ 0 L)) d2) as (d' & -> & _);
      [|done|done|done].
    destruct (decide (0 <= L)); lia.
Qed.

Lemma populate_defined_iff_lists_safe_witness :
  shared_cpus sparse_cpu_numbers 0 = [0; 4]
  ∧ populate_caches_and_freq_from sparse_cpu_numbers (chars "7") (allocated_data 2) = None.
Proof.
  split; [reflexivity|].
  destruct (populate_caches_and_freq_from sparse_cpu_numbers (chars "7") (allocated_data 2))
    as [d'|] eqn:Hrun; [|reflexivity].
  exfalso.
  assert (Hd : blocks_of_length (Z.to_nat (logical_core_count (allocated_data 2)))
                 (allocated_data 2)).
  { repeat split; eexists; (split; [reflexivity|reflexivity]). }
  assert (Hfiles : cache_files_settled sparse_cpu_numbers
                     (visited sparse_cpu_numbers
                        (seqZ 0 (logical_core_count (allocated_data 2))))).
  { apply cache_files_settled_check. vm_compute. reflexivity. }
  pose proof (proj1 (populate_defined_iff_lists_safe sparse_cpu_numbers (chars "7")
                       (allocated_data 2) Hd Hfiles)) as Hsafe.
  rewrite Hrun in Hsafe. destruct (Hsafe (mk_is_Some _ _ eq_refl) 0) as (_ & _ & Hin).
  - left.
  - specialize (Hin (or_introl eq_refl) 4). simpl in Hin.
    destruct Hin as [_ Hin]; [right; left|]. discriminate Hin.
Defined.

(** ** The vendor string and the vendor gates *)

Lemma same_chars_eq a b : same_chars a b = true ↔ a = b.
Proof.
  revert b. induction a as [|x a IH]; intros [|y b]; simpl; try done.
  rewrite andb_true_iff, Ascii.eqb_eq, IH. split.
  - by intros [-> ->].
  - intros H. by injection H.
Qed.

Lemma c_string_idem bytes : c_string (c_string bytes) = c_string bytes.
Proof.
  induction bytes as [|c bytes IH]; simpl; [done|].
  destruct (is_char 0 c) eqn:E; simpl; [done|]. by rewrite E, IH.
Qed.

(** A C string as long as its array is the whole array. *)
Lemma c_string_whole bytes t :
  length bytes = length t → c_string bytes = t → bytes = t.
Proof.
  revert t. induction bytes as [|c bytes IH]; intros [|y t]; simpl; try done.
  intros Hlen. destruct (is_char 0 c); [done|].
  intros H. injection H as -> H. f_equal. apply IH; [lia|done].
Qed.

Lemma byte_of_int r k :
  0 <= k → Z.land (Z.shiftr r (8 * k)) 255 = (r / 2 ^ (8 * k)) mod 256.
Proof.
  intros Hk. rewrite Z.shiftr_div_pow2 by lia.
  change 255 with (Z.ones 8). by rewrite Z.land_ones by lia.
Qed.

(** [memcpy] of an [int] sees its 32-bit pattern and nothing else. *)
Lemma int_bytes_pattern r r' :
  int_bytes r = int_bytes r' ↔ r mod 2 ^ 32 = r' mod 2 ^ 32.
Proof.
  unfold int_bytes. cbn [map].
  rewrite !byte_of_int by lia.
  change (2 ^ (8 * 0)) with 1. change (2 ^ (8 * 1)) with 256.
  change (2 ^ (8 * 2)) with 65536. change (2 ^ (8 * 3)) with 16777216.
  change (2 ^ 32) with 4294967296.
  assert (Hinj : ∀ x y, 0 <= x < 256 → 0 <= y < 256 →
                        ascii_of_N (Z.to_N x) = ascii_of_N (Z.to_N y) → x = y).
  { intros x y Hx Hy H. apply (f_equal N_of_ascii) in H.
    rewrite !N_ascii_embedding in H by lia. lia. }
  split.
  - intros H. injection H as H0 H1 H2 H3.
    apply Hinj in H0, H1, H2, H3; try (apply Z.mod_pos_bound; lia).
    revert H0 H1 H2 H3. clear. intros. Z.div_mod_to_equations. lia.
  - intros H.
    assert (E : ∀ m, In m [1; 256; 65536; 16777216] → (r / m) mod 256 = (r' / m) mod 256).
    { revert H. clear. intros H m Hm. simpl in Hm.
      destruct Hm as [<-|[<-|[<-|[<-|[]]]]]; Z.div_mod_to_equations; lia. }
    rewrite !E by (simpl; tauto). done.
Qed.

Lemma vendor_spelled (P : Platform) (t : list ascii) (x y z : Z) :
  length t = 12%nat → c_string t = t →
  int_bytes x ++ int_bytes y ++ int_bytes z = t →
  0 <= x < 2 ^ 32 → 0 <= y < 2 ^ 32 → 0 <= z < 2 ^ 32 →
  strcmp_eq (get_cpu_vendor P) t = true ↔ leaf0_registers P = (x, y, z).
Proof.
  intros Hlen Ht <- Hx Hy Hz. unfold strcmp_eq, get_cpu_vendor, leaf0_registers.
  destruct (cpu_cpuid P 0 0) as [[[a b] c] d].
  rewrite c_string_idem, Ht, same_chars_eq. split.
  - intros H. apply c_string_whole in H; [|done].
    assert (Hb : int_bytes b = int_bytes x ∧ int_bytes d = int_bytes y
                 ∧ int_bytes c = int_bytes z).
    { apply app_inj_1 in H as [Hb H]; [|done].
      apply app_inj_1 in H as [Hd Hc]; [|done]. done. }
    destruct Hb as (Hb & Hd & Hc).
    apply int_bytes_pattern in Hb, Hd, Hc.
    rewrite Hb, Hd, Hc, !Z.mod_small by done. done.
  - intros H. injection H as Hb Hd Hc.
    rewrite <- (Z.mod_small x (2 ^ 32)) in Hb by done.
    rewrite <- (Z.mod_small y (2 ^ 32)) in Hd by done.
    rewrite <- (Z.mod_small z (2 ^ 32)) in Hc by done.
    apply int_bytes_pattern in Hb, Hd, Hc. rewrite Hb, Hd, Hc. exact Ht.
Qed.

(** X14: The vendor tests read leaf 0 of CPUID and nothing else: the
    vendor compares equal to "GenuineIntel" exactly when EBX, EDX and ECX
    hold 0x756e6547, 0x49656e69 and 0x6c65746e, and to "AuthenticAMD"
    exactly when they hold 0x68747541, 0x69746e65 and 0x444d4163.  Hence
    an Intel-only flag is set only with the first triple, an AMD-only flag
    only with the second, and never one of each. *)
Theorem vendor_gates_follow_leaf_0 (P : Platform) :
  let alg := get_supported_algorithms P in
  (strcmp_eq (get_cpu_vendor P) (chars "GenuineIntel") = true
   ↔ leaf0_registers P = (0x756e6547, 0x49656e69, 0x6c65746e))
  ∧ (strcmp_eq (get_cpu_vendor P) (chars "AuthenticAMD") = true
     ↔ leaf0_registers P = (0x68747541, 0x69746e65, 0x444d4163))
  ∧ (true ∈ intel_only alg → leaf0_registers P = (0x756e6547, 0x49656e69, 0x6c65746e))
  ∧ (true ∈ amd_only alg → leaf0_registers P = (0x68747541, 0x69746e65, 0x444d4163))
  ∧ ¬ (true ∈ intel_only alg ∧ true ∈ amd_only alg).
Proof.
  intros alg.
  assert (Hi := vendor_spelled P (chars "GenuineIntel") 0x756e6547 0x49656e69 0x6c65746e
                  eq_refl eq_refl eq_refl ltac:(lia) ltac:(lia) ltac:(lia)).
  assert (Ha := vendor_spelled P (chars "AuthenticAMD") 0x68747541 0x69746e65 0x444d4163
                  eq_refl eq_refl eq_refl ltac:(lia) ltac:(lia) ltac:(lia)).
  assert (Hgi : true ∈ intel_only alg →
                strcmp_eq (get_cpu_vendor P) (chars "GenuineIntel") = true).
  { subst alg. unfold get_supported_algorithms, intel_only.
    destruct (cpu_cpuid P 1 0) as [[[? ?] ?] ?].
    destruct (cpu_cpuid P 7 0) as [[[? ?] ?] ?].
    destruct (cpu_cpuid P 0x80000001 0) as [[[? ?] ?] ?].
    cbn [POPCNT PCLMULQDQ AES FMA F16C XSAVE OSXSAVE RDRAND RDSEED ADX MPX PREFETCHWT1].
    destruct (strcmp_eq (get_cpu_vendor P) (chars "GenuineIntel")); [done|].
    intros H. repeat (apply elem_of_cons in H as [H|H]; [discriminate H|]).
    by apply elem_of_nil in H. }
  assert (Hga : true ∈ amd_only alg →
                strcmp_eq (get_cpu_vendor P) (chars "AuthenticAMD") = true).
  { subst alg. unfold get_supported_algorithms, amd_only.
    destruct (cpu_cpuid P 1 0) as [[[? ?] ?] ?].
    destruct (cpu_cpuid P 7 0) as [[[? ?] ?] ?].
    destruct (cpu_cpuid P 0x80000001 0) as [[[? ?] ?] ?].
    cbn [SSE4A XOP FMA4 THREEDNOW_PLUS].
    destruct (strcmp_eq (get_cpu_vendor P) (chars "AuthenticAMD")); [done|].
    intros H. repeat (apply elem_of_cons in H as [H|H]; [discriminate H|]).
    by apply elem_of_nil in H. }
  split; [exact Hi|]. split; [exact Ha|].
  split; [intros H; apply Hi, Hgi, H|].
  split; [intros H; apply Ha, Hga, H|].
  intros [H1 H2]. apply Hgi, Hi in H1. apply Hga, Ha in H2.
  rewrite H1 in H2. discriminate H2.
Qed.

Lemma vendor_gates_follow_leaf_0_witness :
  leaf0_registers four_cpus = (0x68747541, 0x69746e65, 0x444d4163)
  ∧ true ∈ amd_only (get_supported_algorithms four_cpus)
  ∧ true ∉ intel_only (get_supported_algorithms four_cpus).
Proof.
  split; [reflexivity|].
  assert (Hamd : true ∈ amd_only (get_supported_algorithms four_cpus)) by (vm_compute; left).
  split; [exact Hamd|].
  intros Hintel.
  exact (proj2 (proj2 (proj2 (proj2 (vendor_gates_follow_leaf_0 four_cpus))))
           (conj Hintel Hamd)).
Defined.

(** ** Sizes and lists read from text *)

(** The size found behind a leading number. *)
Lemma cache_size_KB_tail ds rest :
  numeral ds = true → stops rest = true →
  cache_size_KB (ds ++ rest)
  = if mega rest then wrap32 (number ds * 1024) else number ds.
Proof.
  intros Hds Hrest. unfold cache_size_KB, atoi.
  rewrite scan_int_numeral by done.
  fold (mega (ds ++ rest)).
  by rewrite mega_app, (digits_no_mega _ (numeral_digits _ Hds))
    by by apply numeral_no_nul.
Qed.

(** X15: The size in KiB is the leading decimal number of the buffer,
    times 1024 when an 'M' or an 'm' stands anywhere after it and before
    the first NUL byte (for a product that fits an [int]), and unchanged
    otherwise: every other unit letter is ignored, and so is what follows
    a NUL byte.  A buffer that does not start with a number gives zero. *)
Theorem cache_size_KB_any_tail (ds rest buf : list ascii) :
  (numeral ds = true → stops rest = true →
   (mega rest = true → number ds * 1024 < 2 ^ 31) →
   cache_size_KB (ds ++ rest)
   = if mega rest then number ds * 1024 else number ds)
  ∧ (scan_int buf = None → cache_size_KB buf = 0).
Proof.
  split.
  - intros Hds Hrest Hfit. rewrite cache_size_KB_tail by done.
    destruct (mega rest); [|done].
    pose proof (number_nonneg_from ds 0 (numeral_digits _ Hds) ltac:(lia)) as Hge.
    fold (number ds) in Hge. apply wrap32_id. unfold in_int.
    specialize (Hfit eq_refl). lia.
  - intros H. unfold cache_size_KB, atoi. rewrite H.
    by destruct (strchr buf 77 || strchr buf 109).
Qed.

Lemma cache_size_KB_any_tail_witness :
  cache_size_KB (chars "1G
") = 1
  ∧ cache_size_KB (chars "512K (12M total)") = 524288
  ∧ cache_size_KB (chars "32" ++ [ascii_of_nat 0] ++ chars "M") = 32
  ∧ cache_size_KB (chars "unknown") = 0.
Proof.
  pose proof (λ ds rest, proj1 (cache_size_KB_any_tail ds rest [])) as Hnum.
  split; [refine (Hnum (chars "1") (chars "G
") eq_refl eq_refl _); discriminate|].
  split; [refine (Hnum (chars "512") (chars "K (12M total)") eq_refl eq_refl _);
          intros _; reflexivity|].
  split; [refine (Hnum (chars "32") ([ascii_of_nat 0] ++ chars "M") eq_refl eq_refl _);
          discriminate|].
  exact (proj2 (cache_size_KB_any_tail [] [] (chars "unknown")) eq_refl).
Defined.

Lemma take_line_whole n ds :
  forallb isdigit ds = true → (length ds < n)%nat →
  take_line n (ds ++ chars "
") = ds ++ chars "
".
Proof.
  revert n. induction ds as [|c ds IH]; intros n Hds Hn; cbn [length forallb app] in *.
  - destruct n; [lia|done].
  - destruct n; [lia|]. apply andb_true_iff in Hds as [Hc Hds].
    cbn [take_line].
    assert (is_char newline c = false) as ->.
    { unfold is_char, isdigit, newline in *. apply andb_true_iff in Hc as [Hc _].
      apply Z.leb_le in Hc. apply Z.eqb_neq. lia. }
    f_equal. apply IH; [done|lia].
Qed.

(** X16: The level file and the size file of an index directory are read
    through one buffer and the result of [fgets] is not looked at: when the
    level file holds a number and the size file opens but is at end of
    file, the size is read from the text of the level, so the size
    recorded for the directory is its level. *)
Theorem empty_size_file_gives_the_level (P : Platform) (idx : Z) (ds : list ascii) :
  cache_level P idx = File (ds ++ chars "
") →
  numeral ds = true → (length ds < 63)%nat →
  cache_size P idx = File [] →
  index_level P idx = number ds ∧ index_sizeKB P idx = number ds.
Proof.
  intros Hlevel Hds Hlen Hsize.
  assert (Hbuf : index_level_read P idx = (number ds, ds ++ chars "
")).
  { unfold index_level_read, read_int_file. rewrite Hlevel.
    unfold fgets_into, fgets.
    destruct (ds ++ chars "
") as [|c l] eqn:E; [by destruct ds|]. rewrite <- E.
    change (64 - 1)%nat with 63%nat.
    rewrite take_line_whole by eauto using numeral_digits. simpl.
    unfold atoi. by rewrite scan_int_numeral. }
  unfold index_level, index_sizeKB. rewrite Hbuf, Hsize. split; [done|].
  simpl. apply (cache_size_KB_tail ds (chars "
")); done.
Qed.

Lemma empty_size_file_gives_the_level_witness :
  index_level empty_size_file 0 = 3 ∧ index_sizeKB empty_size_file 0 = 3
  ∧ l3size <$> populate_caches_and_freq empty_size_file (allocated_data 1) = Some 3.
Proof.
  destruct (empty_size_file_gives_the_level empty_size_file 0 (chars "3")
              eq_refl eq_refl ltac:(simpl; lia) eq_refl) as [Hl Hs].
  split; [exact Hl|]. split; [exact Hs|]. vm_compute. reflexivity.
Defined.

Lemma strsep_tokens_not_nil s : strsep_tokens s ≠ [].
Proof.
  destruct s as [|c s]; simpl; [done|].
  destruct (is_char comma c); [done|]. by destruct (strsep_tokens s).
Qed.

(** Every comma ends a token, whatever stands around it. *)
Lemma strsep_tokens_app s t :
  strsep_tokens (s ++ chars "," ++ t) = strsep_tokens s ++ strsep_tokens t.
Proof.
  change (chars "," ++ t) with (","%char :: t).
  induction s as [|c s IH]; simpl; [done|].
  destruct (is_char comma c); [by rewrite IH|].
  rewrite IH. pose proof (strsep_tokens_not_nil s) as Hs.
  by destruct (strsep_tokens s).
Qed.

Lemma scan_int_no_digit s :
  forallb (λ c, negb (isdigit c)) s = true → scan_int s = None.
Proof.
  intros H. unfold scan_int.
  assert (Hskip : forallb (λ c, negb (isdigit c)) (skip_space s) = true).
  { induction s as [|c s IH]; simpl in *; [done|].
    apply andb_true_iff in H as [Hc Hs].
    destruct (isspace c); [by apply IH|]. simpl. by rewrite Hc, Hs. }
  destruct (skip_space s) as [|c t]; [done|]. simpl in Hskip.
  apply andb_true_iff in Hskip as [Hc Ht]. apply negb_true_iff in Hc.
  assert (Hfirst : ∀ u, forallb (λ c, negb (isdigit c)) u = true →
                        match u with
                        | c :: _ => match digit_of c with Some _ => false | None => true end
                        | [] => true
                        end = true).
  { intros [|x u]; simpl; [done|]. intros Hu. apply andb_true_iff in Hu as [Hx _].
    apply negb_true_iff in Hx. by rewrite (digit_of_not_isdigit _ Hx). }
  destruct (is_char dash c).
  - specialize (Hfirst t Ht). destruct t as [|x u]; [done|]. by destruct (digit_of x).
  - destruct (is_char plus c).
    + specialize (Hfirst t Ht). destruct t as [|x u]; [done|]. by destruct (digit_of x).
    + by rewrite (digit_of_not_isdigit _ Hc).
Qed.

Lemma tokens_without_digits s :
  forallb (λ c, negb (isdigit c)) s = true →
  Forall (λ tok, forallb (λ c, negb (isdigit c)) tok = true) (strsep_tokens s).
Proof.
  induction s as [|c s IH]; simpl; intros H.
  - by repeat constructor.
  - apply andb_true_iff in H as [Hc Hs]. specialize (IH Hs).
    destruct (is_char comma c); [by constructor|].
    destruct (strsep_tokens s) as [|t ts]; [by repeat constructor; simpl; rewrite Hc|].
    inversion IH as [|? ? Ht Hts]; subst. constructor; [|done]. simpl. by rewrite Hc, Ht.
Qed.

Lemma tokens_cpus_app a b :
  tokens_cpus (a ++ b)
  = (l1 ← tokens_cpus a; l2 ← tokens_cpus b; Some (l1 ++ l2)).
Proof.
  induction a as [|tok a IH]; simpl.
  - by destruct (tokens_cpus b).
  - destruct (token_cpus tok) as [l|]; simpl; [|done]. rewrite IH.
    destruct (tokens_cpus a) as [la|]; simpl; [|done].
    destruct (tokens_cpus b) as [lb|]; simpl; [|done]. by rewrite app_assoc.
Qed.

Lemma c_string_keeps (Q : ascii → bool) s :
  forallb Q s = true → forallb Q (c_string s) = true.
Proof.
  induction s as [|c s IH]; simpl; [done|]. intros H.
  apply andb_true_iff in H as [Hc Hs]. destruct (is_char 0 c); [done|].
  simpl. by rewrite Hc, IH.
Qed.

(** X17: [parse_shared_cpu_list] treats the pieces around a comma
    separately, whatever digits and words they hold: for a part before
    the comma that holds no NUL byte (the copy [strdup] makes ends at the
    first one), the call on a string with a comma has a result exactly
    when the calls on the part before it and on the part after it have one
    (no range ends at the largest [int]), and the CPUs are then those of
    the first part followed by those of the second.  A string without any
    digit (an empty buffer, a lone newline, words) stores nothing. *)
Theorem parse_shared_cpu_list_at_commas (dup_ok : bool) (s t : list ascii) :
  (no_nul s = true →
   parse_shared_cpu_list dup_ok (s ++ chars "," ++ t)
   = (l1 ← parse_shared_cpu_list dup_ok s;
      l2 ← parse_shared_cpu_list dup_ok t;
      Some (l1 ++ l2)))
  ∧ (forallb (λ c, negb (isdigit c)) s = true →
     parse_shared_cpu_list dup_ok s = Some []).
Proof.
  unfold parse_shared_cpu_list, strdup. destruct dup_ok; [|done]. split.
  - intros Hs. rewrite c_string_app_no_nul, (c_string_no_nul s) by done.
    change (c_string (chars "," ++ t)) with (chars "," ++ c_string t).
    by rewrite strsep_tokens_app, tokens_cpus_app.
  - intros H. apply (c_string_keeps (λ c, negb (isdigit c))) in H.
    apply tokens_without_digits in H.
    induction H as [|tok toks Htok _ IH]; [done|]. simpl. rewrite IH.
    unfold token_cpus, sscanf_d_dash_d, sscanf_d.
    by rewrite (scan_int_no_digit tok Htok).
Qed.

Lemma parse_shared_cpu_list_at_commas_witness :
  parse_shared_cpu_list true (chars "0-1,,x,7-6,4
") = Some [0; 1; 4]
  ∧ parse_shared_cpu_list true (chars "0-2147483647,4") = None
  ∧ parse_shared_cpu_list true (chars "-,
") = Some [].
Proof.
  split; [|split].
  - refine (eq_trans (proj1 (parse_shared_cpu_list_at_commas true (chars "0-1,,x,7-6")
                               (chars "4
")) eq_refl) _).
    vm_compute. reflexivity.
  - refine (eq_trans (proj1 (parse_shared_cpu_list_at_commas true (chars "0-2147483647")
                               (chars "4")) eq_refl) _).
    vm_compute. reflexivity.
  - exact (proj2 (parse_shared_cpu_list_at_commas true (chars "-,
") []) eq_refl).
Defined.

(** ** The brand string *)

(** A C string is the part of its array before the first NUL. *)
Lemma c_string_cut bytes :
  (length (c_string bytes) ≤ length bytes)%nat
  ∧ (∀ j c, c_string bytes !! j = Some c → bytes !! j = Some c ∧ code c ≠ 0)
  ∧ ((length (c_string bytes) < length bytes)%nat →
     ∃ c, bytes !! length (c_string bytes) = Some c ∧ code c = 0).
Proof.
  induction bytes as [|x bytes (IH1 & IH2 & IH3)]; simpl.
  - split; [done|]. split; [by intros j c H|lia].
  - destruct (is_char 0 x) eqn:E; simpl.
    + split; [lia|]. split; [by intros j c H|].
      intros _. exists x. split; [done|]. by apply Z.eqb_eq in E.
    + split; [lia|]. split.
      * intros [|j] c H; simpl in *; [|by apply IH2].
        injection H as <-. split; [done|]. by apply Z.eqb_neq in E.
      * intros H. apply IH3. lia.
Qed.

Lemma code_byte_of_int r k :
  0 <= k →
  code (ascii_of_N (Z.to_N (Z.land (Z.shiftr r (8 * k)) 255))) = (r / 2 ^ (8 * k)) mod 256.
Proof.
  intros Hk. rewrite byte_of_int by done. unfold code.
  pose proof (Z.mod_pos_bound (r / 2 ^ (8 * k)) 256 ltac:(lia)) as Hb.
  rewrite N_ascii_embedding by lia. lia.
Qed.

Lemma int_bytes_lookup r (i : nat) c :
  int_bytes r !! i = Some c → code c = (r / 2 ^ (8 * Z.of_nat i)) mod 256.
Proof.
  unfold int_bytes. cbn [map]. intros H.
  destruct i as [|[|[|[|i]]]]; cbn [lookup list_lookup] in H;
    [apply (inj Some) in H; subst c; apply code_byte_of_int; lia ..|discriminate H].
Qed.

Lemma regs_bytes_lookup r (j : nat) c :
  regs_bytes r !! j = Some c →
  (j < 16)%nat ∧ code c = (register r (j / 4) / 2 ^ (8 * Z.of_nat (j mod 4))) mod 256.
Proof.
  destruct r as [[[a b] c0] d]. unfold regs_bytes, register. intros H.
  assert (Hj : (j < 16)%nat).
  { apply lookup_lt_Some in H. by rewrite !length_app in H. }
  split; [done|].
  destruct (decide (j < 4)%nat).
  { rewrite lookup_app_l in H by done. apply int_bytes_lookup in H.
    by rewrite (Nat.div_small j 4), (Nat.mod_small j 4) by lia. }
  rewrite lookup_app_r in H by (simpl; lia). change (length (int_bytes a)) with 4%nat in H.
  destruct (decide (j < 8)%nat).
  { rewrite lookup_app_l in H by (simpl; lia). apply int_bytes_lookup in H.
    replace (j / 4)%nat with 1%nat by (apply Nat.div_unique with (j - 4)%nat; lia).
    replace (j mod 4)%nat with (j - 4)%nat by (apply Nat.mod_unique with 1%nat; lia).
    exact H. }
  rewrite lookup_app_r in H by (simpl; lia). change (length (int_bytes b)) with 4%nat in H.
  destruct (decide (j < 12)%nat).
  { rewrite lookup_app_l in H by (simpl; lia). apply int_bytes_lookup in H.
    replace (j / 4)%nat with 2%nat by (apply Nat.div_unique with (j - 8)%nat; lia).
    replace (j mod 4)%nat with (j - 4 - 4)%nat by (apply Nat.mod_unique with 2%nat; lia).
    exact H. }
  rewrite lookup_app_r in H by (simpl; lia). change (length (int_bytes c0)) with 4%nat in H.
  apply int_bytes_lookup in H.
  replace (j / 4)%nat with 3%nat by (apply Nat.div_unique with (j - 12)%nat; lia).
  replace (j mod 4)%nat with (j - 4 - 4 - 4)%nat by (apply Nat.mod_unique with 3%nat; lia).
  exact H.
Qed.

(** X18: [get_cpu_brand] answers 203 and leaves the name alone when its
    block is refused; otherwise it answers 0 and the name is the text of
    the 48 bytes that the leaves 0x80000002 to 0x80000004 give, taken in
    the order EAX, EBX, ECX, EDX with the low byte of a register first,
    up to the first zero byte: at most 48 characters, none of them NUL. *)
Theorem brand_string_layout (P : Platform) (name : option (list ascii)) :
  (malloc_brand P = false ∧ get_cpu_brand P name = (203, name))
  ∨ (malloc_brand P = true
     ∧ ∃ s, get_cpu_brand P name = (0, Some s)
            ∧ (length s ≤ 48)%nat
            ∧ (∀ j c, s !! j = Some c → code c ≠ 0 ∧ code c = brand_byte P j)
            ∧ ((length s < 48)%nat → brand_byte P (length s) = 0)).
Proof.
  unfold get_cpu_brand. destruct (malloc_brand P); [right|by left].
  split; [done|]. eexists. split; [done|].
  set (bytes := concat _).
  assert (Hlen : length bytes = 48%nat).
  { subst bytes. cbn [map concat].
    destruct (cpu_cpuid P (0x80000002 + 0) 0) as [[[? ?] ?] ?].
    destruct (cpu_cpuid P (0x80000002 + 1) 0) as [[[? ?] ?] ?].
    destruct (cpu_cpuid P (0x80000002 + 2) 0) as [[[? ?] ?] ?]. done. }
  assert (Hbyte : ∀ j c, bytes !! j = Some c → code c = brand_byte P j).
  { intros j c H. subst bytes. cbn [map concat] in H. rewrite app_nil_r in H.
    assert (Hr : ∀ r, length (regs_bytes r) = 16%nat) by by intros [[[? ?] ?] ?].
    unfold brand_byte.
    destruct (decide (j < 16)%nat) as [H0|H0].
    { rewrite lookup_app_l in H by (rewrite Hr; lia).
      apply regs_bytes_lookup in H as [_ ->].
      rewrite (Nat.div_small j 16), (Nat.mod_small j 16) by lia. done. }
    rewrite lookup_app_r in H by (rewrite Hr; lia). rewrite Hr in H.
    destruct (decide (j < 32)%nat) as [H1|H1].
    { rewrite lookup_app_l in H by (rewrite Hr; lia).
      apply regs_bytes_lookup in H as [_ ->].
      replace (j / 16)%nat with 1%nat by (apply Nat.div_unique with (j - 16)%nat; lia).
      replace (j mod 16)%nat with (j - 16)%nat
        by (apply Nat.mod_unique with 1%nat; lia).
      replace ((j - 16) mod 4)%nat with (j mod 4)%nat; [done|].
      replace j with ((j - 16) + 4 * 4)%nat at 1 by lia.
      by rewrite Nat.Div0.mod_add. }
    rewrite lookup_app_r in H by (rewrite Hr; lia). rewrite Hr in H.
    apply regs_bytes_lookup in H as [Hj ->].
    replace (j / 16)%nat with 2%nat by (apply Nat.div_unique with (j - 32)%nat; lia).
    replace (j mod 16)%nat with (j - 16 - 16)%nat
      by (apply Nat.mod_unique with 2%nat; lia).
    replace ((j - 16 - 16) mod 4)%nat with (j mod 4)%nat; [done|].
    replace j with ((j - 16 - 16) + 8 * 4)%nat at 1 by lia.
    by rewrite Nat.Div0.mod_add. }
  destruct (c_string_cut bytes) as (H1 & H2 & H3). rewrite Hlen in *.
  split; [done|]. split.
  - intros j c H. apply H2 in H as [H Hc]. split; [done|]. by apply Hbyte.
  - intros H. destruct (H3 H) as (c & Hc & Hz). apply Hbyte in Hc. by rewrite <- Hc.
Qed.

Lemma brand_string_layout_witness :
  ∃ s, get_cpu_brand short_brand None = (0, Some s)
       ∧ (length s ≤ 48)%nat
       ∧ s = chars "CPU0"
       ∧ brand_byte short_brand (length s) = 0.
Proof.
  destruct (brand_string_layout short_brand None) as [[Hm _]|(_ & s & Hs & Hlen & _ & Hend)];
    [discriminate Hm|].
  exists s. split; [exact Hs|]. split; [exact Hlen|].
  assert (E : s = chars "CPU0") by (vm_compute in Hs; injection Hs as <-; reflexivity).
  split; [exact E|]. apply Hend. rewrite E. simpl. lia.
Defined.

(** ** The statements after the brand string *)

Lemma clear_cpu_outside i d d' : clear_cpu i d = Some d' → same_outside_caches d d'.
Proof.
  unfold clear_cpu. intros H.
  destruct (store (l1size d) i 0) as [l1|]; [|done]. bind_step in H.
  destruct (update (l2size d) i (set_l2cache_size 0)) as [l2|]; [|done]. bind_step in H.
  destruct (update l2 i (set_shared_with_core_number 0)) as [l2'|]; [|done]. bind_step in H.
  destruct (store (frequency d) i 0) as [fr|]; [|done]. by injection H as <-.
Qed.

Lemma read_frequency_outside P cpu d d' :
  read_frequency P cpu d = Some d' → same_outside_caches d d'.
Proof.
  unfold read_frequency. intros H.
  destruct (scaling_cur_freq P cpu) as [|contents]; [by injection H as <-|].
  destruct (fgets 32 contents) as [buf|]; [|by injection H as <-].
  destruct (store (frequency d) cpu (atoi buf ÷ 1000)) as [fr|]; [|done].
  by injection H as <-.
Qed.

Lemma same_outside_caches_trans d1 d2 d3 :
  same_outside_caches d1 d2 → same_outside_caches d2 d3 → same_outside_caches d1 d3.
Proof.
  intros (A1 & A2 & A3 & A4 & A5) (B1 & B2 & B3 & B4 & B5).
  unfold same_outside_caches. by rewrite B1, B2, B3, B4, B5.
Qed.

Lemma for_each_outside (body : Z → CPU_DATA → option CPU_DATA) l d d' :
  (∀ j s s', body j s = Some s' → same_outside_caches s s') →
  for_each body l d = Some d' → same_outside_caches d d'.
Proof.
  intros Hbody H.
  apply (for_each_keeps (same_outside_caches d) _ _ _ _) with (2 := H); [|done].
  intros j s s' _ Hb Hs. eapply same_outside_caches_trans; [done|]. by eapply Hbody.
Qed.

(** [populate_caches_and_freq] changes the cache and frequency fields only. *)
Lemma populate_outside P d d' :
  populate_caches_and_freq P d = Some d' → same_outside_caches d d'.
Proof.
  intros H. destruct (populate_stages P d d' H) as (d1 & d2 & H1 & H2 & H3).
  apply for_each_outside in H1; [|apply clear_cpu_outside].
  apply for_each_outside in H2; [|apply read_frequency_outside].
  apply for_each_outside in H3.
  - eapply same_outside_caches_trans; [exact H1|].
    eapply same_outside_caches_trans; [|exact H3]. exact H2.
  - intros j s s' Hb. apply cache_index_Some in Hb as (_ & _ & Hb).
    apply assign_cache_frame in Hb as (G1 & G2 & G3 & G4 & _ & G6 & _). done.
Qed.

Lemma populate_safe_defined P d :
  blocks_of_length (Z.to_nat (logical_core_count d)) d →
  (∀ idx, idx ∈ visited P (seqZ 0 (logical_core_count d)) →
          index_safe P (logical_core_count d) idx) →
  ∃ d', populate_caches_and_freq P d = Some d'
        ∧ blocks_of_length (Z.to_nat (logical_core_count d)) d'.
Proof.
  intros Hd Hsafe. unfold populate_caches_and_freq.
  set (L := logical_core_count d) in *. set (n := Z.to_nat L) in *.
  assert (Hrange : ∀ i, i ∈ seqZ 0 L → 0 <= i < Z.of_nat n).
  { intros i Hi. apply elem_of_seqZ in Hi. lia. }
  destruct (for_each_defined (blocks_of_length n) clear_cpu (seqZ 0 L) d)
    as (d1 & -> & Hd1); [|done|].
  { intros i s Hi Hs. apply clear_cpu_defined; [done|]. by apply Hrange. }
  bind_step.
  destruct (for_each_defined (blocks_of_length n) (read_frequency P) (seqZ 0 L)
              (set_l3size 0 d1)) as (d2 & -> & Hd2); [|done|].
  { intros i s Hi Hs. apply read_frequency_defined; [done|]. by apply Hrange. }
  bind_step. rewrite cache_loop_visited.
  apply (cache_indexes_safe P n L); [|done|done].
  destruct (decide (0 <= L)); lia.
Qed.

Lemma fill_cpu_data_from_settled P before buf1 buf2 d :
  topology_files_settled P (get_nprocs P) →
  cache_files_settled P (visited P (seqZ 0 (get_nprocs P))) →
  fill_cpu_data_from P before buf1 buf2 d = fill_cpu_data P d.
Proof.
  intros Ht Hc. unfold fill_cpu_data_from, fill_cpu_data.
  cbn [logical_core_count set_logical_core_count set_l1size set_l2size set_frequency
       set_l3size l1size l2size frequency].
  destruct (is_null _ || is_null _ || is_null _); [done|].
  rewrite populate_from_settled by done.
  destruct (populate_caches_and_freq P _) as [dp|] eqn:Hp; [|done]. bind_step.
  rewrite get_core_topology_from_settled; [done|].
  apply populate_outside in Hp as (_ & HL & _).
  cbn [logical_core_count set_algorithms]. by rewrite HL.
Qed.

Lemma get_core_topology_from_codes P buf1 buf2 d rc d' :
  get_core_topology_from P buf1 buf2 d = Some (rc, d') → rc = 0 ∨ rc = 203.
Proof.
  intros H. unfold get_core_topology_from in H.
  destruct (calloc_keys P && calloc_temp P); [|injection H as <- _; by right].
  cbn [negb] in H.
  destruct (fst <$> for_each (count_cpu_from P) _ _) as [st|] in H; [|done].
  bind_step in H.
  destruct (calloc_cores P); [|injection H as <- _; by right]. cbn [negb] in H.
  destruct (fst <$> for_each _ _ _) as [cs|] in H; [|done]. injection H as <- _. by left.
Qed.

(** X19: What the statements of [get_cpu_data] after the brand string do
    (lines 551-579), with the buffers of the cache loop and of the two
    topology loops carried from pass to pass, whatever they held at first.
    If one of the three arrays is refused they return
    203 right away: the count of logical CPUs is set, [l3size] is 0, the
    arrays that were served stay in the record, and names, cores and flags
    are as before.  If the arrays are served, the topology files and the
    level and size files of the visited index directories either cannot be
    opened or hold a line, the shared-CPU lists are safe and the blocks of
    the topology are served, they return 0 with N logical CPUs, three
    arrays of N cells, the decoded flags, and one core per distinct key.
    They never return anything but 0 or 203. *)
Theorem fill_cpu_data_outcomes (P : Platform) (before buf1 buf2 : list ascii)
    (d : CPU_DATA) :
  let N := get_nprocs P in
  let ks := distinct (map (topology_key P) (seqZ 0 N)) in
  (calloc_l1size P && calloc_l2size P && calloc_frequency P = false →
   ∃ d', fill_cpu_data_from P before buf1 buf2 d = Some (203, d')
         ∧ logical_core_count d' = N ∧ l3size d' = 0
         ∧ l1size d' = calloc (calloc_l1size P) 0 N
         ∧ l2size d' = calloc (calloc_l2size P) zero_l2cache N
         ∧ frequency d' = calloc (calloc_frequency P) 0 N
         ∧ cpu_name d' = cpu_name d ∧ physical_core_count d' = physical_core_count d
         ∧ cores d' = cores d ∧ algorithms d' = algorithms d)
  ∧ (calloc_l1size P && calloc_l2size P && calloc_frequency P = true →
     topology_files_settled P N →
     cache_files_settled P (visited P (seqZ 0 N)) →
     (∀ idx, idx ∈ visited P (seqZ 0 N) → index_safe P N idx) →
     calloc_keys P && calloc_temp P && calloc_cores P = true →
     (∀ i : nat, (i < length ks)%nat → malloc_logical_ids P (Z.of_nat i) = true) →
     ∃ d', fill_cpu_data_from P before buf1 buf2 d = Some (0, d')
           ∧ logical_core_count d' = N
           ∧ blocks_of_length (Z.to_nat N) d'
           ∧ algorithms d' = get_supported_algorithms P
           ∧ physical_core_count d' = Z.of_nat (length ks)
           ∧ cores d' = Some (map (final_core (topology_key P) (seqZ 0 N)) ks)
           ∧ cpu_name d' = cpu_name d)
  ∧ (∀ rc d', fill_cpu_data_from P before buf1 buf2 d = Some (rc, d') →
              rc = 0 ∨ rc = 203).
Proof.
  intros N ks. split; [|split].
  - intros H. unfold fill_cpu_data_from, calloc.
    cbn [logical_core_count set_logical_core_count set_l1size set_l2size set_frequency
         set_l3size l1size l2size frequency].
    destruct (calloc_l1size P), (calloc_l2size P), (calloc_frequency P);
      try discriminate H; (eexists; split; [reflexivity|repeat split]).
  - intros H Hfiles Hcaches Hsafe Ht Hm.
    rewrite fill_cpu_data_from_settled by done. unfold fill_cpu_data, calloc.
    cbn [logical_core_count set_logical_core_count set_l1size set_l2size set_frequency
         set_l3size l1size l2size frequency].
    fold N.
    apply andb_true_iff in H as [H H3]. apply andb_true_iff in H as [H1 H2].
    apply andb_true_iff in Ht as [Ht Hc]. apply andb_true_iff in Ht as [Hk Ht].
    rewrite H1, H2, H3. cbn [is_null orb].
    set (d0 := set_l3size 0 _).
    destruct (populate_safe_defined P d0) as (dp & Hp & Hb).
    { repeat split; eexists; (split; [reflexivity|]); apply length_replicate. }
    { exact Hsafe. }
    rewrite Hp. bind_step.
    destruct (populate_outside P d0 dp Hp) as (G1 & G2 & G3 & G4 & G5).
    change (logical_core_count d0) with N in *.
    set (d3 := set_algorithms _ dp).
    rewrite (get_core_topology_defined P d3) by (try done; by cbn; rewrite G2).
    bind_step. eexists. split; [reflexivity|].
    unfold topology_result. cbn. rewrite G2. repeat split; try done.
    all: by destruct Hb as (B1 & B2 & B3).
  - intros rc d'. unfold fill_cpu_data_from.
    destruct (is_null _ || is_null _ || is_null _); [intros H; injection H as <- _; by right|].
    destruct (populate_caches_and_freq_from P before _) as [dp|]; [|done]. bind_step.
    destruct (get_core_topology_from P buf1 buf2 _) as [[rc' dt]|] eqn:Hrun; [|done].
    bind_step. apply get_core_topology_from_codes in Hrun.
    destruct (rc' =? 200) eqn:E; cbn [negb]; intros H; injection H as <- _; [by left|done].
Qed.

Lemma fill_cpu_data_outcomes_witness :
  ∃ d', fill_cpu_data_from four_cpus (chars "7") (chars "8") (chars "9") zeroed_data
        = Some (0, d')
        ∧ logical_core_count d' = 4
        ∧ physical_core_count d' = 2
        ∧ map core_cpus (block_cells (cores d')) = [[0; 1]; [2; 3]].
Proof.
  destruct (proj1 (proj2 (fill_cpu_data_outcomes four_cpus (chars "7") (chars "8") (chars "9")
                            zeroed_data)))
    as (d' & Hrun & HN & _ & _ & Hn & Hcores & _).
  - reflexivity.
  - apply topology_files_settled_check. vm_compute. reflexivity.
  - apply cache_files_settled_check. vm_compute. reflexivity.
  - intros idx Hidx. apply (elem_of_visited four_cpus) in Hidx as [Hidx _].
    apply (elem_of_seqZ 0 4) in Hidx.
    assert (idx = 0 ∨ idx = 1 ∨ idx = 2 ∨ idx = 3) as [-> | [-> | [-> | ->]]] by lia;
      (split; [eexists; reflexivity|]); (split; [vm_compute; lia|]);
      intros _ c Hc; vm_compute in Hc;
      repeat (apply elem_of_cons in Hc as [->|Hc]; [simpl; lia|]);
      by apply elem_of_nil in Hc.
  - reflexivity.
  - intros i _. reflexivity.
  - exists d'. split; [exact Hrun|]. split; [exact HN|]. split; [exact Hn|].
    rewrite Hcores. vm_compute. reflexivity.
Defined.

(** ** The cache sizes of a logical CPU *)

Lemma assign_cache_l1_cell level sizeKB cpus c d d' :
  assign_cache level sizeKB cpus d = Some d' →
  cell (l1size d') c
  = if (level =? 1) && bool_decide (c ∈ cpus) then Some sizeKB else cell (l1size d) c.
Proof.
  intros H. destruct (level =? 1) eqn:E; cbn [andb].
  - apply Z.eqb_eq in E. unfold assign_cache in H. case_bool_decide as Hc.
    + revert H. apply (for_each_establishes (λ s, cell (l1size s) c = Some sizeKB))
        with (i := c); [done|..].
      * intros s s' Hb. apply assign_cpu_frame in Hb.
        destruct Hb as (_ & _ & _ & _ & _ & _ & _ & _ & _ & _ & Hl1 & _).
        by destruct (Hl1 E).
      * intros j s s' _ Hb Hs. apply assign_cpu_frame in Hb.
        destruct Hb as (_ & _ & _ & _ & _ & _ & _ & _ & _ & _ & Hl1 & _).
        destruct (Hl1 E) as [Hthis Hother].
        destruct (decide (c = j)) as [->|Hne]; [done|]. by rewrite Hother.
    + apply (for_each_keeps (λ s, cell (l1size s) c = cell (l1size d) c) _ _ _ _)
        with (2 := H); [|done].
      intros j s s' Hj Hb Hs. apply assign_cpu_frame in Hb.
      destruct Hb as (_ & _ & _ & _ & _ & _ & _ & _ & _ & _ & Hl1 & _).
      destruct (Hl1 E) as [_ Hother]. rewrite Hother; [done|]. by intros ->.
  - apply Z.eqb_neq in E. apply assign_cache_frame in H.
    destruct H as (_ & _ & _ & _ & _ & _ & Hl1 & _). by rewrite Hl1.
Qed.

Lemma assign_cache_l2_cell level sizeKB cpus c d d' :
  assign_cache level sizeKB cpus d = Some d' →
  cell (l2size d') c
  = if (level =? 2) && bool_decide (c ∈ cpus)
    then Some {| l2cache_size := sizeKB;
                 shared_with_core_number := Z.of_nat (length cpus) |}
    else cell (l2size d) c.
Proof.
  intros H. destruct (level =? 2) eqn:E; cbn [andb].
  - apply Z.eqb_eq in E. unfold assign_cache in H. case_bool_decide as Hc.
    + revert H.
      apply (for_each_establishes
               (λ s, cell (l2size s) c
                     = Some {| l2cache_size := sizeKB;
                               shared_with_core_number := Z.of_nat (length cpus) |}))
        with (i := c); [done|..].
      * intros s s' Hb. apply assign_cpu_frame in Hb.
        destruct Hb as (_ & _ & _ & _ & _ & _ & _ & _ & _ & _ & _ & Hl2).
        by destruct (Hl2 E).
      * intros j s s' _ Hb Hs. apply assign_cpu_frame in Hb.
        destruct Hb as (_ & _ & _ & _ & _ & _ & _ & _ & _ & _ & _ & Hl2).
        destruct (Hl2 E) as [Hthis Hother].
        destruct (decide (c = j)) as [->|Hne]; [done|]. by rewrite Hother.
    + apply (for_each_keeps (λ s, cell (l2size s) c = cell (l2size d) c) _ _ _ _)
        with (2 := H); [|done].
      intros j s s' Hj Hb Hs. apply assign_cpu_frame in Hb.
      destruct Hb as (_ & _ & _ & _ & _ & _ & _ & _ & _ & _ & _ & Hl2).
      destruct (Hl2 E) as [_ Hother]. rewrite Hother; [done|]. by intros ->.
  - apply Z.eqb_neq in E. apply assign_cache_frame in H.
    destruct H as (_ & _ & _ & _ & _ & _ & _ & Hl2 & _). by rewrite Hl2.
Qed.

Lemma cache_index_l1 P idx c d d' :
  cache_index P idx d = Some d' →
  cell (l1size d') c
  = if (index_level P idx =? 1) && bool_decide (c ∈ shared_cpus P idx)
    then Some (index_sizeKB P idx) else cell (l1size d) c.
Proof.
  intros H. apply cache_index_Some in H as (_ & _ & H).
  by apply assign_cache_l1_cell.
Qed.

Lemma cache_index_l2 P idx c d d' :
  cache_index P idx d = Some d' →
  cell (l2size d') c
  = if (index_level P idx =? 2) && bool_decide (c ∈ shared_cpus P idx)
    then Some {| l2cache_size := index_sizeKB P idx;
                 shared_with_core_number := Z.of_nat (length (shared_cpus P idx)) |}
    else cell (l2size d) c.
Proof.
  intros H. apply cache_index_Some in H as (_ & _ & H).
  by apply assign_cache_l2_cell.
Qed.

Lemma cache_indexes_cells P c l d d' v1 v2 :
  for_each (cache_index P) l d = Some d' →
  cell (l1size d) c = Some v1 → cell (l2size d) c = Some v2 →
  cell (l1size d') c = Some (fold_left (l1_after P c) l v1)
  ∧ cell (l2size d') c = Some (fold_left (l2_after P c) l v2).
Proof.
  revert d v1 v2. induction l as [|idx l IH]; intros d v1 v2 H H1 H2; simpl in H.
  - by injection H as <-.
  - destruct (cache_index P idx d) as [d1|] eqn:Hd; [|done]. simpl in H.
    simpl. apply (IH d1); [done|..].
    + rewrite (cache_index_l1 _ _ c _ _ Hd). unfold l1_after.
      by destruct (_ && _).
    + rewrite (cache_index_l2 _ _ c _ _ Hd). unfold l2_after.
      by destruct (_ && _).
Qed.

(** X20: When the level file and the size file of every visited index
    directory either cannot be opened or hold a line, after a defined run
    (with the buffer of the cache loop carried from pass to pass, whatever
    it held at first) the L1 size of a logical CPU is the size of the last visited index
    directory of level 1 that lists it, and zero when there is none; its
    L2 entry is the size of the last visited directory of level 2 that
    lists it together with the length of that directory's list, and zeros
    when there is none.  What the arrays held before the call plays no
    part. *)
Theorem cache_cells_are_the_last_written (P : Platform) (before : list ascii)
    (d d' : CPU_DATA) (c : Z) :
  cache_files_settled P (visited P (seqZ 0 (logical_core_count d))) →
  populate_caches_and_freq_from P before d = Some d' →
  0 <= c < logical_core_count d →
  cell (l1size d') c
  = Some (fold_left (l1_after P c) (visited P (seqZ 0 (logical_core_count d))) 0)
  ∧ cell (l2size d') c
    = Some (fold_left (l2_after P c) (visited P (seqZ 0 (logical_core_count d))) zero_l2cache).
Proof.
  intros Hfiles Hrun Hc. rewrite populate_from_settled in Hrun by done.
  destruct (populate_stages P d d' Hrun) as (d1 & d2 & H1 & H2 & H3).
  assert (Hin : c ∈ seqZ 0 (logical_core_count d)) by (apply elem_of_seqZ; lia).
  destruct (clear_loop_cells _ _ _ c H1 Hin) as (Hz1 & Hz2 & _).
  assert (Hd2 : l1size d2 = l1size d1 ∧ l2size d2 = l2size d1).
  { apply (for_each_keeps (λ s, l1size s = l1size d1 ∧ l2size s = l2size d1) _ _ _ _)
      with (2 := H2); [|done].
    intros j s s' _ Hb [Ha Hb']. apply read_frequency_frame in Hb as (-> & -> & _). done. }
  destruct Hd2 as [E1 E2].
  apply (cache_indexes_cells P c _ d2 d'); [done|by rewrite E1|by rewrite E2].
Qed.

Lemma cache_cells_are_the_last_written_witness :
  ∃ d', populate_caches_and_freq_from four_cpus (chars "7") earlier_capture = Some d'
        ∧ map (cell (l1size d')) [0; 1; 2; 3] = [Some 32; Some 32; Some 0; Some 0]
        ∧ cell (l2size d') 1 = Some {| l2cache_size := 256; shared_with_core_number := 2 |}.
Proof.
  destruct (populate_caches_and_freq_from four_cpus (chars "7") earlier_capture)
    as [d'|] eqn:Hrun; [|vm_compute in Hrun; discriminate Hrun].
  exists d'. split; [reflexivity|].
  assert (Hfiles : cache_files_settled four_cpus
                     (visited four_cpus (seqZ 0 (logical_core_count earlier_capture)))).
  { apply cache_files_settled_check. vm_compute. reflexivity. }
  pose proof (λ c Hc, cache_cells_are_the_last_written four_cpus (chars "7")
                        earlier_capture d' c Hfiles Hrun Hc) as Hcell.
  cbn [map]. 
  rewrite (proj1 (Hcell 0 ltac:(simpl; lia))), (proj1 (Hcell 1 ltac:(simpl; lia))),
    (proj1 (Hcell 2 ltac:(simpl; lia))), (proj1 (Hcell 3 ltac:(simpl; lia))),
    (proj2 (Hcell 1 ltac:(simpl; lia))).
  split; vm_compute; reflexivity.
Defined.

(** ** The entry point *)

Lemma get_cpu_brand_served P name :
  malloc_brand P = true →
  ∃ s, get_cpu_brand P name = (0, Some s) ∧ (length s ≤ 48)%nat.
Proof.
  intros Hm. unfold get_cpu_brand. rewrite Hm. eexists. split; [reflexivity|].
  set (bytes := concat _).
  assert (Hlen : length bytes = 48%nat).
  { subst bytes. cbn [map concat].
    destruct (cpu_cpuid P (0x80000002 + 0) 0) as [[[? ?] ?] ?].
    destruct (cpu_cpuid P (0x80000002 + 1) 0) as [[[? ?] ?] ?].
    destruct (cpu_cpuid P (0x80000002 + 2) 0) as [[[? ?] ?] ?]. done. }
  destruct (c_string_cut bytes) as (H1 & _). by rewrite Hlen in H1.
Qed.

(** X21: [get_cpu_data] always returns, and with 0, 201 or 203 only: 201
    exactly for a null pointer, 203 exactly when the block of the brand
    string is refused, and 0 otherwise.  Whatever the platform, it changes
    no field of the record but [cpu_name]: the count of logical CPUs, the
    three arrays, [l3size], the flags and the cores are those the caller
    passed in.  With 0 the name is a string of at most 48 characters; with
    203 it is the pointer that was there. *)
Theorem get_cpu_data_outcomes (P : Platform) (data : option CPU_DATA) :
  ∃ rc out,
    get_cpu_data P data = Some (rc, out)
    ∧ (rc = 0 ∨ rc = 201 ∨ rc = 203)
    ∧ (rc = 201 ↔ data = None)
    ∧ (rc = 203 ↔ data ≠ None ∧ malloc_brand P = false)
    ∧ (data = None → out = None)
    ∧ ∀ d, data = Some d →
           ∃ d', out = Some d'
                 ∧ logical_core_count d' = logical_core_count d
                 ∧ physical_core_count d' = physical_core_count d
                 ∧ cores d' = cores d
                 ∧ l1size d' = l1size d ∧ l2size d' = l2size d
                 ∧ frequency d' = frequency d ∧ l3size d' = l3size d
                 ∧ algorithms d' = algorithms d
                 ∧ (rc = 203 → cpu_name d' = cpu_name d)
                 ∧ (rc = 0 → ∃ s, cpu_name d' = Some s ∧ (length s ≤ 48)%nat).
Proof.
  destruct data as [d|].
  - rewrite get_cpu_data_stops_after_brand.
    destruct (malloc_brand P) eqn:Hm; eexists _, _; (split; [reflexivity|]).
    + split; [by left|]. split; [done|]. split; [split; [done|by intros [_ ?]]|].
      split; [done|].
      intros d0 H. injection H as <-. eexists. split; [reflexivity|].
      cbn [logical_core_count physical_core_count cores l1size l2size frequency l3size
           algorithms cpu_name set_cpu_name].
      do 8 (split; [reflexivity|]). split; [done|]. intros _.
      destruct (get_cpu_brand_served P (cpu_name d) Hm) as (s & -> & Hs). by exists s.
    + split; [by right; right|]. split; [done|].
      split; [split; [intros _; by split|done]|]. split; [done|].
      intros d0 H. injection H as <-. eexists. split; [reflexivity|].
      cbn [logical_core_count physical_core_count cores l1size l2size frequency l3size
           algorithms cpu_name set_cpu_name].
      do 8 (split; [reflexivity|]). split; [|done]. intros _.
      unfold get_cpu_brand. by rewrite Hm.
  - eexists _, _. split; [reflexivity|]. split; [by right; left|].
    split; [done|]. split; [split; [done|by intros [? _]]|]. split; [done|]. done.
Qed.

Lemma get_cpu_data_outcomes_witness :
  ∃ d', get_cpu_data four_cpus (Some earlier_capture) = Some (0, Some d')
        ∧ logical_core_count d' = 4 ∧ l3size d' = 8192
        ∧ get_cpu_data four_cpus None = Some (201, None).
Proof.
  destruct (get_cpu_data_outcomes four_cpus (Some earlier_capture))
    as (rc & out & Hrun & _ & _ & H203 & _ & Hd).
  destruct (Hd earlier_capture eq_refl) as (d' & -> & HL & _ & _ & _ & _ & _ & H3 & _).
  assert (rc = 0) as ->.
  { vm_compute in Hrun. injection Hrun as <- _. reflexivity. }
  exists d'. split; [exact Hrun|]. split; [exact HL|]. split; [exact H3|]. reflexivity.
Defined.

(** ** [populate_caches_and_freq] on Windows *)

(** The loop over the 64 bit positions does what the Linux loop does over
    the list of the set bits. *)
Lemma assign_bit_cases level sizeKB shared mask b d :
  Win32.assign_bit level sizeKB shared mask b d
  = if Win32.bit_set mask b then assign_cpu level sizeKB shared b d else Some d.
Proof. unfold Win32.assign_bit, assign_cpu. by destruct (Win32.bit_set mask b). Qed.

Lemma assign_bits_filter level sizeKB shared mask l d :
  for_each (Win32.assign_bit level sizeKB shared mask) l d
  = for_each (assign_cpu level sizeKB shared) (List.filter (Win32.bit_set mask) l) d.
Proof.
  revert d. induction l as [|b l IH]; intros d; [reflexivity|].
  cbn [for_each List.filter]. rewrite assign_bit_cases.
  destruct (Win32.bit_set mask b).
  - cbn [for_each].
    destruct (assign_cpu level sizeKB shared b d) as [d1|]; [|reflexivity].
    bind_step. apply IH.
  - bind_step. apply IH.
Qed.

Lemma win32_assign_cache_list level CacheSize mask d :
  Win32.assign_cache level CacheSize mask d
  = assign_cache level (wrap32 (CacheSize / 1024)) (Win32.set_bits mask) d.
Proof.
  unfold Win32.assign_cache, assign_cache. rewrite count_bits_set_bits.
  apply assign_bits_filter.
Qed.

Lemma cache_record_step_list r d :
  Windows.cache_record_step r d
  = if Windows.is_cache r
    then assign_cache (Windows.Level r) (record_sizeKB r) (record_cpus r) d
    else Some d.
Proof.
  unfold Windows.cache_record_step, record_sizeKB, record_cpus.
  rewrite win32_assign_cache_list. reflexivity.
Qed.

(** What one record changes. *)
Lemma cache_record_step_cells r d d' :
  Windows.cache_record_step r d = Some d' →
  frequency d' = frequency d
  ∧ l3size d' = record_l3_after (l3size d) r
  ∧ ∀ b, cell (l1size d') b
         = (if Windows.is_cache r && (Windows.Level r =? 1) && bool_decide (b ∈ record_cpus r)
            then Some (record_sizeKB r) else cell (l1size d) b)
         ∧ cell (l2size d') b
           = (if Windows.is_cache r && (Windows.Level r =? 2)
                 && bool_decide (b ∈ record_cpus r)
              then Some {| l2cache_size := record_sizeKB r;
                           shared_with_core_number := Z.of_nat (length (record_cpus r)) |}
              else cell (l2size d) b).
Proof.
  rewrite cache_record_step_list. unfold record_l3_after.
  destruct (Windows.is_cache r); cbn [andb]; [|by intros H; injection H as <-].
  intros H. split; [|split].
  - apply assign_cache_frame in H. by apply H.
  - by apply assign_cache_l3_value in H.
  - intros b. split; [by apply assign_cache_l1_cell|by apply assign_cache_l2_cell].
Qed.

Lemma cache_records_loop_cells rs d d' b v1 v2 :
  Windows.cache_records_loop rs d = Some d' →
  cell (l1size d) b = Some v1 → cell (l2size d) b = Some v2 →
  frequency d' = frequency d
  ∧ l3size d' = fold_left record_l3_after rs (l3size d)
  ∧ cell (l1size d') b = Some (fold_left (record_l1_after b) rs v1)
  ∧ cell (l2size d') b = Some (fold_left (record_l2_after b) rs v2).
Proof.
  revert d v1 v2. induction rs as [|r rs IH]; intros d v1 v2 H H1 H2; simpl in H.
  - by injection H as <-.
  - destruct (Windows.cache_record_step r d) as [d1|] eqn:Hd; [|done]. bind_step in H.
    apply cache_record_step_cells in Hd as (Hf & Hl3 & Hcells).
    destruct (Hcells b) as [Hl1 Hl2].
    cbn [fold_left]. rewrite <- Hf, <- Hl3.
    apply (IH d1); [done|..].
    + rewrite Hl1. unfold record_l1_after.
      by destruct (Windows.is_cache r && (Windows.Level r =? 1)
                   && bool_decide (b ∈ record_cpus r)).
    + rewrite Hl2. unfold record_l2_after.
      by destruct (Windows.is_cache r && (Windows.Level r =? 2)
                   && bool_decide (b ∈ record_cpus r)).
Qed.

(** The state between the loops of a defined run. *)
Lemma windows_populate_stages H d d' :
  Windows.populate_caches_and_freq H d = Some d' →
  ∃ d1 d2 d3,
    Windows.memset_l1size (logical_core_count d) d = Some d1
    ∧ for_each Windows.clear_l2 (seqZ 0 (logical_core_count d)) d1 = Some d2
    ∧ for_each (Windows.read_registry H) (seqZ 0 (logical_core_count d)) (set_l3size 0 d2)
      = Some d3
    ∧ Windows.cache_records_loop (walked H) d3 = Some d'
    ∧ (Windows.cache_len H ≠ 0 → Windows.malloc_cache_buffer H = true).
Proof.
  unfold Windows.populate_caches_and_freq, walked. intros Hrun.
  destruct (Windows.memset_l1size (logical_core_count d) d) as [d1|] eqn:H1; [|done].
  bind_step in Hrun.
  destruct (for_each Windows.clear_l2 (seqZ 0 (logical_core_count d)) d1) as [d2|] eqn:H2;
    [|done].
  bind_step in Hrun.
  destruct (for_each (Windows.read_registry H) (seqZ 0 (logical_core_count d))
              (set_l3size 0 d2)) as [d3|] eqn:H3; [|done].
  bind_step in Hrun.
  exists d1, d2, d3. split; [reflexivity|]. split; [exact H2|]. split; [exact H3|].
  destruct (Windows.cache_len H =? 0) eqn:E.
  - apply Z.eqb_eq in E. split; [exact Hrun|done].
  - destruct (Windows.malloc_cache_buffer H); [|done]. by split.
Qed.

Lemma memset_l1size_cells L d d' :
  Windows.memset_l1size L d = Some d' →
  l2size d' = l2size d ∧ frequency d' = frequency d
  ∧ ∀ c, 0 <= c < L → cell (l1size d') c = Some 0.
Proof.
  unfold Windows.memset_l1size. destruct (L <? 0); [done|]. intros H. split; [|split].
  - apply (for_each_keeps (λ s, l2size s = l2size d) _ _ _ _) with (2 := H); [|done].
    intros j s s' _ Hb Hs. destruct (store (l1size s) j 0); [|done]. by injection Hb as <-.
  - apply (for_each_keeps (λ s, frequency s = frequency d) _ _ _ _) with (2 := H); [|done].
    intros j s s' _ Hb Hs. destruct (store (l1size s) j 0); [|done]. by injection Hb as <-.
  - intros c Hc. revert H.
    apply (for_each_establishes (λ s, cell (l1size s) c = Some 0)) with (i := c);
      [apply elem_of_seqZ; lia|..].
    + intros s s' Hb. destruct (store (l1size s) c 0) as [l1|] eqn:Hs; [|done].
      injection Hb as <-. by apply store_Some in Hs as [? _].
    + intros j s s' _ Hb Hs. destruct (store (l1size s) j 0) as [l1|] eqn:Hst; [|done].
      injection Hb as <-. apply store_Some in Hst as [Hthis Hother].
      destruct (decide (c = j)) as [->|Hne]; [done|].
      cbn [l1size set_l1size]. by rewrite Hother.
Qed.

Lemma clear_l2_cells l d d' :
  for_each Windows.clear_l2 l d = Some d' →
  l1size d' = l1size d ∧ frequency d' = frequency d
  ∧ ∀ c, c ∈ l → cell (l2size d') c = Some zero_l2cache.
Proof.
  intros H. split; [|split].
  - apply (for_each_keeps (λ s, l1size s = l1size d) _ _ _ _) with (2 := H); [|done].
    intros j s s' _ Hb Hs. unfold Windows.clear_l2 in Hb.
    destruct (update (l2size s) j _) as [l2|]; [|done]. bind_step in Hb.
    destruct (update l2 j _) as [l2'|]; [|done]. by injection Hb as <-.
  - apply (for_each_keeps (λ s, frequency s = frequency d) _ _ _ _) with (2 := H); [|done].
    intros j s s' _ Hb Hs. unfold Windows.clear_l2 in Hb.
    destruct (update (l2size s) j _) as [l2|]; [|done]. bind_step in Hb.
    destruct (update l2 j _) as [l2'|]; [|done]. by injection Hb as <-.
  - intros c Hc. revert H.
    apply (for_each_establishes (λ s, cell (l2size s) c = Some zero_l2cache)) with (i := c);
      [done|..].
    + intros s s' Hb. by apply l2_entry_written in Hb as [? _].
    + intros j s s' _ Hb Hs. apply l2_entry_written in Hb as [Hthis Hother].
      destruct (decide (c = j)) as [->|Hne]; [done|]. by rewrite Hother.
Qed.

Lemma read_registry_cells H l d d' :
  for_each (Windows.read_registry H) l d = Some d' →
  l1size d' = l1size d ∧ l2size d' = l2size d ∧ l3size d' = l3size d
  ∧ ∀ c, c ∈ l →
         cell (frequency d') c = Some (wrap32 (default 0 (Windows.registry_MHz H c))).
Proof.
  intros Hrun. split; [|split; [|split]].
  - apply (for_each_keeps (λ s, l1size s = l1size d) _ _ _ _) with (2 := Hrun); [|done].
    intros j s s' _ Hb Hs. unfold Windows.read_registry in Hb.
    destruct (store (frequency s) j _); [|done]. by injection Hb as <-.
  - apply (for_each_keeps (λ s, l2size s = l2size d) _ _ _ _) with (2 := Hrun); [|done].
    intros j s s' _ Hb Hs. unfold Windows.read_registry in Hb.
    destruct (store (frequency s) j _); [|done]. by injection Hb as <-.
  - apply (for_each_keeps (λ s, l3size s = l3size d) _ _ _ _) with (2 := Hrun); [|done].
    intros j s s' _ Hb Hs. unfold Windows.read_registry in Hb.
    destruct (store (frequency s) j _); [|done]. by injection Hb as <-.
  - intros c Hc. revert Hrun.
    apply (for_each_establishes
             (λ s, cell (frequency s) c
                   = Some (wrap32 (default 0 (Windows.registry_MHz H c)))))
      with (i := c); [done|..].
    + intros s s' Hb. unfold Windows.read_registry in Hb.
      destruct (store (frequency s) c _) as [fr|] eqn:Hs; [|done].
      injection Hb as <-. by apply store_Some in Hs as [? _].
    + intros j s s' _ Hb Hs. unfold Windows.read_registry in Hb.
      destruct (store (frequency s) j _) as [fr|] eqn:Hst; [|done].
      injection Hb as <-. apply store_Some in Hst as [Hthis Hother].
      destruct (decide (c = j)) as [->|Hne]; [done|].
      cbn [frequency set_frequency]. by rewrite Hother.
Qed.

(** X22: After a defined run of the Windows [populate_caches_and_freq],
    whatever the arrays held before: the frequency of a logical processor
    is the ~MHz value the registry gave for it, and 0 when its key cannot
    be opened; its L1 size is the size of the last cache record of level 1
    whose mask has its bit, and 0 when there is none; its L2 entry is the
    size of the last record of level 2 whose mask has its bit together with
    the number of set bits of that mask, and zeros when there is none; and
    [l3size] is the size of the last record of level 3 with a mask that is
    not empty, and 0 when there is none.  Records that are not cache
    records change nothing. *)
Theorem windows_populate_result (H : Windows.Host) (d d' : CPU_DATA) (b : Z) :
  Windows.populate_caches_and_freq H d = Some d' →
  0 <= b < logical_core_count d →
  cell (frequency d') b = Some (wrap32 (default 0 (Windows.registry_MHz H b)))
  ∧ cell (l1size d') b = Some (fold_left (record_l1_after b) (walked H) 0)
  ∧ cell (l2size d') b = Some (fold_left (record_l2_after b) (walked H) zero_l2cache)
  ∧ l3size d' = fold_left record_l3_after (walked H) 0.
Proof.
  intros Hrun Hb.
  destruct (windows_populate_stages H d d' Hrun) as (d1 & d2 & d3 & H1 & H2 & H3 & H4 & _).
  assert (Hin : b ∈ seqZ 0 (logical_core_count d)) by (apply elem_of_seqZ; lia).
  apply memset_l1size_cells in H1 as (_ & _ & Hz1).
  apply clear_l2_cells in H2 as (E1 & _ & Hz2).
  apply read_registry_cells in H3 as (F1 & F2 & F3 & Hfreq).
  destruct (cache_records_loop_cells _ d3 d' b 0 zero_l2cache H4) as (G & G3 & G1 & G2).
  - rewrite F1. cbn [l1size set_l3size]. rewrite E1. by apply Hz1.
  - rewrite F2. cbn [l2size set_l3size]. by apply Hz2.
  - rewrite G, G1, G2, G3, F3. split; [by apply Hfreq|done].
Qed.

Lemma windows_populate_result_witness :
  (∃ d', Windows.populate_caches_and_freq one_group_host earlier_capture = Some d'
         ∧ map (cell (frequency d')) [2; 3] = [Some 2400; Some 0]
         ∧ map (cell (l1size d')) [1; 2] = [Some 32; Some 48]
         ∧ cell (l2size d') 3 = Some {| l2cache_size := 512; shared_with_core_number := 2 |}
         ∧ l3size d' = 8192)
  ∧ ∃ d', Windows.populate_caches_and_freq two_groups_host (allocated_data 4) = Some d'
          ∧ map (cell (l1size d')) [0; 1; 2; 3] = [Some 48; Some 48; Some 0; Some 0].
Proof.
  split.
  - destruct (Windows.populate_caches_and_freq one_group_host earlier_capture) as [d'|] eqn:Hrun;
      [|vm_compute in Hrun; discriminate Hrun].
    exists d'. split; [reflexivity|].
    pose proof (λ b Hb, windows_populate_result one_group_host earlier_capture d' b Hrun Hb)
      as Hcell.
    destruct (Hcell 1 ltac:(simpl; lia)) as (_ & L1 & _ & _).
    destruct (Hcell 2 ltac:(simpl; lia)) as (F2 & L2 & _ & _).
    destruct (Hcell 3 ltac:(simpl; lia)) as (F3 & _ & M3 & T3).
    cbn [map]. rewrite F2, F3, L1, L2, M3, T3.
    repeat split; vm_compute; reflexivity.
  - destruct (Windows.populate_caches_and_freq two_groups_host (allocated_data 4))
      as [d'|] eqn:Hrun; [|vm_compute in Hrun; discriminate Hrun].
    exists d'. split; [reflexivity|].
    pose proof (λ b Hb, windows_populate_result two_groups_host (allocated_data 4) d' b Hrun Hb)
      as Hcell.
    destruct (Hcell 0 ltac:(simpl; lia)) as (_ & L0 & _ & _).
    destruct (Hcell 1 ltac:(simpl; lia)) as (_ & L1 & _ & _).
    destruct (Hcell 2 ltac:(simpl; lia)) as (_ & L2 & _ & _).
    destruct (Hcell 3 ltac:(simpl; lia)) as (_ & L3 & _ & _).
    cbn [map]. rewrite L0, L1, L2, L3. vm_compute. reflexivity.
Defined.

(** ** When the Windows [populate_caches_and_freq] stays inside its arrays *)

Lemma assign_cache_inside (n : nat) level sizeKB cpus d :
  blocks_of_length n d →
  (is_Some (assign_cache level sizeKB cpus d)
   ↔ (level = 1 ∨ level = 2 → ∀ c, c ∈ cpus → 0 <= c < Z.of_nat n))
  ∧ (∀ d', assign_cache level sizeKB cpus d = Some d' → blocks_of_length n d').
Proof.
  intros Hd. unfold assign_cache. split; [split|].
  - intros [d' Hrun] Hlevel c Hc.
    destruct (for_each_reaches (blocks_of_length n)
                (assign_cpu level sizeKB (Z.of_nat (length cpus))) cpus d d' c)
      as (t & t' & Ht & Hbc); [|done|done|done|].
    { intros j u u' _ Hu Hbu. by apply (assign_cpu_inside n) in Hu as [? _]. }
    apply (assign_cpu_inside n) in Hbc as [_ Hin]; [|done]. by apply Hin.
  - intros Hin.
    destruct (for_each_defined (blocks_of_length n)
                (assign_cpu level sizeKB (Z.of_nat (length cpus))) cpus d)
      as (d' & -> & _); [|done|done].
    intros c t Hc Ht. apply assign_cpu_safe; [done|]. intros Hlevel. by apply Hin.
  - intros d' Hrun.
    apply (for_each_keeps (blocks_of_length n) _ _ _ _) with (2 := Hrun); [|done].
    intros c s s' _ Hb Hs. by apply (assign_cpu_inside n) in Hb as [? _].
Qed.

Lemma record_cpus_bits r : record_cpus r = Win32.set_bits (Windows.Mask r).
Proof. reflexivity. Qed.

Lemma record_cpus_nonneg r c : c ∈ record_cpus r → 0 <= c.
Proof. rewrite record_cpus_bits, elem_of_set_bits. lia. Qed.

Lemma cache_record_step_inside (n : nat) r d :
  blocks_of_length n d →
  (is_Some (Windows.cache_record_step r d) ↔ record_safe (Z.of_nat n) r)
  ∧ (∀ d', Windows.cache_record_step r d = Some d' → blocks_of_length n d').
Proof.
  intros Hd. rewrite cache_record_step_list. unfold record_safe.
  pose proof (record_cpus_nonneg r) as Hpos.
  revert Hpos. generalize (record_cpus r) (record_sizeKB r). intros cpus sizeKB Hpos.
  destruct (assign_cache_inside n (Windows.Level r) sizeKB cpus d Hd) as [Hiff Hkeep].
  destruct (Windows.is_cache r).
  - split; [|exact Hkeep]. rewrite Hiff. split.
    + intros Hin _ Hlevel b Hb. by apply Hin.
    + intros Hin Hlevel c Hc. split; [by apply Hpos|by apply Hin].
  - split; [|by intros d' Hd'; injection Hd' as <-].
    split; [by intros _ ?|by eexists].
Qed.

Lemma cache_records_loop_inside (n : nat) rs d :
  blocks_of_length n d →
  is_Some (Windows.cache_records_loop rs d)
  ↔ ∀ r, r ∈ rs → record_safe (Z.of_nat n) r.
Proof.
  revert d. induction rs as [|r rs IH]; intros d Hd; cbn [Windows.cache_records_loop].
  - split; [by intros _ r Hr; apply elem_of_nil in Hr|by eexists].
  - destruct (cache_record_step_inside n r d Hd) as [Hiff Hkeep].
    destruct (Windows.cache_record_step r d) as [d1|]; bind_step.
    + rewrite (IH d1) by by apply Hkeep. split.
      * intros Hrs r' Hr'. apply elem_of_cons in Hr' as [->|Hr']; [|by apply Hrs].
        apply Hiff. by eexists.
      * intros Hrs r' Hr'. apply Hrs. by right.
    + split; [by intros [? ?]|]. intros Hrs. apply Hiff, Hrs. by left.
Qed.

Lemma windows_clear_stages H (n : nat) d :
  blocks_of_length n d → 0 <= logical_core_count d <= Z.of_nat n →
  ∃ d3, (d1 ← Windows.memset_l1size (logical_core_count d) d;
         d2 ← for_each Windows.clear_l2 (seqZ 0 (logical_core_count d)) d1;
         for_each (Windows.read_registry H) (seqZ 0 (logical_core_count d)) (set_l3size 0 d2))
        = Some d3
        ∧ blocks_of_length n d3.
Proof.
  intros Hd HL. set (L := logical_core_count d) in *.
  assert (Hrange : ∀ i, i ∈ seqZ 0 L → 0 <= i < Z.of_nat n).
  { intros i Hi. apply elem_of_seqZ in Hi. lia. }
  unfold Windows.memset_l1size. destruct (L <? 0) eqn:E; [apply Z.ltb_lt in E; lia|].
  destruct (for_each_defined (blocks_of_length n)
              (λ i d, l1 ← store (l1size d) i 0; Some (set_l1size l1 d)) (seqZ 0 L) d)
    as (d1 & -> & Hd1); [|done|].
  { intros i s Hi (H1 & H2 & Hf).
    destruct (store_keeps _ n i 0 H1 (Hrange i Hi)) as (l1 & -> & H1').
    bind_step. eexists. split; [done|]. by split. }
  bind_step.
  destruct (for_each_defined (blocks_of_length n) Windows.clear_l2 (seqZ 0 L) d1)
    as (d2 & -> & Hd2); [|done|].
  { intros i s Hi (H1 & H2 & Hf). unfold Windows.clear_l2.
    destruct (update_keeps _ n i (set_l2cache_size 0) H2 (Hrange i Hi)) as (l2 & -> & H2').
    bind_step.
    destruct (update_keeps _ n i (set_shared_with_core_number 0) H2' (Hrange i Hi))
      as (l2' & -> & H2'').
    bind_step. eexists. split; [done|]. by split. }
  bind_step.
  apply for_each_defined; [|done].
  intros i s Hi (H1 & H2 & Hf). unfold Windows.read_registry.
  destruct (store_keeps _ n i (wrap32 (default 0 (Windows.registry_MHz H i))) Hf (Hrange i Hi))
    as (fr & -> & Hf').
  bind_step. eexists. split; [done|]. by split.
Qed.

(** The Windows [populate_caches_and_freq] once its first three loops
    are through. *)
Lemma windows_populate_unfold H d :
  0 <= logical_core_count d →
  blocks_of_length (Z.to_nat (logical_core_count d)) d →
  ∃ d3, blocks_of_length (Z.to_nat (logical_core_count d)) d3
        ∧ Windows.populate_caches_and_freq H d
          = if Windows.cache_len H =? 0 then Some d3
            else if negb (Windows.malloc_cache_buffer H) then None
                 else Windows.cache_records_loop (Windows.cache_records H) d3.
Proof.
  intros HL Hd. set (L := logical_core_count d) in *.
  destruct (windows_clear_stages H (Z.to_nat L) d Hd ltac:(fold L; lia)) as (d3 & H3 & Hd3).
  fold L in H3. exists d3. split; [done|].
  unfold Windows.populate_caches_and_freq. fold L.
  destruct (Windows.memset_l1size L d) as [d1|]; [|done]. bind_step. bind_step in H3.
  destruct (for_each Windows.clear_l2 (seqZ 0 L) d1) as [d2|]; [|done].
  bind_step. bind_step in H3. by rewrite H3.
Qed.

(** X23: With the three arrays allocated for N logical processors, the
    Windows [populate_caches_and_freq] stays inside its arrays exactly when
    the buffer of the cache records was served (or no buffer was needed)
    and every cache record of level 1 or 2 has all the set bits of its
    mask below N.  A mask numbers the processors inside one processor
    group, so the bits are used as indices whatever the group is. *)
Theorem windows_populate_defined_iff (H : Windows.Host) (d : CPU_DATA) :
  0 <= logical_core_count d →
  blocks_of_length (Z.to_nat (logical_core_count d)) d →
  is_Some (Windows.populate_caches_and_freq H d)
  ↔ (Windows.cache_len H ≠ 0 → Windows.malloc_cache_buffer H = true)
    ∧ ∀ r, r ∈ walked H → record_safe (logical_core_count d) r.
Proof.
  intros HL Hd. destruct (windows_populate_unfold H d HL Hd) as (d3 & Hd3 & Hpop).
  set (L := logical_core_count d) in *.
  rewrite Hpop. unfold walked.
  pose proof (cache_records_loop_inside (Z.to_nat L) (Windows.cache_records H) d3 Hd3) as Hloop.
  rewrite Z2Nat.id in Hloop by done.
  destruct (Windows.cache_len H =? 0) eqn:E.
  - apply Z.eqb_eq in E. split; [|by eexists].
    intros _. split; [done|]. by intros r Hr; apply elem_of_nil in Hr.
  - apply Z.eqb_neq in E. destruct (Windows.malloc_cache_buffer H); cbn [negb].
    + rewrite Hloop. split; [by intros ?|by intros [_ ?]].
    + split; [by intros [? ?]|]. intros [Hm _]. by specialize (Hm E).
Qed.

Lemma windows_populate_defined_iff_witness :
  is_Some (Windows.populate_caches_and_freq one_group_host (allocated_data 4))
  ∧ ¬ is_Some (Windows.populate_caches_and_freq one_group_host (allocated_data 2)).
Proof.
  split.
  - apply (windows_populate_defined_iff one_group_host (allocated_data 4)).
    + simpl. lia.
    + repeat split; eexists; (split; [reflexivity|reflexivity]).
    + split; [reflexivity|]. intros r Hr _ _ b Hb. simpl.
      vm_compute in Hr.
      repeat (apply elem_of_cons in Hr as [->|Hr];
              [vm_compute in Hb;
               repeat (apply elem_of_cons in Hb as [->|Hb]; [lia|]);
               by apply elem_of_nil in Hb|]).
      by apply elem_of_nil in Hr.
  - intros Hdef.
    apply (windows_populate_defined_iff one_group_host (allocated_data 2)) in Hdef
      as [_ Hsafe].
    + specialize (Hsafe {| Windows.is_cache := true; Windows.Level := 1;
                           Windows.CacheSize := 49152; Windows.Mask := 12 |}).
      assert (Hb : (3 : Z) < 2); [|lia].
      apply Hsafe; [right; left|reflexivity|by left|].
      vm_compute. right. left.
    + simpl. lia.
    + repeat split; eexists; (split; [reflexivity|reflexivity]).
Defined.

(** ** [get_cpu_data] in the Windows build, and the test program *)

Lemma cache_records_loop_keeps (n : nat) rs d d' :
  Windows.cache_records_loop rs d = Some d' → blocks_of_length n d → blocks_of_length n d'.
Proof.
  revert d. induction rs as [|r rs IH]; intros d H Hd; cbn [Windows.cache_records_loop] in H.
  - by injection H as <-.
  - destruct (Windows.cache_record_step r d) as [d1|] eqn:Hstep; [|done]. bind_step in H.
    apply (IH d1 H). by apply (cache_record_step_inside n r d Hd).
Qed.

Lemma cache_records_loop_outside rs d d' :
  Windows.cache_records_loop rs d = Some d' → same_outside_caches d d'.
Proof.
  revert d. induction rs as [|r rs IH]; intros d H; cbn [Windows.cache_records_loop] in H.
  - by injection H as <-.
  - destruct (Windows.cache_record_step r d) as [d1|] eqn:Hstep; [|done]. bind_step in H.
    apply (same_outside_caches_trans d d1 d'); [|by apply IH].
    rewrite cache_record_step_list in Hstep.
    destruct (Windows.is_cache r); [|by injection Hstep as <-].
    apply assign_cache_frame in Hstep as (G1 & G2 & G3 & G4 & _ & G6 & _). done.
Qed.

(** The Windows [populate_caches_and_freq] changes the cache and frequency
    fields only. *)
Lemma windows_populate_outside H d d' :
  Windows.populate_caches_and_freq H d = Some d' → same_outside_caches d d'.
Proof.
  intros Hrun.
  destruct (windows_populate_stages H d d' Hrun) as (d1 & d2 & d3 & H1 & H2 & H3 & H4 & _).
  unfold Windows.memset_l1size in H1. destruct (logical_core_count d <? 0); [done|].
  apply for_each_outside in H1.
  2:{ intros j s s' Hb. destruct (store (l1size s) j 0); [|done]. by injection Hb as <-. }
  apply for_each_outside in H2.
  2:{ intros j s s' Hb. unfold Windows.clear_l2 in Hb.
      destruct (update (l2size s) j _) as [l2|]; [|done]. bind_step in Hb.
      destruct (update l2 j _) as [l2'|]; [|done]. by injection Hb as <-. }
  apply for_each_outside in H3.
  2:{ intros j s s' Hb. unfold Windows.read_registry in Hb.
      destruct (store (frequency s) j _); [|done]. by injection Hb as <-. }
  apply cache_records_loop_outside in H4.
  eapply same_outside_caches_trans; [exact H1|].
  eapply same_outside_caches_trans; [exact H2|].
  eapply same_outside_caches_trans; [exact H3|exact H4].
Qed.

Lemma windows_populate_safe_defined H d :
  0 <= logical_core_count d →
  blocks_of_length (Z.to_nat (logical_core_count d)) d →
  (Windows.cache_len H ≠ 0 → Windows.malloc_cache_buffer H = true) →
  (∀ r, r ∈ walked H → record_safe (logical_core_count d) r) →
  ∃ d', Windows.populate_caches_and_freq H d = Some d'
        ∧ blocks_of_length (Z.to_nat (logical_core_count d)) d'.
Proof.
  intros HL Hd Hbuf Hsafe.
  destruct (windows_populate_unfold H d HL Hd) as (d3 & Hd3 & ->).
  unfold walked in Hsafe.
  destruct (Windows.cache_len H =? 0) eqn:E; [by exists d3|].
  apply Z.eqb_neq in E. rewrite (Hbuf E). cbn [negb].
  pose proof (cache_records_loop_inside _ (Windows.cache_records H) d3 Hd3) as Hloop.
  rewrite Z2Nat.id in Hloop by done.
  destruct (proj2 Hloop Hsafe) as [d' Hrun]. exists d'. split; [done|].
  by apply (cache_records_loop_keeps _ _ _ _ Hrun).
Qed.

(** The outcomes of the Windows [get_core_topology]. *)
Lemma win32_topology_shape W d rc d' :
  Win32.get_core_topology W d = Some (rc, d') →
  (rc = 204 ∧ d' = d)
  ∨ (rc = 205 ∧ d' = d)
  ∨ (rc = 203
     ∧ (d' = d
        ∨ d' = set_cores None
                 (set_physical_core_count (Z.of_nat (length (Win32.core_masks W))) d)))
  ∨ (rc = 0
     ∧ physical_core_count d' = Z.of_nat (length (Win32.core_masks W))
     ∧ ∃ cs, d' = set_cores (Some cs)
                    (set_physical_core_count (Z.of_nat (length (Win32.core_masks W))) d)
             ∧ map core_cpus cs = map Win32.set_bits (Win32.core_masks W)).
Proof.
  unfold Win32.get_core_topology. intros H.
  destruct (Win32.sizing_insufficient_buffer W); [|injection H as <- <-; by left].
  destruct (Win32.malloc_buffer W);
    [|injection H as <- <-; right; right; left; split; [done|by left]].
  destruct (Win32.filling_ok W); [|injection H as <- <-; by right; left].
  cbn [negb] in H.
  destruct (Win32.calloc_cores W); cbn [negb] in H;
    [|injection H as <- <-; right; right; left; split; [done|by right]].
  destruct (Win32.cores_of_masks W 0 (Win32.core_masks W)) as [cs|] eqn:Hcs; [|done].
  injection H as <- <-. apply cores_of_masks_cpus in Hcs as [Hcs _].
  right. right. right. split; [done|]. split; [done|]. by exists cs.
Qed.

(** X24: What the statements of [get_cpu_data] after the brand string do
    in the Windows build.  If one of the three arrays is refused they
    return 203 at once.  If the arrays are served, the cache records are
    safe and the calls and allocations of [get_core_topology] succeed,
    they return 0 with N = [GetActiveProcessorCount] logical processors,
    three arrays of N cells, the decoded flags, and one core per record
    of the core buffer holding the set bits of its mask.  Any result has
    the code 0, 203, 204 or 205, and with 204 or 205 the arrays and flags
    are filled while the cores are those passed in. *)
Theorem windows_fill_cpu_data_outcomes (H : Windows.Host) (d : CPU_DATA) :
  let P := Windows.shared H in
  let W := Windows.topology H in
  let N := wrap32 (Windows.GetActiveProcessorCount H) in
  (calloc_l1size P && calloc_l2size P && calloc_frequency P = false →
   ∃ d', Windows.fill_cpu_data H d = Some (203, d')
         ∧ logical_core_count d' = N ∧ l3size d' = 0
         ∧ cores d' = cores d ∧ algorithms d' = algorithms d)
  ∧ (calloc_l1size P && calloc_l2size P && calloc_frequency P = true →
     0 <= N →
     (Windows.cache_len H ≠ 0 → Windows.malloc_cache_buffer H = true) →
     (∀ r, r ∈ walked H → record_safe N r) →
     Win32.sizing_insufficient_buffer W = true → Win32.malloc_buffer W = true →
     Win32.filling_ok W = true → Win32.calloc_cores W = true →
     (∀ i, Win32.malloc_logical_ids W i = true) →
     ∃ d' cs, Windows.fill_cpu_data H d = Some (0, d')
              ∧ logical_core_count d' = N
              ∧ blocks_of_length (Z.to_nat N) d'
              ∧ algorithms d' = get_supported_algorithms P
              ∧ physical_core_count d' = Z.of_nat (length (Win32.core_masks W))
              ∧ cores d' = Some cs
              ∧ map core_cpus cs = map Win32.set_bits (Win32.core_masks W)
              ∧ cpu_name d' = cpu_name d)
  ∧ (∀ rc d', Windows.fill_cpu_data H d = Some (rc, d') →
              (rc = 0 ∨ rc = 203 ∨ rc = 204 ∨ rc = 205)
              ∧ logical_core_count d' = N ∧ cpu_name d' = cpu_name d
              ∧ (rc = 204 ∨ rc = 205 →
                 cores d' = cores d ∧ algorithms d' = get_supported_algorithms P)).
Proof.
  intros P W N. unfold Windows.fill_cpu_data, calloc.
  cbn [logical_core_count set_logical_core_count set_l1size set_l2size set_frequency
       set_l3size l1size l2size frequency].
  fold P W N. split; [|split].
  - intros Hc.
    destruct (calloc_l1size P), (calloc_l2size P), (calloc_frequency P);
      try discriminate Hc; (eexists; split; [reflexivity|repeat split]).
  - intros Hc HN Hbuf Hsafe T1 T2 T3 T4 Tm.
    apply andb_true_iff in Hc as [Hc H3]. apply andb_true_iff in Hc as [H1 H2].
    rewrite H1, H2, H3. cbn [is_null orb].
    set (d0 := set_l3size 0 _).
    destruct (windows_populate_safe_defined H d0) as (dp & Hp & Hb); [done| |done|done|].
    { repeat split; eexists; (split; [reflexivity|]); apply length_replicate. }
    rewrite Hp. bind_step.
    destruct (windows_populate_outside H d0 dp Hp) as (G1 & G2 & G3 & G4 & G5).
    change (logical_core_count d0) with N in *.
    set (d3 := set_algorithms _ dp).
    destruct (windows_topology_defined W d3 T1 T2 T3 T4 Tm) as [dt Ht].
    rewrite Ht. bind_step.
    apply win32_topology_shape in Ht
      as [[? _]|[[? _]|[[? _]|(_ & Hn & cs & -> & Hcs)]]]; try done.
    eexists. exists cs. split; [reflexivity|].
    cbn. rewrite G2. repeat split; try done.
    all: by destruct Hb as (B1 & B2 & B3).
  - intros rc d'.
    destruct (is_null _ || is_null _ || is_null _);
      [intros Hr; injection Hr as <- <-; split; [by right; left|];
       split; [done|]; split; [done|]; by intros [?|?]|].
    set (d0 := set_l3size 0 _).
    destruct (Windows.populate_caches_and_freq H d0) as [dp|] eqn:Hp; [|done]. bind_step.
    destruct (windows_populate_outside H d0 dp Hp) as (G1 & G2 & G3 & G4 & G5).
    set (d3 := set_algorithms _ dp).
    destruct (Win32.get_core_topology W d3) as [[rc' dt]|] eqn:Ht; [|done]. bind_step.
    intros Hr.
    assert (rc = rc' ∧ d' = dt) as [-> ->].
    { destruct (rc' =? 200) eqn:E; cbn [negb] in Hr; injection Hr as <- <-; [|done].
      apply Z.eqb_eq in E. subst rc'.
      apply win32_topology_shape in Ht
        as [[? _]|[[? _]|[[? _]|[? _]]]]; done. }
    apply win32_topology_shape in Ht
      as [[-> ->]|[[-> ->]|[[-> [->| ->]]|(-> & Hn & cs & -> & Hcs)]]].
    + split; [by right; right; left|]. by repeat split.
    + split; [by right; right; right|]. by repeat split.
    + split; [by right; left|]. split; [done|]. split; [done|]. by intros [?|?].
    + split; [by right; left|]. split; [done|]. split; [done|]. by intros [?|?].
    + split; [by left|]. split; [done|]. split; [done|]. by intros [?|?].
Qed.

Lemma windows_fill_cpu_data_outcomes_witness :
  ∃ d' cs, Windows.fill_cpu_data one_group_host zeroed_data = Some (0, d')
           ∧ logical_core_count d' = 4
           ∧ physical_core_count d' = 2
           ∧ cores d' = Some cs
           ∧ map core_cpus cs = [[0; 1]; [2; 3]].
Proof.
  destruct (proj1 (proj2 (windows_fill_cpu_data_outcomes one_group_host zeroed_data)))
    as (d' & cs & Hrun & HN & _ & _ & Hn & Hcores & Hcpus & _).
  - reflexivity.
  - vm_compute. discriminate.
  - reflexivity.
  - intros r Hr _ _ b Hb. vm_compute in Hr.
    repeat (apply elem_of_cons in Hr as [->|Hr];
            [vm_compute in Hb;
             repeat (apply elem_of_cons in Hb as [->|Hb]; [reflexivity|]);
             by apply elem_of_nil in Hb|]).
    by apply elem_of_nil in Hr.
  - reflexivity.
  - reflexivity.
  - reflexivity.
  - reflexivity.
  - intros i. reflexivity.
  - exists d', cs. split; [exact Hrun|]. split; [exact HN|]. split; [exact Hn|].
    split; [exact Hcores|]. rewrite Hcpus. vm_compute. reflexivity.
Defined.

(** X25: The test program never gets to its report.  Whatever the
    machine, [main] ends with "Failed to load DLL", with "Failed to find
    get_cpu_data", or with "get_cpu_data failed with code 0" (code 203 if
    the brand string could not be allocated): [get_cpu_data] answers 0
    where the test waits for 200, so on a machine where everything works
    the run ends with code 0 reported as a failure and CPU_Info.txt is not
    opened.  [get_cpu_data] itself changes nothing but [cpu_name] in the
    Windows build either. *)
Theorem test_program_never_reports (T : Windows.test_run) :
  let brand_served := malloc_brand (Windows.shared (Windows.host T)) in
  (∃ rc d', Windows.get_cpu_data (Windows.host T) (Some zeroed_data) = Some (rc, Some d')
            ∧ rc = (if brand_served then 0 else 203)
            ∧ logical_core_count d' = 0 ∧ cores d' = None ∧ l1size d' = None
            ∧ l2size d' = None ∧ frequency d' = None ∧ algorithms d' = no_algorithms)
  ∧ ∃ o, Windows.main T = Some o
         ∧ (∀ data, o ≠ Windows.report data)
         ∧ (o = Windows.load_failed ↔ Windows.LoadLibraryA T = false)
         ∧ (o = Windows.proc_missing
            ↔ Windows.LoadLibraryA T = true ∧ Windows.GetProcAddress T = false)
         ∧ (o = Windows.data_failed 0
            ↔ Windows.LoadLibraryA T = true ∧ Windows.GetProcAddress T = true
              ∧ brand_served = true)
         ∧ (o = Windows.data_failed 203
            ↔ Windows.LoadLibraryA T = true ∧ Windows.GetProcAddress T = true
              ∧ brand_served = false).
Proof.
  intros brand_served.
  assert (Hdata : Windows.get_cpu_data (Windows.host T) (Some zeroed_data)
                  = Some (if brand_served then 0 else 203,
                          Some (set_cpu_name
                                  (snd (get_cpu_brand (Windows.shared (Windows.host T)) None))
                                  zeroed_data))).
  { unfold Windows.get_cpu_data, get_cpu_brand. subst brand_served.
    by destruct (malloc_brand (Windows.shared (Windows.host T))). }
  split.
  - eexists _, _. split; [exact Hdata|]. by repeat split.
  - unfold Windows.main. rewrite Hdata. bind_step.
    destruct (Windows.LoadLibraryA T), (Windows.GetProcAddress T), brand_served;
      cbn [negb Z.eqb]; eexists; (split; [reflexivity|]);
      (split; [done|]); repeat split; try done; try (by intros (? & ? & ?));
      try (by intros [? ?]).
Qed.

Lemma test_program_never_reports_witness :
  Windows.main healthy_run = Some (Windows.data_failed 0)
  ∧ ∃ d', Windows.fill_cpu_data one_group_host zeroed_data = Some (0, d')
          ∧ logical_core_count d' = 4.
Proof.
  split.
  - destruct (proj2 (test_program_never_reports healthy_run))
      as (o & Hmain & _ & _ & _ & H0 & _).
    rewrite Hmain. f_equal. apply H0. repeat split.
  - eexists. split; vm_compute; reflexivity.
Defined.

(** ** The topology files on Linux *)

(** X26: The two topology files of a logical CPU are read through one
    buffer of 32 bytes.  When both hold a number and a newline, the ids
    are those numbers, and for a package id below 2^15 and a core id below
    2^16 the key, which becomes the [id] of the core, is the package id
    times 65536 plus the core id.  When the core file cannot be opened the
    core id is 0; when it opens at end of file the result of [fgets] is
    not looked at and the core id is read from the text of the package
    id. *)
Theorem topology_ids_read_the_files (P : Platform) (cpu : Z) (a b : list ascii) :
  physical_package_id P cpu = File (a ++ chars "
") →
  numeral a = true → (length a < 31)%nat →
  (core_id P cpu = File (b ++ chars "
") → numeral b = true → (length b < 31)%nat →
   topology_ids P cpu = (number a, number b)
   ∧ (number a < 2 ^ 15 → number b < 2 ^ 16 →
      topology_key P cpu = number a * 65536 + number b))
  ∧ (core_id P cpu = NoFile → topology_ids P cpu = (number a, 0))
  ∧ (core_id P cpu = File [] → topology_ids P cpu = (number a, number a)).
Proof.
  intros Hphy Ha Hla.
  assert (Hread : ∀ ds buf, numeral ds = true → (length ds < 31)%nat →
                            read_int_file 32 (File (ds ++ chars "
")) buf = (number ds, ds ++ chars "
")).
  { intros ds buf Hds Hlen. unfold read_int_file, fgets_into, fgets.
    destruct (ds ++ chars "
") as [|c l] eqn:E; [by destruct ds|]. rewrite <- E.
    change (32 - 1)%nat with 31%nat.
    rewrite take_line_whole by eauto using numeral_digits. simpl.
    unfold atoi. by rewrite scan_int_numeral. }
  unfold topology_key, topology_ids. rewrite Hphy, Hread by done.
  split; [|split].
  - intros Hcore Hb Hlb. rewrite Hcore, Hread by done. split; [done|].
    intros Hpa Hpb. rewrite core_key_sum, Z.shiftl_mul_pow2 by lia.
    pose proof (number_nonneg_from a 0 (numeral_digits _ Ha) ltac:(lia)) as Hage.
    pose proof (number_nonneg_from b 0 (numeral_digits _ Hb) ltac:(lia)) as Hbge.
    fold (number a) in Hage. fold (number b) in Hbge.
    rewrite wrap32_id by (unfold in_int; lia). rewrite Z.mod_small by lia. lia.
  - intros Hcore. by rewrite Hcore.
  - intros Hcore. rewrite Hcore. unfold read_int_file, fgets_into, fgets. simpl.
    unfold atoi. by rewrite scan_int_numeral.
Qed.

Lemma topology_ids_read_the_files_witness :
  topology_ids four_cpus 3 = (0, 1) ∧ topology_key four_cpus 3 = 1.
Proof.
  destruct (proj1 (topology_ids_read_the_files four_cpus 3 (chars "0") (chars "1")
                     eq_refl eq_refl ltac:(simpl; lia))
              eq_refl eq_refl ltac:(simpl; lia)) as [Hids Hkey].
  split; [exact Hids|]. apply Hkey; reflexivity.
Defined.
